(* ===== verification/_CoqProject ===== *)
-Q . S2P
Prelude.v
Fetch.v
JsNumber.v
JsValue.v
JsSort.v
Date.v
Abi.v
Metadata.v
Tokenlist.v
Balance.v
