(* ===== verification/Prelude.v ===== *)
(** * A verification development of the Superfluid skill resolvers

    The repository ships four self-contained Node scripts under
    [src/skills/superfluid/scripts/]:

    - [abi.mjs]       resolves a contract name or alias to an ABI exported by
                      a JavaScript module fetched from a CDN ([loadModule]),
                      and filters one function/event/error fragment by name;
    - [metadata.mjs]  loads the network list ([loadNetworks]) and resolves a
                      network by chain id or name ([resolveNetwork],
                      [requireNetwork]) for six sub-commands;
    - [tokenlist.mjs] loads the token list ([loadTokens]) and answers five
                      queries (by address, chain, symbol, super token, stats);
    - [balance.mjs]   loads the token list, resolves a Super Token
                      ([resolveToken]), calls a REST balance endpoint
                      ([fetchBalance]) and formats amounts, flow rates and
                      timestamps ([formatBalance], [formatFlowRate],
                      [formatTimestamp]).

    The scripts do not call each other; they share one shape: a
    fetch-with-cache-fallback load of a data source, then a pure lookup over
    the loaded data, then one JSON document on stdout or diagnostics on
    stderr with a non-zero exit.

    ** Files (in dependency order, each opens with its own summary)

    - [Prelude.v]  (this file) JavaScript string built-ins used by the
      scripts ([toLowerCase], [startsWith], [replace] of the first match),
      first-match lemmas on [List.find] and [List.filter], the [except]
      error monad ([let*] in [js_scope]) with [filterM], [findM], [mapM]
      for array methods whose callback may throw, the [sf] hint databases
      and shared tactics.
    - [Fetch.v]    the cache directory ([.cache] next to the scripts) as a
      [gmap] from file name to text with a writability flag, the single
      network request as an input, and the two load routines: [loadJson]
      (the [loadNetworks]/[loadTokens] pattern of metadata.mjs,
      tokenlist.mjs and balance.mjs, a Section over the source, its URL,
      its cache file and its projection such as [data.tokens]) and
      [loadModule] (abi.mjs), with the promise/[try]/[catch] completion
      semantics the latter depends on.  JSON text and module evaluation
      are behind the interfaces [JsonCodec] and [ModuleLoader] (classes;
      [JsonCodecLaws] states the parse/stringify law the cache needs).
      [invocation_step] is the step relation of successive invocations on
      one cache directory, [cache_inv] its invariant.
    - [JsNumber.v] JavaScript numbers as IEEE-754 binary64 values
      ([SpecFloat.spec_float] at precision 53, exponent bound 1024):
      [Number(string)] (StringToNumber), [===], [isNaN], [/], [*],
      [Number::toString] and [Number.prototype.toFixed].
    - [JsValue.v]  JSON values as the scripts see them after [JSON.parse],
      property reads that fall through to [Object.prototype], truthiness,
      [??], [||], [===], [ToString], object literals with spread as
      [JSON.stringify] prints them, and the outcome of one run (stdout
      documents, stderr lines, exit code or uncaught exception).
    - [JsSort.v]   [Array.prototype.sort] with a comparator as V8 runs
      it below 64 elements (a natural run, then binary insertion), with
      [undefined] moved last: a permutation, sorted for a strict weak
      order (used by the [stats] command of tokenlist.mjs).
    - [Date.v]     [new Date(t).toISOString()]: TimeClip, the proleptic
      Gregorian calendar by 400-year eras, and the ISO string.
    - [Abi.v]      abi.mjs: [ABI_MAP], [ALIASES], [resolveContract],
      [cdnUrl], [cacheFile], [sdkImportPath], the fragment filter with its
      hint count, and the whole dispatch [abi_main] over [loadModule].
    - [Metadata.v] metadata.mjs: [loadNetworks], [resolveNetwork],
      [requireNetwork], [summary], the six commands ([cmd_networks] ...
      [cmd_automation]) and [metadata_main], the top-level load followed
      by the [switch].
    - [Tokenlist.v] tokenlist.mjs (Module [TokenlistMjs]): the record
      tests ([isSuperToken], [tokenSummary]), the five commands
      ([cmd_by_address] ... [cmd_stats]) and [tokenlist_main]; pure views
      of well-formed records ([token_wf], [addr_l], [sym_l], [has_tag])
      relate the throwing callbacks to boolean filters.
    - [Balance.v]  balance.mjs (Module [BalanceMjs]): [resolveToken],
      [fetchBalance] with the [URLSearchParams] encoding of its URL, the
      three formatters, the result object and [balance_main].

    ** What the theorems show

    - Fetch.v: the cache fallback returns the cached value (spec 8.1);
      double failure prints the three diagnostic lines and exits 1 (8.2);
      a fresh fetch is written to the cache and read back offline; the
      reachable cache directories never make a JSON load exit; the cache
      is written before [data.tokens] is read, so a bad document poisons
      it.  For abi.mjs the diagnostic path of [loadModule] is unreachable
      (the import promise escapes the [try]), double failure rejects with
      module-not-found, and a read-only cache serves a stale module.
    - Abi.v: resolution ignores case, every alias reaches a canonical key
      that resolves to itself (8.3), fragment cardinality (8.4) and the
      not-found hint, the end-to-end lookup, the crash of the queries
      [constructor] and [__proto__], and that abi.mjs leaves the JSON
      caches alone.
    - Metadata.v: resolution by id and by name (8.7), the id path reads
      only [Number(query)], name matches are on lower-case stored names,
      the not-found diagnostics, the contract-role lookup (found, missing,
      and the [Object.prototype] keys that pass as found), the
      mainnet/testnet partition, the help that needs the data, and the
      cache files metadata.mjs touches.
    - Tokenlist.v: by-address prints the matching summaries in list
      order; super-token with an underlying address absent from the list
      prints the placeholder (8.8) and takes the first match by symbol or
      address; stats counts every record in exactly one chain entry;
      by-symbol with a non-numeric chain id matches nothing.
    - Balance.v: fixed-point formatting of whole amounts at every
      precision (8.5), the exact number of fraction digits, flow-rate sign preservation and null on ["0"]
      (8.6), the epoch date for timestamp strings that read as zero, [resolveToken]'s address
      precedence, and the error paths of the command (not found, HTTP
      error) with the metadata of a [0x...] argument matched by symbol.
    - Date.v: the printed fields denote the time value
      ([iso_fields_roundtrip]).
    Each theorem with hypotheses has a [_witness] that applies it to a
    concrete run and evaluates the hypotheses.

    ** Bounds and fuel

    - [decimal_exponent] corrects a [log2] estimate with at most 8 exact
      comparisons (the estimate is off by at most one), and
      [shortest_digits] tries at most 17 digit counts: 17 significant
      digits identify every binary64 value.
    - Integers of the scripts' data are binary64 numbers, not unbounded
      integers: [chainId] is compared with [===] on [number].
    - [10 ** d] is the exact power for integer [d] in 0..22 (every such
      power is a binary64 value, and V8 returns it); beyond that the
      host's result is the class parameter [PowHost], on which no theorem
      depends.  Token decimals in the data are 6 or 18.
    - [JsSort.v] follows V8 below 64 elements, more than the chain count
      of the token list; [Date.v] checks the day-of-era conversion on all
      146097 days of an era by evaluation, and the integers 0..100 are
      checked exact in JsNumber.v the same way ([all_in_range]).

    ** Modelling choices

    - Strings are [String.string] (bytes); [toLowerCase] is modelled on the
      ASCII letters, which covers every identifier the scripts compare
      (contract names, aliases, hex addresses, network names, symbols).
    - JSON text, [JSON.stringify] with indentation and the rendering of
      console messages are not modelled: stdout carries the JSON value
      passed to [out], stderr carries one structured line per
      [console.error] call, with the values it interpolates.
    - Fetch is a single request per invocation (no retry in the code), so
      its result is an input of the load routines, not an oracle.

    ** Not modelled

    - a concrete [JsonCodec] for [json] with the [JsonCodecLaws] proof:
      JSON text is an interface, and the examples use small codecs of
      their own;
    - the help texts' wording and the file paths of [import.meta.url]:
      output text and host configuration;
    - [JSON.stringify(o, null, 2)] layout: stdout carries the value. *)

From Stdlib Require Export ZArith Lia Ascii String List Bool.
From stdpp Require Export base list gmap strings option.

Declare Scope js_scope.
Delimit Scope js_scope with js.

Create HintDb sf discriminated.
Create Rewrite HintDb sf_rw.

(** ** JavaScript string built-ins used by the scripts *)

Section JsString.
Local Open Scope char_scope.

(** [String.prototype.toLowerCase] on one code unit, for ASCII letters. *)
Definition lower_char (c : ascii) : ascii :=
  let n := nat_of_ascii c in
  if (65 <=? n)%nat && (n <=? 90)%nat then ascii_of_nat (n + 32) else c.

Fixpoint toLowerCase (s : string) : string :=
  match s with
  | EmptyString => EmptyString
  | String c s' => String (lower_char c) (toLowerCase s')
  end.

(** [s.startsWith(p)] *)
Definition startsWith (s p : string) : bool := String.prefix p s.

(** [s.includes(p)] *)
Definition str_includes (s p : string) : bool :=
  match String.index 0 p s with Some _ => true | None => false end.

(** [s.replace(pat, rep)] with a string pattern: the first occurrence
    only, the empty pattern matching at the start. *)
Fixpoint replace_first (pat rep s : string) : string :=
  if String.prefix pat s then rep +:+ substring (String.length pat) (String.length s) s
  else match s with
       | EmptyString => EmptyString
       | String c s' => String c (replace_first pat rep s')
       end.
End JsString.

(** Case-insensitive comparison as the scripts write it:
    [a.toLowerCase() === b.toLowerCase()]. *)
Definition eq_ci (a b : string) : bool := String.eqb (toLowerCase a) (toLowerCase b).

(** ** The error monad *)

(** Code that throws is modelled with [except E A]: [inl e] is the thrown
    value, [inr v] the normal result. *)
Definition except (E A : Type) : Type := sum E A.

Definition ebind {E A B} (c : except E A) (k : A -> except E B) : except E B :=
  match c with inl e => inl e | inr a => k a end.

Notation "'let*' x := c 'in' k" := (ebind c (fun x => k))
  (at level 10, x name, c at level 100, k at level 200) : js_scope.

(** [arr.filter(p)] with a predicate that may throw: the first throw
    aborts the whole filter. *)
Fixpoint filterM {E A} (p : A -> except E bool) (l : list A) : except E (list A) :=
  match l with
  | [] => inr []
  | x :: l' =>
      ebind (p x) (fun b => ebind (filterM p l') (fun r => inr (if b then x :: r else r)))
  end.

(** [arr.find(p)] with a predicate that may throw. *)
Fixpoint findM {E A} (p : A -> except E bool) (l : list A) : except E (option A) :=
  match l with
  | [] => inr None
  | x :: l' => ebind (p x) (fun b => if b then inr (Some x) else findM p l')
  end.

(** [arr.map(f)] with a function that may throw. *)
Fixpoint mapM {E A B} (f : A -> except E B) (l : list A) : except E (list B) :=
  match l with
  | [] => inr []
  | x :: l' => ebind (f x) (fun y => ebind (mapM f l') (fun r => inr (y :: r)))
  end.

(** [arr.indexOf(x)] on strings, [None] for -1. *)
Fixpoint index_of (x : string) (l : list string) : option nat :=
  match l with
  | [] => None
  | y :: l' => if String.eqb x y then Some 0 else S <$> index_of x l'
  end.

(** [arr.join(sep)] on strings. *)
Fixpoint join (sep : string) (l : list string) : string :=
  match l with
  | [] => ""
  | [x] => x
  | x :: l' => x +:+ sep +:+ join sep l'
  end.

(** ** Lemmas on the string built-ins *)

Lemma lower_char_idem c : lower_char (lower_char c) = lower_char c.
Proof.
  unfold lower_char.
  destruct ((65 <=? nat_of_ascii c)%nat && (nat_of_ascii c <=? 90)%nat) eqn:E.
  - apply andb_true_iff in E as [E1 E2].
    apply Nat.leb_le in E1, E2.
    rewrite nat_ascii_embedding by lia.
    replace ((65 <=? nat_of_ascii c + 32)%nat && (nat_of_ascii c + 32 <=? 90)%nat) with false;
      [reflexivity|].
    symmetry. apply andb_false_iff. right. apply Nat.leb_gt. lia.
  - rewrite E. reflexivity.
Qed.

Lemma toLowerCase_idem s : toLowerCase (toLowerCase s) = toLowerCase s.
Proof. induction s as [|c s IH]; simpl; [done|]. by rewrite lower_char_idem, IH. Qed.

Lemma toLowerCase_length s : String.length (toLowerCase s) = String.length s.
Proof. induction s; simpl; auto. Qed.

Lemma eq_ci_refl a : eq_ci a a = true.
Proof. apply String.eqb_refl. Qed.

Lemma eq_ci_sym a b : eq_ci a b = eq_ci b a.
Proof. apply String.eqb_sym. Qed.

Lemma eq_ci_lower_l a b : eq_ci (toLowerCase a) b = eq_ci a b.
Proof. unfold eq_ci. by rewrite toLowerCase_idem. Qed.

Lemma eq_ci_lower_r a b : eq_ci a (toLowerCase b) = eq_ci a b.
Proof. unfold eq_ci. by rewrite toLowerCase_idem. Qed.

Lemma eq_ci_true a b : eq_ci a b = true <-> toLowerCase a = toLowerCase b.
Proof. apply String.eqb_eq. Qed.

#[export] Hint Rewrite toLowerCase_idem eq_ci_lower_l eq_ci_lower_r : sf_rw.
#[export] Hint Resolve eq_ci_refl : sf.

(** ** First-match lemmas on [Array.prototype.find] and [filter] *)

Section FindFilter.
Context {A : Type}.
Implicit Types (p q : A -> bool) (l : list A).

Lemma find_app_l p l1 l2 x :
  List.find p l1 = Some x -> List.find p (l1 ++ l2) = Some x.
Proof. induction l1 as [|y l1 IH]; simpl; [done|]. by destruct (p y). Qed.

Lemma find_app_r p l1 l2 :
  List.find p l1 = None -> List.find p (l1 ++ l2) = List.find p l2.
Proof. induction l1 as [|y l1 IH]; simpl; [done|]. by destruct (p y). Qed.

(** [find] returns the first element that satisfies the predicate. *)
Lemma find_first p l1 x l2 :
  Forall (fun y => p y = false) l1 -> p x = true ->
  List.find p (l1 ++ x :: l2) = Some x.
Proof.
  intros Hl Hx. rewrite find_app_r; simpl; [by rewrite Hx|].
  induction Hl as [|y l1 Hy _ IH]; simpl; [done|]. by rewrite Hy.
Qed.

Lemma find_ext p q l : (forall x, In x l -> p x = q x) -> List.find p l = List.find q l.
Proof.
  induction l as [|y l IH]; intros H; simpl; [done|].
  rewrite (H y) by (left; done). destruct (q y); [done|].
  apply IH. intros x Hx. apply H. by right.
Qed.

Lemma find_filter p q l :
  List.find p (List.filter q l) = List.find (fun x => q x && p x) l.
Proof.
  induction l as [|y l IH]; simpl; [done|].
  destruct (q y); simpl; [|done]. by destruct (p y).
Qed.

Lemma find_None_iff p l : List.find p l = None <-> Forall (fun y => p y = false) l.
Proof.
  split.
  - intros H. apply Forall_forall. intros x Hx. by eapply find_none.
  - induction 1 as [|y l Hy _ IH]; simpl; [done|]. by rewrite Hy.
Qed.

Lemma filter_nil_iff p l : List.filter p l = [] <-> Forall (fun y => p y = false) l.
Proof.
  split.
  - induction l as [|y l IH]; simpl; [constructor|].
    destruct (p y) eqn:E; [done|]. intros H. constructor; auto.
  - induction 1 as [|y l Hy _ IH]; simpl; [done|]. by rewrite Hy.
Qed.
(** The only element of [l] that satisfies [p] is the one [find] returns. *)
Lemma find_unique p l x :
  In x l -> p x = true -> (forall y, In y l -> p y = true -> y = x) -> List.find p l = Some x.
Proof.
  induction l as [|y l IH]; intros Hin Hx Huniq; [done|]. simpl.
  destruct (p y) eqn:Hy.
  - f_equal. apply Huniq; [by left|done].
  - destruct Hin as [->|Hin]; [congruence|].
    apply IH; [done|done|]. intros z Hz Hpz. apply Huniq; [by right|done].
Qed.

(** Two elements with the same image under a map without duplicates are
    equal. *)
Lemma NoDup_map_eq {B} (f : A -> B) l x y :
  NoDup (map f l) -> In x l -> In y l -> f x = f y -> x = y.
Proof.
  induction l as [|z l IH]; intros Hnd Hx Hy Hf; [done|].
  simpl in Hnd. inversion Hnd as [|? ? Hnotin Hnd']; subst.
  destruct Hx as [<-|Hx], Hy as [<-|Hy]; [done| | |by apply IH].
  - exfalso. apply Hnotin. rewrite Hf. apply list_elem_of_In. by apply in_map.
  - exfalso. apply Hnotin. rewrite <- Hf. apply list_elem_of_In. by apply in_map.
Qed.
(** [filter p] and [filter (negb . p)] split a list. *)
Lemma filter_partition_length p l :
  length (List.filter p l) + length (List.filter (fun x => negb (p x)) l) = length l.
Proof. induction l as [|x l IH]; simpl; [done|]. destruct (p x); simpl; lia. Qed.
End FindFilter.

Lemma existsb_eqb_In (s : string) l : existsb (String.eqb s) l = true -> In s l.
Proof.
  intros H. apply existsb_exists in H as [x [Hx Hs]].
  apply String.eqb_eq in Hs. by subst.
Qed.

#[export] Hint Resolve find_app_l find_first : sf.

(** ** Counting by classes *)

Section Classes.
Context {A : Type} (eqv : A -> A -> bool).
Hypothesis eqv_sym : forall x y, eqv x y = eqv y x.
Hypothesis eqv_trans : forall x y z, eqv x y = true -> eqv y z = true -> eqv x z = true.

Lemma list_sum_map_add (f g : A -> nat) (S : list A) :
  list_sum (map (fun s => f s + g s) S) = list_sum (map f S) + list_sum (map g S).
Proof. induction S as [|s S IH]; simpl; lia. Qed.

Lemma list_sum_map_zero (f : A -> nat) (S : list A) :
  (forall s, In s S -> f s = 0) -> list_sum (map f S) = 0.
Proof.
  induction S as [|s S IH]; intros H; simpl; [done|].
  rewrite H, IH; [done| |by left]. intros t Ht. apply H. by right.
Qed.

(** A value equivalent to some representative is equivalent to exactly
    one of a list of distinct, pairwise inequivalent representatives. *)
Lemma count_one (S : list A) x :
  NoDup S -> (forall a b, In a S -> In b S -> eqv a b = true -> a = b) ->
  (exists s, In s S /\ eqv s x = true) ->
  list_sum (map (fun s => if eqv s x then 1 else 0) S) = 1.
Proof.
  induction S as [|s S IH]; intros Hnd Huniq (s0 & Hin & Hs0); [done|].
  inversion Hnd as [|? ? Hnotin Hnd']; subst. simpl.
  destruct (eqv s x) eqn:Hsx.
  - rewrite list_sum_map_zero; [done|]. intros t Ht.
    destruct (eqv t x) eqn:Htx; [|done]. exfalso. apply Hnotin.
    enough (t = s) by (subst; by apply list_elem_of_In).
    apply Huniq; [by right|by left|]. apply (eqv_trans _ x); [done|by rewrite eqv_sym].
  - apply IH; [done| |].
    + intros a b Ha Hb. apply Huniq; by right.
    + destruct Hin as [<-|Hin]; [congruence|by exists s0].
Qed.

(** The class sizes of [l] over its representatives add up to its length. *)
Lemma sum_class_sizes (S l : list A) :
  NoDup S -> (forall a b, In a S -> In b S -> eqv a b = true -> a = b) ->
  Forall (fun x => exists s, In s S /\ eqv s x = true) l ->
  list_sum (map (fun s => length (List.filter (eqv s) l)) S) = length l.
Proof.
  intros Hnd Huniq. induction l as [|x l IH]; intros Hcov; simpl.
  - by apply list_sum_map_zero.
  - inversion Hcov as [|? ? Hx Hcov']; subst.
    rewrite (map_ext (fun s => length (List.filter (eqv s) (x :: l)))
                     (fun s => (if eqv s x then 1 else 0) + length (List.filter (eqv s) l)))
      by (intros s; simpl; by destruct (eqv s x)).
    rewrite list_sum_map_add, count_one, IH by done. lia.
Qed.
End Classes.

(** ** Lemmas on the error monad *)

Lemma ebind_inr {E A B} (a : A) (k : A -> except E B) : ebind (inr a) k = k a.
Proof. reflexivity. Qed.

Lemma ebind_inl {E A B} (e : E) (k : A -> except E B) : ebind (inl e) k = inl e.
Proof. reflexivity. Qed.

#[export] Hint Rewrite @ebind_inr @ebind_inl : sf_rw.

(** [filterM] with a predicate that never throws is [List.filter]. *)
Lemma filterM_pure {E A} (p : A -> except E bool) (f : A -> bool) l :
  (forall x, In x l -> p x = inr (f x)) -> filterM p l = inr (List.filter f l).
Proof.
  induction l as [|x l IH]; intros H; simpl; [done|].
  rewrite H by (left; done). simpl. rewrite IH by (intros y Hy; apply H; by right).
  reflexivity.
Qed.

(** [findM] with a predicate that never throws is [List.find]. *)
Lemma findM_pure {E A} (p : A -> except E bool) (f : A -> bool) l :
  (forall x, In x l -> p x = inr (f x)) -> findM p l = inr (List.find f l).
Proof.
  induction l as [|x l IH]; intros H; simpl; [done|].
  rewrite H by (left; done). simpl. destruct (f x); [done|].
  apply IH. intros y Hy. apply H. by right.
Qed.

(** [mapM] with a function that never throws is [map]. *)
Lemma mapM_pure {E A B} (g : A -> except E B) (f : A -> B) l :
  (forall x, In x l -> g x = inr (f x)) -> mapM g l = inr (map f l).
Proof.
  induction l as [|x l IH]; intros H; simpl; [done|].
  rewrite H by (left; done). simpl. rewrite IH by (intros y Hy; apply H; by right).
  reflexivity.
Qed.

(** ** Shared tactics *)

(** Case on every boolean test of the goal, left to right. *)
Ltac case_tests :=
  repeat match goal with
         | |- context [if ?b then _ else _] =>
             lazymatch b with
             | context [if _ then _ else _] => fail
             | _ => destruct b eqn:?
             end
         end.

(** Close an equation between computed values of a concrete run. *)
Ltac run_eval := vm_compute; reflexivity.

(** ** Substrings *)

Lemma substring_len n m s :
  (n + m <= String.length s)%nat -> String.length (substring n m s) = m.
Proof.
  revert n m. induction s as [|c s IH]; intros n m H; simpl in H.
  - assert (n = 0%nat) as -> by lia. assert (m = 0%nat) as -> by lia. done.
  - destruct n as [|n]; simpl.
    + destruct m as [|m]; simpl; [done|]. f_equal. apply IH. lia.
    + apply IH. lia.
Qed.

Lemma substring_full m s : (String.length s <= m)%nat -> substring 0 m s = s.
Proof.
  revert m. induction s as [|c s IH]; intros m H; simpl in *.
  - by destruct m.
  - destruct m as [|m]; [lia|]. simpl. f_equal. apply IH. lia.
Qed.

(** The first character of a string, if any. *)
Definition head_char (s : string) : option ascii :=
  match s with String c _ => Some c | EmptyString => None end.

Lemma head_char_append s t : s <> EmptyString -> head_char (s +:+ t) = head_char s.
Proof. by destruct s. Qed.

Lemma head_char_substring m s : (0 < m)%nat -> head_char (substring 0 m s) = head_char s.
Proof. destruct s, m; simpl; done || lia. Qed.

Lemma str_length_app s t : String.length (s +:+ t) = (String.length s + String.length t)%nat.
Proof. induction s as [|c s IH]; simpl; [done|]. by rewrite IH. Qed.

(** A string that starts with [pre] and then a dot does not start with a
    minus sign when [pre] does not. *)
Lemma head_substring_dot n m u c :
  head_char m <> Some c -> c <> "."%char -> head_char (substring 0 n m +:+ String "." u) <> Some c.
Proof. intros Hm Hc. destruct n, m; simpl in *; congruence. Qed.

(** ** Checking a predicate on a range of integers by evaluation *)

(** [p z0 && p (z0 + 1) && ... && p (z0 + n - 1)]. *)
Fixpoint all_in_range (p : Z -> bool) (n : nat) (z0 : Z) : bool :=
  match n with O => true | S k => p z0 && all_in_range p k (z0 + 1) end.

Lemma all_in_range_spec p n z0 :
  all_in_range p n z0 = true -> forall z, (z0 <= z < z0 + Z.of_nat n)%Z -> p z = true.
Proof.
  revert z0. induction n as [|n IH]; intros z0 H z Hz; [lia|].
  simpl in H. apply andb_true_iff in H as [H0 Hrest].
  destruct (Z.eq_dec z z0) as [->|Hne]; [done|]. apply (IH (z0 + 1)%Z); [done|lia].
Qed.

Lemma prefix_app p s : String.prefix p (p +:+ s) = true.
Proof. induction p as [|c p IH]; simpl; [by destruct s|]. by destruct (ascii_dec c c). Qed.
