(* ===== verification/Fetch.v ===== *)
(** * The fetch-with-cache-fallback routines

    Every script loads its data source with one [fetch] and falls back to
    a file of the [.cache] directory next to the scripts.  Two variants
    exist in the code:

    - [loadJson] is [loadNetworks] of metadata.mjs (lines 27-41) and
      [loadTokens] of tokenlist.mjs (26-40) and balance.mjs (21-35):
      the body is parsed with [res.json()], re-serialised with
      [JSON.stringify] into the cache file, and projected ([data] or
      [data.tokens]); every throw of the [try] block falls back to
      [JSON.parse(readFileSync(CACHE_FILE))], and a failing fallback prints
      three diagnostic lines and exits with status 1;
    - [loadModule] is [loadModule] of abi.mjs (90-108): the body is written
      to [abi-<module>.mjs] and the function [return]s the promise of a
      dynamic [import] of that file, both in the [try] block and in the
      fallback.

    The cache directory is a [gmap] from file name to contents with a flag
    telling whether [mkdirSync]/[writeFileSync] succeed; the result of the
    single network request is an input.  JSON text and module evaluation
    are behind the classes [JsonCodec] and [ModuleLoader]. *)

From S2P Require Import Prelude.
From Stdlib Require Import DecimalString DecimalNat.

(** ** The cache directory and the network request *)

(** The [.cache] directory: file name to contents, and whether writes
    succeed ([mkdirSync] and [writeFileSync] fail together on a read-only
    file system). *)
Record fs_state := mk_fs { fs_files : gmap string string; fs_writable : bool }.

(** [try { mkdirSync(CACHE_DIR, {recursive: true}); writeFileSync(f, data); } catch {}] *)
Definition write_best_effort (fs : fs_state) (file data : string) : fs_state :=
  if fs_writable fs then mk_fs (<[file := data]> (fs_files fs)) true else fs.

(** A response of [fetch]: its status and its body text. *)
Record response := mk_response { res_status : Z; res_body : string }.

(** [res.ok]: the status is in the range 200-299. *)
Definition res_ok (r : response) : bool := (200 <=? res_status r)%Z && (res_status r <=? 299)%Z.

(** The settled [await fetch(url)]: a response, or a rejection with its
    message (DNS failure, refused connection, ...). *)
Inductive fetch_outcome := FetchOk (r : response) | FetchRejected (msg : string).

(** A thrown error, by the statement that threw it. *)
Inductive js_error :=
  | ErrNetwork (msg : string)        (* await fetch(url) rejected *)
  | ErrHttp (status : Z)             (* throw new Error(`HTTP ${res.status}`) *)
  | ErrParse (msg : string)          (* res.json() / JSON.parse threw a SyntaxError *)
  | ErrProject (msg : string)        (* data.tokens threw a TypeError *)
  | ImportNotFound (file : string)   (* import() of a missing file rejected *)
  | ImportEval (msg : string).       (* import() of a file that does not evaluate rejected *)

(** One [console.error] line of a fallback path. *)
Inductive load_diag :=
  | DiagNoCache (what : string)      (* Error: Could not fetch <what> from CDN and no local cache found. *)
  | DiagNoModule (module : string)   (* Error: Could not fetch ABI module "<module>" from CDN and no local cache found. *)
  | DiagCdnUrl (url : string)        (* CDN URL: <url> *)
  | DiagFetchError (e : js_error).   (* Fetch error: <fetchErr.message> *)

(** A load either returns its value or prints diagnostics and calls
    [process.exit(1)]. *)
Inductive load_result (A : Type) := Loaded (a : A) | LoadExit (lines : list load_diag).
Arguments Loaded {A} a.
Arguments LoadExit {A} lines.

(** ** Interfaces of the JSON layer and of the module loader *)

(** [JSON.parse] (and [res.json()], which parses the body text) with its
    SyntaxError message, and [JSON.stringify]. *)
Class JsonCodec (V : Type) := {
  json_parse : string -> except string V;
  json_stringify : V -> string;
}.

(** What the cache needs from the JSON layer: re-parsing a serialised value
    gives the value back. *)
Class JsonCodecLaws (V : Type) `{JsonCodec V} := {
  json_parse_stringify : forall v, json_parse (json_stringify v) = inr v;
}.

(** Evaluation of the text of an ES module to its namespace object, or the
    error that makes [import()] reject. *)
Class ModuleLoader (M : Type) := {
  eval_module : string -> except string M;
}.

(** ** [loadNetworks] / [loadTokens] *)

Section LoadJson.
Context {V A : Type} `{JsonCodec V}.
(** [what] names the source in the first diagnostic line; [url] is
    [CDN_URL]; [cache_file] is [CACHE_FILE]; [proj] is the expression
    after [return]: [data] for networks, [data.tokens] for tokens. *)
Variables (what url cache_file : string) (proj : V -> except string A).

Definition load_diags (e : js_error) : list load_diag :=
  [DiagNoCache what; DiagCdnUrl url; DiagFetchError e].

(** The [catch (fetchErr)] block:
    [try { return proj(JSON.parse(readFileSync(CACHE_FILE))); } catch {}]
    then the three diagnostic lines and [process.exit(1)]. *)
Definition load_fallback (e : js_error) (fs : fs_state) : load_result A :=
  match fs_files fs !! cache_file with
  | Some txt =>
      match json_parse txt with
      | inr d => match proj d with inr a => Loaded a | inl _ => LoadExit (load_diags e) end
      | inl _ => LoadExit (load_diags e)
      end
  | None => LoadExit (load_diags e)
  end.

(** The statements of the [try] block up to [data]:
    [const res = await fetch(CDN_URL); if (!res.ok) throw ...;
     const data = await res.json();] *)
Definition fetch_json (net : fetch_outcome) : except js_error V :=
  match net with
  | FetchRejected m => inl (ErrNetwork m)
  | FetchOk r =>
      if negb (res_ok r) then inl (ErrHttp (res_status r))
      else match json_parse (res_body r) with
           | inl m => inl (ErrParse m)
           | inr data => inr data
           end
  end.

(** The whole function: the cache is written before [proj] runs, and
    every throw of the [try] block goes to the fallback. *)
Definition loadJson (net : fetch_outcome) (fs : fs_state) : load_result A * fs_state :=
  match fetch_json net with
  | inl e => (load_fallback e fs, fs)
  | inr data =>
      let fs' := write_best_effort fs cache_file (json_stringify data) in
      match proj data with
      | inr a => (Loaded a, fs')
      | inl m => (load_fallback (ErrProject m) fs', fs')
      end
  end.
End LoadJson.

(** ** [loadModule] of abi.mjs *)

(** The settled state of a promise. *)
Inductive settled (A : Type) := Fulfilled (a : A) | Rejected (e : js_error).
Arguments Fulfilled {A} a.
Arguments Rejected {A} e.

(** How a block of an async function completes: [return p] of a promise,
    a synchronous throw, or [process.exit(1)] after diagnostic lines. *)
Inductive completion (A : Type) :=
  | Return (p : settled A)
  | Throw (e : js_error)
  | Exited (lines : list load_diag).
Arguments Return {A} p.
Arguments Throw {A} e.
Arguments Exited {A} lines.

(** [try { body } catch (e) { handler }]: only a synchronous throw reaches
    the handler; a returned promise leaves the [try] whatever it settles
    to. *)
Definition try_catch {A} (body : completion A) (handler : js_error -> completion A) : completion A :=
  match body with Throw e => handler e | c => c end.

Section LoadModule.
Context {M : Type} `{ModuleLoader M}.

(** [import(pathToFileURL(file).href)]: a dynamic import returns a
    promise and never throws synchronously. *)
Definition dyn_import (fs : fs_state) (file : string) : completion M :=
  Return (match fs_files fs !! file with
          | Some code => match eval_module code with
                         | inr m => Fulfilled m
                         | inl e => Rejected (ImportEval e)
                         end
          | None => Rejected (ImportNotFound file)
          end).

(** [module], [url = cdnUrl(module)] and [cached = cacheFile(module)]. *)
Variables (module url cached : string).

Definition module_diags (e : js_error) : list load_diag :=
  [DiagNoModule module; DiagCdnUrl url; DiagFetchError e].

(** The [try] block: fetch, the [res.ok] check, the best-effort write,
    and [return import(cached)]. *)
Definition module_try (net : fetch_outcome) (fs : fs_state) : completion M * fs_state :=
  match net with
  | FetchRejected m => (Throw (ErrNetwork m), fs)
  | FetchOk r =>
      if negb (res_ok r) then (Throw (ErrHttp (res_status r)), fs)
      else let fs' := write_best_effort fs cached (res_body r) in
           (dyn_import fs' cached, fs')
  end.

(** [catch (fetchErr) { try { return import(cached); } catch {}
    console.error(...) x3; process.exit(1); }]: the lines after the
    inner [try] run only when it completes without returning. *)
Definition module_catch (fs : fs_state) (e : js_error) : completion M :=
  try_catch (dyn_import fs cached) (fun _ => Exited (module_diags e)).

Definition loadModule (net : fetch_outcome) (fs : fs_state) : completion M * fs_state :=
  let '(c, fs') := module_try net fs in (try_catch c (module_catch fs'), fs').
End LoadModule.

(** ** Properties of [loadJson] *)

Section LoadJsonFacts.
Context {V A : Type} `{JsonCodec V}.
Variables (what url cache_file : string) (proj : V -> except string A).

Local Abbreviation load := (loadJson what url cache_file proj).
Local Abbreviation fallback := (load_fallback what url cache_file proj).
Local Abbreviation diags := (load_diags what url).

(** The cache entry exists, parses and projects: the fallback can use it. *)
Definition cache_usable (fs : fs_state) : bool :=
  match fs_files fs !! cache_file with
  | Some txt => match json_parse txt with
                | inr d => match proj d with inr _ => true | inl _ => false end
                | inl _ => false
                end
  | None => false
  end.

Lemma write_best_effort_ro fs f d : fs_writable fs = false -> write_best_effort fs f d = fs.
Proof. unfold write_best_effort. by intros ->. Qed.

Lemma write_best_effort_files fs f d :
  fs_writable fs = true -> fs_files (write_best_effort fs f d) = <[f := d]> (fs_files fs).
Proof. unfold write_best_effort. by intros ->. Qed.

Lemma write_best_effort_other fs f d f' :
  f <> f' -> fs_files (write_best_effort fs f d) !! f' = fs_files fs !! f'.
Proof.
  intros Hne. unfold write_best_effort. destruct (fs_writable fs); simpl; [|done].
  by rewrite lookup_insert_ne.
Qed.

Lemma write_best_effort_writable fs f d : fs_writable (write_best_effort fs f d) = fs_writable fs.
Proof. unfold write_best_effort. by destruct (fs_writable fs) eqn:E. Qed.

Lemma load_fallback_exit e fs : cache_usable fs = false -> fallback e fs = LoadExit (diags e).
Proof.
  unfold cache_usable, load_fallback.
  destruct (fs_files fs !! cache_file) as [txt|]; [|done].
  destruct (json_parse txt) as [|d]; [done|]. by destruct (proj d).
Qed.

Lemma load_fallback_ok e fs txt d a :
  fs_files fs !! cache_file = Some txt -> json_parse txt = inr d -> proj d = inr a ->
  fallback e fs = Loaded a.
Proof. intros Hf Hp Hj. unfold load_fallback. by rewrite Hf, Hp, Hj. Qed.

Lemma load_fallback_not_exit e fs :
  cache_usable fs = true -> exists a, fallback e fs = Loaded a.
Proof.
  unfold cache_usable, load_fallback.
  destruct (fs_files fs !! cache_file) as [txt|]; [|done].
  destruct (json_parse txt) as [|d]; [done|]. destruct (proj d) as [|a]; [done|]. eauto.
Qed.

(** C1: Spec 8.1, cache fallback.  When the [try] block throws (the
    request rejects, the status is not 2xx or the body is not JSON) and
    the cache file holds a payload that parses and projects to [a], the
    load returns [a] and leaves the cache directory unchanged. *)
Theorem loadJson_cache_fallback net fs e txt d a :
  fetch_json net = inl e ->
  fs_files fs !! cache_file = Some txt -> json_parse txt = inr d -> proj d = inr a ->
  load net fs = (Loaded a, fs).
Proof.
  intros Hn Hf Hp Hj. unfold loadJson. rewrite Hn. f_equal. eapply load_fallback_ok; eauto.
Qed.

(** C2: Spec 8.2, double failure is fatal.  When the [try] block throws
    and the cache entry is missing, is not JSON or does not project, the
    load prints the three diagnostic lines naming the source, the CDN URL
    and the error of the [try] block, then exits; the cache directory is
    unchanged. *)
Theorem loadJson_double_failure net fs e :
  fetch_json net = inl e -> cache_usable fs = false ->
  load net fs = (LoadExit [DiagNoCache what; DiagCdnUrl url; DiagFetchError e], fs).
Proof. intros Hn Hc. unfold loadJson. rewrite Hn. by rewrite load_fallback_exit. Qed.

(** The success branch of the load: the projected value, after the
    best-effort write of [JSON.stringify(data)]. *)
Lemma loadJson_success net fs d a :
  fetch_json net = inr d -> proj d = inr a ->
  load net fs = (Loaded a, write_best_effort fs cache_file (json_stringify d)).
Proof. intros Hn Hj. unfold loadJson. by rewrite Hn, Hj. Qed.

(** C25: A successful fetch returns the freshly parsed and projected value
    and, when the directory is writable, stores [JSON.stringify(data)] as
    the cache file, every other file unchanged; on a read-only directory
    the failing write is swallowed and the cache is left as it was. *)
Theorem loadJson_fresh net fs d a :
  fetch_json net = inr d -> proj d = inr a ->
  load net fs = (Loaded a, if fs_writable fs
                           then mk_fs (<[cache_file := json_stringify d]> (fs_files fs)) true
                           else fs).
Proof. intros Hn Hj. rewrite (loadJson_success net fs d a Hn Hj). done. Qed.

(** Loads of one source never touch the cache file of another. *)
Lemma loadJson_frame net fs f :
  f <> cache_file -> fs_files (snd (load net fs)) !! f = fs_files fs !! f.
Proof.
  intros Hne. unfold loadJson.
  destruct (fetch_json net) as [e|d]; simpl; [done|].
  destruct (proj d); simpl; apply write_best_effort_other; congruence.
Qed.

Section WithLaws.
Context `{!JsonCodecLaws V}.

Lemma cache_usable_write fs d a :
  fs_writable fs = true -> proj d = inr a ->
  cache_usable (write_best_effort fs cache_file (json_stringify d)) = true.
Proof.
  intros Hw Hj. unfold cache_usable. rewrite write_best_effort_files by done.
  by rewrite lookup_insert_eq, json_parse_stringify, Hj.
Qed.

(** C10: Online then offline.  After a load whose fetch succeeded on a
    writable cache, any later load whose [try] block throws returns the
    same value from the cache file. *)
Theorem loadJson_online_then_offline net1 net2 fs d a e :
  fs_writable fs = true -> fetch_json net1 = inr d -> proj d = inr a ->
  fetch_json net2 = inl e ->
  load net2 (snd (load net1 fs)) = (Loaded a, snd (load net1 fs)).
Proof.
  intros Hw Hn1 Hj Hn2. rewrite (loadJson_success net1 fs d a Hn1 Hj). simpl.
  unfold loadJson. rewrite Hn2. f_equal. eapply load_fallback_ok; [|apply json_parse_stringify|done].
  rewrite write_best_effort_files by done. apply lookup_insert_eq.
Qed.

(** C26: The cache is written before [proj] runs.  When the fetched JSON
    does not project ([data.tokens] on [null]) and the directory is
    writable, the load overwrites the cache file with that JSON and then
    exits with the diagnostics, whatever the cache held before. *)
Theorem loadJson_poisons_cache net fs d m :
  fs_writable fs = true -> fetch_json net = inr d -> proj d = inl m ->
  load net fs = (LoadExit (diags (ErrProject m)),
                 write_best_effort fs cache_file (json_stringify d)).
Proof.
  intros Hw Hn Hj. unfold loadJson. rewrite Hn, Hj. f_equal.
  apply load_fallback_exit. unfold cache_usable.
  rewrite write_best_effort_files by done.
  by rewrite lookup_insert_eq, json_parse_stringify, Hj.
Qed.
End WithLaws.
End LoadJsonFacts.

(** ** The cache across invocations *)

(** One invocation of a tool changes the cache directory as its load
    does; [rtc] gives the sequences of invocations. *)
Section CacheInvariant.
Context {V A : Type} `{JsonCodec V} `{!JsonCodecLaws V}.
Variables (what url cache_file : string) (proj : V -> except string A).

Local Abbreviation load := (loadJson what url cache_file proj).
Local Abbreviation usable := (cache_usable cache_file proj).

Inductive invocation_step : fs_state -> fs_state -> Prop :=
  | invocation_step_load net fs : invocation_step fs (snd (load net fs)).

(** The cache file is absent or usable by the fallback. *)
Definition cache_inv (fs : fs_state) : Prop :=
  fs_files fs !! cache_file = None \/ usable fs = true.

(** [proj] succeeds on every JSON value ([return data] in metadata.mjs). *)
Hypothesis proj_total : forall d, exists a, proj d = inr a.

Lemma cache_inv_step fs fs' : cache_inv fs -> invocation_step fs fs' -> cache_inv fs'.
Proof.
  intros Hinv Hs. inversion Hs as [net fs0]; subst. unfold loadJson.
  destruct (fetch_json net) as [e|d]; [exact Hinv|].
  destruct (proj_total d) as [a Ha]. rewrite Ha. cbn [snd].
  destruct (fs_writable fs) eqn:Hw.
  - right. by apply (cache_usable_write cache_file proj fs d a).
  - by rewrite write_best_effort_ro.
Qed.

Lemma cache_inv_rtc fs0 fs : cache_inv fs0 -> rtc invocation_step fs0 fs -> cache_inv fs.
Proof. intros H0 Hr. induction Hr; eauto using cache_inv_step. Qed.

(** C11: Invariant of the cache directory.  From a directory without the
    cache file, every sequence of invocations keeps the file absent or
    usable, so once it exists no later invocation exits with the
    fetch diagnostics, whatever the network does. *)
Theorem cache_reachable_never_exits fs0 fs net :
  fs_files fs0 !! cache_file = None -> rtc invocation_step fs0 fs ->
  fs_files fs !! cache_file <> None ->
  exists a, fst (load net fs) = Loaded a.
Proof.
  intros H0 Hr Hex.
  destruct (cache_inv_rtc fs0 fs (or_introl H0) Hr) as [Hn|Hu]; [done|].
  unfold loadJson. destruct (fetch_json net) as [e|d]; simpl.
  - by apply load_fallback_not_exit.
  - destruct (proj_total d) as [a Ha]. rewrite Ha. eauto.
Qed.
End CacheInvariant.

(** ** Properties of [loadModule] *)

Section LoadModuleFacts.
Context {M : Type} `{ModuleLoader M}.
Variables (module url cached : string).

Local Abbreviation load := (loadModule module url cached).

Lemma dyn_import_returns fs f : exists p, dyn_import fs f = @Return M p.
Proof. unfold dyn_import. eauto. Qed.

(** The inner [try] of the [catch] block always returns the import
    promise. *)
Lemma module_catch_returns fs e : exists p, module_catch module url cached fs e = @Return M p.
Proof.
  unfold module_catch. destruct (dyn_import_returns fs cached) as [p ->]. simpl. eauto.
Qed.

(** A module load changes no cache file but its own. *)
Lemma loadModule_frame net fs f :
  f <> cached -> fs_files (snd (load net fs)) !! f = fs_files fs !! f.
Proof.
  intros Hne. unfold loadModule, module_try.
  destruct net as [r|m]; [destruct (negb (res_ok r))|]; simpl; try done.
  apply write_best_effort_other. congruence.
Qed.

(** C12: The diagnostic path of [loadModule] is dead code.  Whatever the
    network and the cache hold, [loadModule] returns a promise and never
    reaches the [console.error] lines and [process.exit(1)] of its
    [catch] block: a missing cache surfaces as a rejected [import()]
    promise instead of the documented diagnostic. *)
Theorem loadModule_never_reports net fs lines :
  fst (loadModule module url cached net fs) <> Exited lines.
Proof.
  unfold loadModule, module_try.
  destruct net as [r|m]; [destruct (negb (res_ok r))|]; simpl;
    try (destruct (module_catch_returns fs (ErrHttp (res_status r))) as [p ->]; discriminate);
    try (destruct (module_catch_returns fs (ErrNetwork m)) as [p ->]; discriminate).
  destruct (dyn_import_returns (write_best_effort fs cached (res_body r)) cached) as [p ->].
  discriminate.
Qed.

(** C13: Double failure in abi.mjs.  When the request fails (rejected or
    non-2xx) and the cache file is missing, the promise returned by
    [loadModule] rejects with the module-not-found error of [import()],
    so the top-level [await] throws instead of printing the diagnostic. *)
Theorem loadModule_double_failure net fs :
  match net with FetchRejected _ => True | FetchOk r => res_ok r = false end ->
  fs_files fs !! cached = None ->
  load net fs = (Return (Rejected (ImportNotFound cached)), fs).
Proof.
  intros Hn Hc. unfold loadModule, module_try, module_catch, dyn_import.
  destruct net as [r|m]; [rewrite Hn|]; simpl; by rewrite Hc.
Qed.

(** C27: A fetched module is served from the cache file, not from the
    response.  When the response is 2xx but the cache cannot be written,
    [loadModule] imports whatever the cache file held before: a stale
    module when one was cached. *)
Theorem loadModule_stale_on_readonly r fs code m :
  res_ok r = true -> fs_writable fs = false ->
  fs_files fs !! cached = Some code -> eval_module code = inr m ->
  load (FetchOk r) fs = (Return (Fulfilled m), fs).
Proof.
  intros Hok Hw Hc He. unfold loadModule, module_try. rewrite Hok. simpl.
  unfold write_best_effort. rewrite Hw. unfold dyn_import. by rewrite Hc, He.
Qed.

(** C28: On a writable cache, a 2xx response is written to the cache file
    and its module is returned; a body that does not evaluate rejects the
    import without trying any older cache, which it has overwritten. *)
Theorem loadModule_fresh r fs :
  res_ok r = true -> fs_writable fs = true ->
  load (FetchOk r) fs =
    (Return (match eval_module (res_body r) with
             | inr m => Fulfilled m
             | inl e => Rejected (ImportEval e)
             end),
     mk_fs (<[cached := res_body r]> (fs_files fs)) true).
Proof.
  intros Hok Hw. unfold loadModule, module_try. rewrite Hok. simpl.
  unfold write_best_effort. rewrite Hw. unfold dyn_import. simpl.
  by rewrite lookup_insert_eq.
Qed.
End LoadModuleFacts.

(** ** Concrete runs *)

(** A JSON codec for documents that are one natural number, with the
    printer of [JSON.stringify] and a strict parser, and a module loader
    whose modules are their own text.  They instantiate the interfaces for
    the concrete runs below. *)
Module FetchExamples.
Definition nat_stringify (n : nat) : string := NilEmpty.string_of_uint (Nat.to_uint n).

Definition nat_parse (s : string) : except string nat :=
  match NilEmpty.uint_of_string s with
  | Some u => if String.eqb (nat_stringify (Nat.of_uint u)) s then inr (Nat.of_uint u)
              else inl "Unexpected number in JSON"
  | None => inl "Unexpected token in JSON"
  end.

#[export] Instance nat_codec : JsonCodec nat := {| json_parse := nat_parse; json_stringify := nat_stringify |}.

#[export] Instance nat_codec_laws : JsonCodecLaws nat.
Proof.
  constructor. intros n. simpl. unfold nat_parse, nat_stringify.
  rewrite NilEmpty.usu, Unsigned.of_to, String.eqb_refl. reflexivity.
Qed.

#[export] Instance text_loader : ModuleLoader string :=
  {| eval_module := fun code => if String.eqb code "" then inl "Unexpected end of input" else inr code |}.

Definition url := "https://cdn.jsdelivr.net/npm/@superfluid-finance/metadata/networks.json".
Definition offline := FetchRejected "getaddrinfo ENOTFOUND cdn.jsdelivr.net".
Definition online (body : string) := FetchOk (mk_response 200 body).
Definition cached (txt : string) := mk_fs {[ "networks.json" := txt ]} true.
Definition empty_rw := mk_fs ∅ true.

(** [data.tokens] on documents whose value 0 stands for [null]. *)
Definition tokens_of (n : nat) : except string nat :=
  match n with O => inl "Cannot read properties of null (reading 'tokens')" | S k => inr k end.
End FetchExamples.

Import FetchExamples.

Definition tokens_url := "https://cdn.jsdelivr.net/npm/@superfluid-finance/tokenlist/dist/superfluid.extended.tokenlist.json".

Lemma loadJson_cache_fallback_witness :
  loadJson "metadata" url "networks.json" (@inr string nat) offline (cached "42") = (Loaded 42, cached "42").
Proof. eapply loadJson_cache_fallback; reflexivity. Defined.

Lemma loadJson_double_failure_witness :
  loadJson "metadata" url "networks.json" (@inr string nat) offline empty_rw =
  (LoadExit [DiagNoCache "metadata"; DiagCdnUrl url;
             DiagFetchError (ErrNetwork "getaddrinfo ENOTFOUND cdn.jsdelivr.net")], empty_rw).
Proof. apply loadJson_double_failure; reflexivity. Defined.

Lemma loadJson_fresh_witness :
  loadJson "metadata" url "networks.json" (@inr string nat) (online "7") (cached "42") =
  (Loaded 7, if fs_writable (cached "42")
             then mk_fs (<["networks.json" := json_stringify 7]> (fs_files (cached "42"))) true
             else cached "42").
Proof. apply loadJson_fresh; reflexivity. Defined.

Lemma loadJson_online_then_offline_witness :
  loadJson "metadata" url "networks.json" (@inr string nat) offline
    (snd (loadJson "metadata" url "networks.json" (@inr string nat) (online "7") empty_rw)) =
  (Loaded 7, snd (loadJson "metadata" url "networks.json" (@inr string nat) (online "7") empty_rw)).
Proof. eapply (loadJson_online_then_offline _ _ _ _ (online "7") offline empty_rw 7 7); reflexivity. Defined.

Lemma loadJson_poisons_cache_witness :
  loadJson "token list" tokens_url "tokenlist.json" tokens_of (online "0")
    (mk_fs {[ "tokenlist.json" := "5" ]} true) =
  (LoadExit [DiagNoCache "token list"; DiagCdnUrl tokens_url;
             DiagFetchError (ErrProject "Cannot read properties of null (reading 'tokens')")],
   write_best_effort (mk_fs {[ "tokenlist.json" := "5" ]} true) "tokenlist.json" (json_stringify 0)).
Proof. apply loadJson_poisons_cache; [exact _|reflexivity..]. Defined.

Lemma cache_reachable_never_exits_witness :
  exists a, fst (loadJson "metadata" url "networks.json" (@inr string nat) offline
                  (snd (loadJson "metadata" url "networks.json" (@inr string nat) (online "7") empty_rw)))
            = Loaded a.
Proof.
  apply (cache_reachable_never_exits "metadata" url "networks.json" (@inr string nat)
           (fun d => ex_intro _ d eq_refl) empty_rw).
  - reflexivity.
  - apply rtc_once. apply invocation_step_load.
  - vm_compute. discriminate.
Defined.

Lemma loadModule_double_failure_witness :
  loadModule "core" "https://cdn.jsdelivr.net/npm/@sfpro/sdk/dist/abi/core/generated.js"
    "abi-core.mjs" (M := string) offline empty_rw
  = (Return (Rejected (ImportNotFound "abi-core.mjs")), empty_rw).
Proof. apply loadModule_double_failure; [exact I | reflexivity]. Defined.

Lemma loadModule_stale_on_readonly_witness :
  loadModule "core" "https://cdn.jsdelivr.net/npm/@sfpro/sdk/dist/abi/core/generated.js"
    "abi-core.mjs" (FetchOk (mk_response 200 "export const hostAbi = []"))
    (mk_fs {[ "abi-core.mjs" := "export const hostAbi = [1]" ]} false)
  = (Return (Fulfilled "export const hostAbi = [1]"),
     mk_fs {[ "abi-core.mjs" := "export const hostAbi = [1]" ]} false).
Proof. eapply loadModule_stale_on_readonly; reflexivity. Defined.

Lemma loadModule_fresh_witness :
  loadModule "core" "https://cdn.jsdelivr.net/npm/@sfpro/sdk/dist/abi/core/generated.js"
    "abi-core.mjs" (FetchOk (mk_response 200 "")) (mk_fs {[ "abi-core.mjs" := "old" ]} true)
  = (Return (@Rejected string (ImportEval "Unexpected end of input")),
     mk_fs (<[ "abi-core.mjs" := "" ]> {[ "abi-core.mjs" := "old" ]}) true).
Proof. rewrite loadModule_fresh by reflexivity. reflexivity. Defined.
