(* ===== verification/JsNumber.v ===== *)
(** * JavaScript numbers

    A JavaScript number is an IEEE-754 binary64 value, here the
    [spec_float] of the Standard Library ([Floats.SpecFloat], after Flocq)
    at precision 53 and exponent bound 1024.  This file holds the number
    operations the scripts apply: [Number(string)] (StringToNumber,
    ECMA-262 7.1.4.1.1), [isNaN], [===] on numbers, [/], [*], [10 ** d]
    and [Number.prototype.toFixed] (ECMA-262 21.1.3.3), with
    [Number::toString] for the values where [toFixed] falls back to it.
    These are language built-ins, not code of the repository; the files of
    the scripts use them. *)

From S2P Require Import Prelude.
From Stdlib Require Export SpecFloat.
From Stdlib Require Import DecimalString DecimalPos.

Definition prec : Z := 53.
Definition emax : Z := 1024.

Abbreviation number := spec_float.

#[export] Instance number_eq_dec : EqDecision number.
Proof. solve_decision. Defined.

Definition NaN : number := S754_nan.
Definition pos_zero : number := S754_zero false.

(** The number nearest to the integer [z] (round to nearest, ties to even). *)
Definition of_Z (z : Z) : number := binary_normalize prec emax z 0 false.

(** [x / y], [x * y] *)
Definition num_div (x y : number) : number := SFdiv prec emax x y.
Definition num_mul (x y : number) : number := SFmul prec emax x y.

(** [x - y], and [x < y] (false when either is NaN). *)
Definition num_sub (x y : number) : number := SFsub prec emax x y.
Definition num_ltb (x y : number) : bool := SFltb x y.

(** [arr.length] and other counts, as numbers. *)
Definition of_nat (n : nat) : number := of_Z (Z.of_nat n).

(** [x === y] on numbers (Number::equal): NaN is unequal to itself and
    the two zeros are equal. *)
Definition num_eqb (x y : number) : bool := SFeqb x y.

(** [isNaN(x)] on a number. *)
Definition isNaN (x : number) : bool := match x with S754_nan => true | _ => false end.

(** ** Equality of numbers *)

(** [x] is one of the two zeros. *)
Definition is_zero (x : number) : bool := match x with S754_zero _ => true | _ => false end.

Lemma num_eqb_spec x y :
  num_eqb x y = true <-> (x = y /\ isNaN x = false) \/ (is_zero x = true /\ is_zero y = true).
Proof.
  unfold num_eqb, SFeqb, SFcompare.
  destruct x as [sx|sx| |sx mx ex], y as [sy|sy| |sy my ey]; try destruct sx; try destruct sy; simpl;
    try (split; [intros _; by right|done]);
    try (split; [intros; left; done|done]);
    try (split; [done|intros [[H1 H2]|[H1 H2]]; done]).
  all: destruct (Z.compare_spec ex ey) as [<-|Hc|Hc]; simpl;
    try (split; [done|intros [[H _]|[? ?]]; [injection H as ? ?; lia|done]]).
  all: destruct (PosDef.Pos.compare_cont Eq mx my) eqn:E; simpl.
  all: try (apply Pos.compare_eq_iff in E as ->; split; [intros _; by left|done]).
  all: split; [done|]; intros [[H _]|[H1 H2]]; [|done]; injection H as ->;
    pose proof (Pos.compare_refl my) as R; unfold Pos.compare in R; congruence.
Qed.

Lemma num_eqb_refl x : isNaN x = false -> num_eqb x x = true.
Proof. intros H. apply num_eqb_spec. by left. Qed.

Lemma num_eqb_sym x y : num_eqb x y = num_eqb y x.
Proof.
  apply eq_true_iff_eq. rewrite !num_eqb_spec.
  split; intros [[-> ?]|[? ?]]; auto.
Qed.

Lemma num_eqb_trans x y z : num_eqb x y = true -> num_eqb y z = true -> num_eqb x z = true.
Proof.
  rewrite !num_eqb_spec. intros [[-> ?]|[? ?]] [[<- ?]|[? ?]]; auto.
Qed.

(** NaN is unequal to everything, itself included. *)
Lemma num_eqb_nan_l y : num_eqb NaN y = false.
Proof. by destruct y. Qed.

(** ** Rounding a decimal value *)

(** The number nearest to [(-1)^neg * m * 10^e] for [m >= 0].  Values
    beyond [10^400] overflow to an infinity and values below [2^-1076]
    underflow to a zero, as the rounding does; the two tests only spare
    the computation of huge powers of ten. *)
Definition round_decimal (neg : bool) (m e : Z) : number :=
  if (m =? 0)%Z then S754_zero neg
  else if (0 <=? e)%Z then
    if (400 <? e)%Z then S754_infinity neg
    else binary_normalize prec emax (if neg then - (m * 10 ^ e) else m * 10 ^ e)%Z 0 neg
  else if (Z.log2 m + 1 + 3 * e <? -1080)%Z then S754_zero neg
  else let '(q, e', loc) := SFdiv_core_binary prec emax m 0 (10 ^ (- e)) 0 in
       binary_round_aux prec emax neg q e' loc.

(** ** StringToNumber *)

Section StringToNumber.
Local Open Scope char_scope.

(** StrWhiteSpaceChar restricted to one-byte code units: TAB, LF, VT, FF,
    CR and SPACE. *)
Definition is_ws (c : ascii) : bool :=
  let n := nat_of_ascii c in
  (n =? 9)%nat || (n =? 10)%nat || (n =? 11)%nat || (n =? 12)%nat || (n =? 13)%nat || (n =? 32)%nat.

Fixpoint drop_ws (l : list ascii) : list ascii :=
  match l with c :: l' => if is_ws c then drop_ws l' else l | [] => [] end.

Definition trim_ws (l : list ascii) : list ascii := rev (drop_ws (rev (drop_ws l))).

(** The value of one digit in [radix] (2, 8, 10 or 16). *)
Definition digit_val (radix : Z) (c : ascii) : option Z :=
  let n := Z.of_nat (nat_of_ascii c) in
  let v := if (48 <=? n)%Z && (n <=? 57)%Z then Some (n - 48)%Z
           else if (97 <=? n)%Z && (n <=? 102)%Z then Some (n - 87)%Z
           else if (65 <=? n)%Z && (n <=? 70)%Z then Some (n - 55)%Z
           else None in
  match v with Some d => if (d <? radix)%Z then Some d else None | None => None end.

(** The longest run of digits: the value accumulated onto [acc], the
    number of digits read, and the rest. *)
Fixpoint digits (radix acc : Z) (l : list ascii) : Z * nat * list ascii :=
  match l with
  | c :: l' =>
      match digit_val radix c with
      | Some d => let '(v, k, r) := digits radix (acc * radix + d)%Z l' in (v, S k, r)
      | None => (acc, O, l)
      end
  | [] => (acc, O, [])
  end.

(** ExponentPart after the [e]: an optional sign and at least one digit,
    ending the literal. *)
Definition parse_exponent (l : list ascii) : option Z :=
  let '(neg, l') := match l with
                    | "+" :: r => (false, r)
                    | "-" :: r => (true, r)
                    | _ => (false, l)
                    end in
  match digits 10 0 l' with
  | (v, S _, []) => Some (if neg then - v else v)%Z
  | _ => None
  end.

(** StrUnsignedDecimalLiteral: [Infinity], or digits with an optional
    fraction and exponent, as a mantissa and a power of ten. *)
Definition parse_unsigned_decimal (l : list ascii) : option (option (Z * Z)) :=
  if decide (l = list_ascii_of_string "Infinity") then Some None
  else
    let '(ip, ni, r1) := digits 10 0 l in
    let '(m, nf, r2, dot) := match r1 with
                             | "." :: r => let '(v, k, r') := digits 10 ip r in (v, k, r', true)
                             | _ => (ip, O, r1, false)
                             end in
    if ((ni + nf)%nat =? 0)%nat then None
    else match r2 with
         | [] => Some (Some (m, - Z.of_nat nf)%Z)
         | c :: r => if (c =? "e")%char || (c =? "E")%char then
                       match parse_exponent r with
                       | Some x => Some (Some (m, x - Z.of_nat nf)%Z)
                       | None => None
                       end
                     else None
         end.

(** NonDecimalIntegerLiteral: [0x], [0o] or [0b] and at least one digit. *)
Definition parse_non_decimal (l : list ascii) : option Z :=
  let radix := match l with
               | "0" :: ("x" | "X") :: _ => Some 16%Z
               | "0" :: ("o" | "O") :: _ => Some 8%Z
               | "0" :: ("b" | "B") :: _ => Some 2%Z
               | _ => None
               end in
  match radix, l with
  | Some b, _ :: _ :: r => match digits b 0 r with (v, S _, []) => Some v | _ => None end
  | _, _ => None
  end.

(** StrNumericLiteral, after trimming. *)
Definition parse_numeric (l : list ascii) : number :=
  match parse_non_decimal l with
  | Some v => of_Z v
  | None =>
      let '(neg, l') := match l with
                        | "+" :: r => (false, r)
                        | "-" :: r => (true, r)
                        | _ => (false, l)
                        end in
      match parse_unsigned_decimal l' with
      | Some None => S754_infinity neg
      | Some (Some (m, e)) => round_decimal neg m e
      | None => NaN
      end
  end.

(** [Number(s)] for a string: whitespace only gives 0, a string that is
    not a StringNumericLiteral gives NaN. *)
Definition StringToNumber (s : string) : number :=
  match trim_ws (list_ascii_of_string s) with
  | [] => pos_zero
  | l => parse_numeric l
  end.
End StringToNumber.

Local Open Scope Z_scope.

(** ** Decimal digits *)

(** The decimal digits of a non-negative integer, without leading zeros. *)
Definition Z_to_dec (n : Z) : string :=
  match n with
  | Zpos p => NilEmpty.string_of_uint (Pos.to_uint p)
  | _ => "0"
  end.

Fixpoint zeros (k : nat) : string :=
  match k with O => "" | S k' => String "0" (zeros k') end.

(** The exact value of a finite number as [sign, m, e] with value
    [(-1)^sign * m * 2^e]. *)
Definition finite_parts (x : number) : option (bool * Z * Z) :=
  match x with
  | S754_finite s m e => Some (s, Zpos m, e)
  | S754_zero s => Some (s, 0%Z, 0%Z)
  | _ => None
  end.

(** [m * 2^e * 10^f] rounded to an integer, ties away from zero: the [n]
    of [toFixed] step 10.a ("if there are two such n, pick the larger"). *)
Definition scaled_round (m e f : Z) : Z :=
  if (0 <=? e)%Z then (m * 2 ^ e * 10 ^ f)%Z
  else let num := (m * 10 ^ f)%Z in
       let den := (2 ^ (- e))%Z in
       (num / den + (if (den <=? 2 * (num mod den))%Z then 1 else 0))%Z.

(** ** [Number::toString] *)

(** The decimal exponent [n] of a positive [m * 2^e]:
    [10^(n-1) <= m * 2^e < 10^n], from an estimate through [log2] corrected
    by exact comparisons. *)
Definition scaled_ge (m e p : Z) : bool :=
  (* m * 2^e >= 10^p, compared on integers *)
  let lhs_num := if (0 <=? e) then m * 2 ^ e else m in
  let lhs_den := if (0 <=? e) then 1 else 2 ^ (- e) in
  if (0 <=? p) then (10 ^ p * lhs_den <=? lhs_num) else (lhs_den <=? lhs_num * 10 ^ (- p)).

Definition decimal_exponent (m e : Z) : Z :=
  let est := ((Z.log2 m + e) * 30103 / 100000 + 1)%Z in
  let fix adjust (fuel : nat) (n : Z) :=
    match fuel with
    | O => n
    | S f => if negb (scaled_ge m e (n - 1)) then adjust f (n - 1)
             else if scaled_ge m e n then adjust f (n + 1) else n
    end in
  adjust 8%nat est.

(** The shortest digits: for [k = 1, 2, ...] the [k]-digit [s] nearest to
    [m * 2^e / 10^(n-k)] (the even one on a tie, then the other one) whose
    value [s * 10^(n-k)] rounds back to the number [x]; returns [(s, k, n)]
    with [10^(k-1) <= s < 10^k] (ECMA-262 6.1.6.1.20 step 5). *)
Definition shortest_digits (x : number) (m e : Z) : Z * Z * Z :=
  let n := decimal_exponent m e in
  let fix go (fuel : nat) (k : Z) :=
    match fuel with
    | O => (m, k, n)
    | S fuel' =>
        let p := n - k in
        let num := (if (0 <=? e) then m * 2 ^ e else m) * (if (p <? 0) then 10 ^ (- p) else 1) in
        let den := (if (0 <=? e) then 1 else 2 ^ (- e)) * (if (p <? 0) then 1 else 10 ^ p) in
        let lo := num / den in
        let hi := lo + 1 in
        let dlo := num - lo * den in
        let dhi := hi * den - num in
        let ok s := if decide (round_decimal false s p = x) then true else false in
        let pick_hi := (dhi <? dlo) || ((dhi =? dlo) && Z.even hi) in
        let first := if pick_hi then hi else lo in
        let second := if pick_hi then lo else hi in
        let norm s := if (s =? 10 ^ k) then (10 ^ (k - 1), k, n + 1) else (s, k, n) in
        if (0 <? first) && ok first then norm first
        else if (0 <? second) && ok second then norm second
        else go fuel' (k + 1)
    end in
  go 17%nat 1.

(** The layout of ECMA-262 6.1.6.1.20 steps 6-12 for [s, k, n]. *)
Definition layout_digits (s k n : Z) : string :=
  let ds := Z_to_dec s in
  let kn := Z.to_nat k in
  if (k <=? n) && (n <=? 21) then ds +:+ zeros (Z.to_nat (n - k))
  else if (0 <? n) && (n <=? 21) then
    substring 0 (Z.to_nat n) ds +:+ "." +:+ substring (Z.to_nat n) (kn - Z.to_nat n)%nat ds
  else if (-6 <? n) && (n <=? 0) then "0." +:+ zeros (Z.to_nat (- n)) +:+ ds
  else
    let e := n - 1 in
    let exp := (if (0 <=? e) then "+" else "-") +:+ Z_to_dec (Z.abs e) in
    match ds with
    | String d rest => if (k =? 1) then String d ("e" +:+ exp) else String d ("." +:+ rest +:+ "e" +:+ exp)
    | EmptyString => ""
    end.

(** [Number::toString(x)] in radix 10. *)
Definition num_to_string (x : number) : string :=
  match x with
  | S754_nan => "NaN"
  | S754_zero _ => "0"
  | S754_infinity s => if s then "-Infinity" else "Infinity"
  | S754_finite s m e =>
      let '(d, k, n) := shortest_digits (S754_finite false m e) (Zpos m) e in
      (if s then "-" else "") +:+ layout_digits d k n
  end.

(** ** [Number.prototype.toFixed] *)

(** [ToIntegerOrInfinity] of a finite number, towards zero. *)
Definition trunc_to_Z (x : number) : option Z :=
  match finite_parts x with
  | Some (s, m, e) =>
      let a := if (0 <=? e)%Z then (m * 2 ^ e)%Z else (m / 2 ^ (- e))%Z in
      Some (if s then - a else a)%Z
  | None => None
  end.

(** Insert the decimal point [f] digits from the right, padding with
    zeros on the left (steps 10.b-d). *)
Definition point_digits (digits : string) (f : nat) : string :=
  match f with
  | O => digits
  | S _ =>
      let k := String.length digits in
      let m := if (k <=? f)%nat then zeros (f + 1 - k)%nat +:+ digits else digits in
      let k' := String.length m in
      substring 0 (k' - f)%nat m +:+ "." +:+ substring (k' - f)%nat f m
  end.

(** [ToIntegerOrInfinity(fd)] of the argument of [toFixed], [None] for
    the infinities. *)
Definition fraction_digits (fd : number) : option Z :=
  match fd with
  | S754_nan => Some 0%Z
  | S754_infinity _ => None
  | _ => trunc_to_Z fd
  end.

(** [x.toFixed(fd)]: a RangeError when [fd] is not an integer in
    0..100 after truncation, ["NaN"] and the infinities as [toString]
    writes them, [ToString] itself from [10^21] on, and otherwise the
    digits of the nearest multiple of [10^-f], ties away from zero, with
    the sign of a negative [x] (not of [-0]). *)
Definition toFixed (x : number) (fd : number) : except string string :=
  match fraction_digits fd with
  | None => inl "RangeError: toFixed() digits argument must be between 0 and 100"
  | Some f =>
      if (f <? 0)%Z || (100 <? f)%Z then
        inl "RangeError: toFixed() digits argument must be between 0 and 100"
      else match x with
           | S754_nan => inr "NaN"
           | S754_infinity s => inr (if s then "-Infinity" else "Infinity")
           | S754_zero _ => inr (point_digits "0" (Z.to_nat f))
           | S754_finite s m e =>
               let sign := if s then "-" else "" in
               let mz := Zpos m in
               if (0 <=? e)%Z && (10 ^ 21 <=? mz * 2 ^ e)%Z then
                 inr (sign +:+ num_to_string (S754_finite false m e))
               else inr (sign +:+ point_digits (Z_to_dec (scaled_round mz e f)) (Z.to_nat f))
           end
  end.

(** ** Exponentiation [10 ** d] *)

(** The integer a finite number is equal to, if it is one. *)
Definition num_int (x : number) : option Z :=
  match finite_parts x with
  | Some (s, m, e) =>
      if (0 <=? e)%Z then Some (if s then - (m * 2 ^ e) else m * 2 ^ e)%Z
      else if (m mod 2 ^ (- e) =? 0)%Z then Some (if s then - (m / 2 ^ (- e)) else m / 2 ^ (- e))%Z
      else None
  | None => None
  end.

(** Number::exponentiate is not required to be correctly rounded; the
    host's [10 ** d] is a parameter of the model, except where the result
    is exact: an integer [d] in 0..22 gives [10^d], which is a binary64
    number, and [d = NaN] gives NaN. *)
Class PowHost := { host_pow10 : number -> number }.

Definition js_pow10 `{PowHost} (d : number) : number :=
  match d with
  | S754_nan => NaN
  | _ => match num_int d with
         | Some k => if (0 <=? k)%Z && (k <=? 22)%Z then of_Z (10 ^ k) else host_pow10 d
         | None => host_pow10 d
         end
  end.

(** [x] is finite and below [10^21] in magnitude: [toFixed] writes its
    digits rather than [ToString(x)]. *)
Definition fixed_range (x : number) : bool :=
  match x with
  | S754_zero _ => true
  | S754_finite _ m e => negb ((0 <=? e)%Z && (10 ^ 21 <=? Zpos m * 2 ^ e)%Z)
  | _ => false
  end.

(** ** Signs *)

(** [x] carries no minus sign: NaN, [+0], or a positive number. *)
Definition sign_false (x : number) : bool :=
  match x with
  | S754_zero s | S754_finite s _ _ | S754_infinity s => negb s
  | S754_nan => true
  end.

Lemma binary_round_aux_sign_false m e l : sign_false (binary_round_aux prec emax false m e l) = true.
Proof.
  unfold binary_round_aux.
  repeat match goal with |- context [let '(_, _) := ?x in _] => destruct x end.
  destruct (shr_m _); simpl; try done. by destruct (_ <=? _)%Z.
Qed.

Lemma binary_normalize_sign_false z e :
  (0 <= z)%Z -> sign_false (binary_normalize prec emax z e false) = true.
Proof.
  intros Hz. destruct z as [|p|p]; [done| |lia].
  unfold binary_normalize, binary_round. destruct (shl_align _ _ _). apply binary_round_aux_sign_false.
Qed.

Lemma of_Z_sign_false z : (0 <= z)%Z -> sign_false (of_Z z) = true.
Proof. apply binary_normalize_sign_false. Qed.

Lemma num_div_sign_false x y :
  sign_false x = true -> sign_false y = true -> sign_false (num_div x y) = true.
Proof.
  unfold num_div, SFdiv.
  destruct x as [[]|[]| |[] mx ex], y as [[]|[]| |[] my ey]; cbn -[binary_round_aux SFdiv_core_binary]; try done.
  destruct (SFdiv_core_binary _ _ _ _ _ _) as [[q e'] l]. intros _ _. apply binary_round_aux_sign_false.
Qed.

Lemma num_mul_sign_false x y :
  sign_false x = true -> sign_false y = true -> sign_false (num_mul x y) = true.
Proof.
  unfold num_mul, SFmul.
  destruct x as [[]|[]| |[] mx ex], y as [[]|[]| |[] my ey]; cbn -[binary_round_aux]; try done.
  intros _ _. apply binary_round_aux_sign_false.
Qed.

Lemma round_decimal_sign_false m e : (0 <= m)%Z -> sign_false (round_decimal false m e) = true.
Proof.
  intros Hm. unfold round_decimal. cbn [negb].
  destruct (m =? 0)%Z; [done|]. destruct (0 <=? e)%Z.
  - destruct (400 <? e)%Z; [done|]. apply binary_normalize_sign_false. nia.
  - destruct (_ <? -1080)%Z; [done|].
    destruct (SFdiv_core_binary _ _ _ _ _ _) as [[q e'] l]. apply binary_round_aux_sign_false.
Qed.

Lemma digit_val_nonneg radix c d : digit_val radix c = Some d -> (0 <= d)%Z.
Proof.
  unfold digit_val. intros H.
  repeat match type of H with context [if ?b then _ else _] => destruct b eqn:? end;
    try discriminate; injection H as <-;
    repeat match goal with Hb : (_ && _)%bool = true |- _ => apply andb_true_iff in Hb as [? ?] end;
    rewrite ?Z.leb_le in *; lia.
Qed.

Lemma digits_nonneg radix acc l v k r :
  (0 <= radix)%Z -> (0 <= acc)%Z -> digits radix acc l = (v, k, r) -> (0 <= v)%Z.
Proof.
  revert acc v k r. induction l as [|c l IH]; intros acc v k r Hr Ha H; simpl in H.
  - by injection H as <- _ _.
  - destruct (digit_val radix c) as [d|] eqn:Hd; [|by injection H as <- _ _].
    destruct (digits radix (acc * radix + d) l) as [[v' k'] r'] eqn:E. injection H as <- _ _.
    apply (IH (acc * radix + d) v' k' r' Hr); [|exact E]. pose proof (digit_val_nonneg _ _ _ Hd). nia.
Qed.

Lemma parse_unsigned_decimal_nonneg l m e :
  parse_unsigned_decimal l = Some (Some (m, e)) -> (0 <= m)%Z.
Proof.
  unfold parse_unsigned_decimal. destruct (decide _); [discriminate|].
  destruct (digits 10 0 l) as [[ip ni] r1] eqn:E1.
  pose proof (digits_nonneg 10 0 l ip ni r1 ltac:(lia) ltac:(lia) E1) as Hip.
  destruct r1 as [|c r1].
  - destruct (_ =? 0)%nat; [discriminate|]. intros H. by injection H as <- _.
  - destruct (match c :: r1 with
              | "."%char :: r => let '(v, k, r') := digits 10 ip r in (v, k, r', true)
              | _ => (ip, O, c :: r1, false)
              end) as [[[m' nf] r2] dot] eqn:E2.
    assert (Hm : (0 <= m')%Z).
    { destruct (ascii_dec c "."%char) as [->|Hc].
      - cbn in E2. destruct (digits 10 ip r1) as [[v k] r'] eqn:E3. injection E2 as <- _ _ _.
        exact (digits_nonneg 10 ip r1 v k r' ltac:(lia) Hip E3).
      - destruct c as [[] [] [] [] [] [] [] []]; cbn in E2; try (injection E2 as <- _ _ _; exact Hip).
        exfalso. by apply Hc. }
    destruct (_ =? 0)%nat; [discriminate|].
    destruct r2 as [|c2 r2]; [intros H; by injection H as <- _|].
    destruct (_ || _)%bool; [|discriminate]. destruct (parse_exponent r2); [|discriminate].
    intros H. by injection H as <- _.
Qed.

Lemma parse_non_decimal_nonneg l v : parse_non_decimal l = Some v -> (0 <= v)%Z.
Proof.
  unfold parse_non_decimal. intros H.
  destruct (match l with
            | "0"%char :: ("x" | "X")%char :: _ => Some 16%Z
            | "0"%char :: ("o" | "O")%char :: _ => Some 8%Z
            | "0"%char :: ("b" | "B")%char :: _ => Some 2%Z
            | _ => None
            end) as [b|] eqn:Hb; [|destruct l; discriminate].
  assert (0 <= b)%Z.
  { repeat (match type of Hb with context [match ?x with _ => _ end] => destruct x end;
            try discriminate); injection Hb as <-; lia. }
  destruct l as [|c0 [|c1 r]]; try discriminate.
  destruct (digits b 0 r) as [[v' [|k]] [|c r']] eqn:E; try discriminate.
  injection H as <-. exact (digits_nonneg b 0 r v' (S k) [] ltac:(lia) ltac:(lia) E).
Qed.

(** A numeric literal without a leading minus sign has no minus sign. *)
Lemma parse_numeric_sign_false l : head l <> Some "-"%char -> sign_false (parse_numeric l) = true.
Proof.
  intros Hh. unfold parse_numeric.
  destruct (parse_non_decimal l) as [v|] eqn:Hv.
  { apply of_Z_sign_false. exact (parse_non_decimal_nonneg _ _ Hv). }
  assert (Hneg : forall neg l', match l with
                                | "+"%char :: r => (false, r)
                                | "-"%char :: r => (true, r)
                                | _ => (false, l)
                                end = (neg, l') -> neg = false).
  { intros neg l' H. destruct l as [|c r]; [by injection H as <- _|].
    destruct (ascii_dec c "-"%char) as [->|Hc]; [done|].
    destruct (ascii_dec c "+"%char) as [->|Hc']; [by injection H as <- _|].
    destruct c as [[] [] [] [] [] [] [] []]; try (injection H as <- _; done);
      exfalso; (apply Hc + apply Hc'); reflexivity. }
  destruct (match l with
            | "+"%char :: r => (false, r)
            | "-"%char :: r => (true, r)
            | _ => (false, l)
            end) as [neg l'] eqn:E.
  rewrite (Hneg _ _ eq_refl).
  destruct (parse_unsigned_decimal l') as [[[m e]|]|] eqn:Hp; [|done|done].
  apply round_decimal_sign_false. exact (parse_unsigned_decimal_nonneg _ _ _ Hp).
Qed.

(** [Number(s)] of a string whose trimmed text does not start with a
    minus sign has no minus sign. *)
Lemma StringToNumber_sign_false s :
  head (trim_ws (list_ascii_of_string s)) <> Some "-"%char -> sign_false (StringToNumber s) = true.
Proof.
  intros H. unfold StringToNumber. destruct (trim_ws _) eqn:E; [done|].
  apply parse_numeric_sign_false. exact H.
Qed.

(** ** What [toFixed] writes *)

Lemma zeros_length k : String.length (zeros k) = k.
Proof. induction k; simpl; congruence. Qed.

Lemma zeros_app_head k ds c :
  c <> "0"%char -> head_char ds <> Some c -> head_char (zeros k +:+ ds) <> Some c.
Proof. intros Hc Hds. destruct k; simpl; [done|]. intros [= E]. by apply Hc. Qed.

Lemma Z_to_dec_head n : head_char (Z_to_dec n) <> Some "-"%char.
Proof. destruct n as [|p|p]; simpl; try discriminate. by destruct (Pos.to_uint p). Qed.

Lemma point_digits_head ds f c :
  c <> "0"%char -> c <> "."%char -> head_char ds <> Some c -> head_char (point_digits ds f) <> Some c.
Proof.
  intros H0 Hdot Hds. destruct f as [|f]; [done|]. cbn [point_digits].
  apply head_substring_dot; [|done]. destruct (_ <=? _)%nat; [by apply zeros_app_head|done].
Qed.

Lemma layout_digits_head s k n : head_char (layout_digits s k n) <> Some "-"%char.
Proof.
  pose proof (Z_to_dec_head s) as Hds. unfold layout_digits.
  destruct (_ && _)%bool.
  { destruct (Z_to_dec s); simpl in *; [by destruct (Z.to_nat (n - k))|congruence]. }
  destruct (_ && _)%bool; [by apply head_substring_dot|].
  destruct (_ && _)%bool; [discriminate|].
  destruct (Z_to_dec s); simpl in *; [discriminate|]. destruct (k =? 1)%Z; simpl; congruence.
Qed.

Lemma point_digits_shape ds f :
  (0 < f)%nat -> exists a b, point_digits ds f = a +:+ "." +:+ b /\ String.length b = f.
Proof.
  intros Hf. destruct f as [|f]; [lia|]. cbn [point_digits].
  set (m := if (String.length ds <=? S f)%nat then zeros (S f + 1 - String.length ds) +:+ ds else ds).
  assert (Hm : (S f < String.length m)%nat).
  { subst m. destruct (String.length ds <=? S f)%nat eqn:E.
    - apply Nat.leb_le in E. rewrite str_length_app, zeros_length. lia.
    - apply Nat.leb_gt in E. lia. }
  eexists _, _. split; [reflexivity|]. apply substring_len. lia.
Qed.

(** [toFixed] of a number without a minus sign writes no minus sign. *)
Lemma toFixed_sign_false x fd s :
  sign_false x = true -> toFixed x fd = inr s -> head_char s <> Some "-"%char.
Proof.
  intros Hx. unfold toFixed. destruct (fraction_digits fd) as [f|]; [|discriminate].
  destruct (_ || _)%bool; [discriminate|].
  destruct x as [sx|sx| |sx m e]; simpl in Hx; [| | |cbv zeta; destruct (_ && _)%bool];
    intros H; injection H as <-.
  - apply point_digits_head; [discriminate|discriminate|discriminate].
  - destruct sx; [discriminate|]. discriminate.
  - discriminate.
  - destruct sx; [discriminate|]. unfold num_to_string.
    destruct (shortest_digits _ _ _) as [[d k] n]. apply layout_digits_head.
  - destruct sx; [discriminate|]. apply point_digits_head; [discriminate|discriminate|apply Z_to_dec_head].
Qed.

(** Below [10^21], [toFixed] with [k >= 1] digits writes an integer
    part, a dot and exactly [k] fraction digits, after the sign. *)
Lemma toFixed_shape x fd k :
  fraction_digits fd = Some k -> (1 <= k <= 100)%Z -> fixed_range x = true ->
  exists sign a b, toFixed x fd = inr (sign +:+ (a +:+ "." +:+ b)) /\ String.length b = Z.to_nat k.
Proof.
  intros Hk Hr Hx. unfold toFixed. rewrite Hk.
  replace ((k <? 0)%Z || (100 <? k)%Z)%bool with false by (symmetry; apply orb_false_iff; split; apply Z.ltb_ge; lia).
  destruct (point_digits_shape "0" (Z.to_nat k)) as (a0 & b0 & H0 & L0); [lia|].
  destruct x as [sx|sx| |sx m e]; try discriminate.
  - exists "", a0, b0. by rewrite H0.
  - simpl in Hx. apply negb_true_iff in Hx. rewrite Hx.
    destruct (point_digits_shape (Z_to_dec (scaled_round (Zpos m) e k)) (Z.to_nat k)) as (a & b & H & L); [lia|].
    exists (if sx then "-" else ""), a, b. by rewrite H.
Qed.

(** [toFixed] with a digits argument in 0..100 does not throw. *)
Lemma toFixed_ok x fd k :
  fraction_digits fd = Some k -> (0 <= k <= 100)%Z -> exists s, toFixed x fd = inr s.
Proof.
  intros Hk Hr. unfold toFixed. rewrite Hk.
  replace ((k <? 0)%Z || (100 <? k)%Z)%bool with false by (symmetry; apply orb_false_iff; split; apply Z.ltb_ge; lia).
  destruct x as [sx|sx| |sx m e]; eauto. cbv zeta. destruct (_ && _)%bool; eauto.
Qed.

(** ** Small integers *)

(** The integers 0..100 are numbers exactly: [of_Z d] is finite or zero,
    denotes [d], and truncates to [d]. *)
Definition small_int_ok (d : Z) : bool :=
  match of_Z d with
  | S754_nan | S754_infinity _ => false
  | x => match num_int x, fraction_digits x with
         | Some a, Some b => (a =? d)%Z && (b =? d)%Z
         | _, _ => false
         end
  end.

Lemma small_int_check : all_in_range small_int_ok 101 0 = true.
Proof. vm_compute. reflexivity. Qed.

Lemma small_int d :
  (0 <= d <= 100)%Z ->
  isNaN (of_Z d) = false /\ num_int (of_Z d) = Some d /\ fraction_digits (of_Z d) = Some d.
Proof.
  intros Hd. assert (Hok : small_int_ok d = true).
  { apply (all_in_range_spec _ 101 0 small_int_check). assert (Z.of_nat 101 = 101)%Z by reflexivity. lia. }
  unfold small_int_ok in Hok. destruct (of_Z d) as [s|s| |s m e]; try discriminate;
    destruct (num_int _) as [a|], (fraction_digits _) as [b|]; try discriminate;
    apply andb_true_iff in Hok as [Ha Hb]; apply Z.eqb_eq in Ha, Hb; subst; done.
Qed.

(** For an integer [d] in 0..22, [10 ** d] is the exact power. *)
Lemma js_pow10_small `{PowHost} d : (0 <= d <= 22)%Z -> js_pow10 (of_Z d) = of_Z (10 ^ d).
Proof.
  intros Hd. destruct (small_int d) as (Hn & Hi & _); [lia|]. unfold js_pow10.
  assert (E : ((0 <=? d) && (d <=? 22))%Z = true) by (apply andb_true_iff; split; apply Z.leb_le; lia).
  revert Hn Hi. destruct (of_Z d); intros Hn Hi; try discriminate; cbv iota; by rewrite Hi, E.
Qed.
