(* ===== verification/JsValue.v ===== *)
(** * JavaScript values of the scripts

    The data sources are JSON documents; after [JSON.parse] a script sees
    [null], booleans, numbers, strings, arrays and plain objects.  Objects
    keep their properties in order (an association list without duplicate
    keys).  On top of them this file models the operations the scripts
    apply to such values:

    - property reads [o.k] and [o?.[k]], including the members every plain
      object inherits from [Object.prototype] ([o["constructor"]] is a
      function, [o["__proto__"]] is [Object.prototype]);
    - truthiness ([if (x)], [x || y], [!x]) and the nullish tests
      ([x ?? y], [x == null]);
    - [===] against a string or a number;
    - object literals with spread and their serialisation by
      [JSON.stringify] (properties holding [undefined] or a function are
      dropped, integer-like keys come first);
    - the outcome of one process: the JSON documents printed on stdout,
      the [console.error] lines, and the exit code or the uncaught
      exception.

    Property reads on arrays and primitive values return [undefined]
    here: the scripts read named properties only from objects. *)

From S2P Require Import Prelude JsNumber.

(** ** JSON values *)

(** The induction principle over the nested lists is stated by hand
    where a proof needs it. *)
Local Unset Elimination Schemes.

Inductive json :=
  | JNull
  | JBool (b : bool)
  | JNum (n : number)
  | JStr (s : string)
  | JArr (items : list json)
  | JObj (props : list (string * json)).

Local Set Elimination Schemes.

(** A value a script holds: [undefined], a JSON value, or a built-in
    object of the prototype chain (a method, or [Object.prototype]). *)
Inductive jsval :=
  | VUndef
  | VJson (j : json)
  | VBuiltin (name : string).

(** The own properties of [Object.prototype], inherited by every plain
    object (Node 18 and later). *)
Definition object_prototype_members : list string :=
  ["constructor"; "__defineGetter__"; "__defineSetter__"; "hasOwnProperty";
   "__lookupGetter__"; "__lookupSetter__"; "isPrototypeOf"; "propertyIsEnumerable";
   "toString"; "valueOf"; "__proto__"; "toLocaleString"].

Fixpoint assoc {A} (k : string) (l : list (string * A)) : option A :=
  match l with
  | [] => None
  | (k', v) :: l' => if String.eqb k k' then Some v else assoc k l'
  end.

(** [o[k]] on a plain object with own properties [props]: an own
    property first, then [Object.prototype]. *)
Definition obj_get {A} (inj : A -> jsval) (props : list (string * A)) (k : string) : jsval :=
  match assoc k props with
  | Some v => inj v
  | None => if decide (k ∈ object_prototype_members) then VBuiltin k else VUndef
  end.

(** [v[k]] on a JSON value that is not [null] (a read on [null] throws
    before this). *)
Definition get (v : json) (k : string) : jsval :=
  match v with
  | JObj props => obj_get VJson props k
  | _ => VUndef
  end.

(** [v?.[k]]: [undefined] on a nullish [v]. *)
Definition get_opt (v : jsval) (k : string) : jsval :=
  match v with
  | VJson JNull | VUndef => VUndef
  | VJson j => get j k
  | VBuiltin _ => VUndef
  end.

(** ** Truthiness and nullishness *)

Definition num_truthy (x : number) : bool :=
  match x with S754_zero _ | S754_nan => false | _ => true end.

Definition json_truthy (j : json) : bool :=
  match j with
  | JNull => false
  | JBool b => b
  | JNum x => num_truthy x
  | JStr s => negb (String.eqb s "")
  | JArr _ | JObj _ => true
  end.

Definition truthy (v : jsval) : bool :=
  match v with VUndef => false | VJson j => json_truthy j | VBuiltin _ => true end.

(** [v == null] *)
Definition nullish (v : jsval) : bool :=
  match v with VUndef | VJson JNull => true | _ => false end.

(** [a || b] *)
Definition js_or (a b : jsval) : jsval := if truthy a then a else b.

(** [a ?? b] *)
Definition js_coalesce (a b : jsval) : jsval := if nullish a then b else a.

(** [v === s] for a string [s], and [v === x] for a number [x]. *)
Definition strict_eq_str (v : jsval) (s : string) : bool :=
  match v with VJson (JStr s') => String.eqb s' s | _ => false end.

Definition strict_eq_num (v : jsval) (x : number) : bool :=
  match v with VJson (JNum y) => num_eqb y x | _ => false end.

(** ** [ToString] of a value, as template literals apply it *)

(** Arrays join their elements with commas, [null] elements giving the
    empty string; plain objects give "[object Object]". *)
Fixpoint json_to_string (j : json) : string :=
  match j with
  | JNull => "null"
  | JBool b => if b then "true" else "false"
  | JNum x => num_to_string x
  | JStr s => s
  | JArr items =>
      join "," ((fix elems (l : list json) : list string :=
                   match l with
                   | [] => []
                   | JNull :: l' => "" :: elems l'
                   | x :: l' => json_to_string x :: elems l'
                   end) items)
  | JObj _ => "[object Object]"
  end.

Definition to_js_string (v : jsval) : string :=
  match v with
  | VUndef => "undefined"
  | VJson j => json_to_string j
  | VBuiltin k => if String.eqb k "__proto__" then "[object Object]"
                  else "function " +:+ (if String.eqb k "constructor" then "Object" else k)
                       +:+ "() { [native code] }"
  end.

(** ** Object literals and [JSON.stringify] *)

(** An array index key: the canonical decimal form of an integer below
    [2^32 - 1]. *)
Definition is_array_index (k : string) : bool :=
  match StringToNumber k with
  | S754_zero false => String.eqb k "0"
  | S754_finite false m e =>
      (0 <=? e)%Z && (Zpos m * 2 ^ e <? 2 ^ 32 - 1)%Z && String.eqb (Z_to_dec (Zpos m * 2 ^ e)) k
  | _ => false
  end.

Definition index_value (k : string) : Z :=
  match StringToNumber k with S754_finite _ m e => (Zpos m * 2 ^ e)%Z | _ => 0%Z end.

(** Insert [(k, v)] into index keys sorted ascending. *)
Fixpoint insert_index {A} (k : string) (v : A) (l : list (string * A)) : list (string * A) :=
  match l with
  | [] => [(k, v)]
  | (k', v') :: l' =>
      if (index_value k <? index_value k')%Z then (k, v) :: l else (k', v') :: insert_index k v l'
  end.

(** OrdinaryOwnPropertyKeys: array indices ascending, then the other keys
    in creation order. *)
Definition own_keys_order {A} (l : list (string * A)) : list (string * A) :=
  fold_left (fun acc kv => insert_index kv.1 kv.2 acc) (List.filter (fun kv => is_array_index kv.1) l) []
  ++ List.filter (fun kv => negb (is_array_index kv.1)) l.

(** Define property [k] on an object under construction: a new key is
    appended, an existing one keeps its place and takes the new value. *)
Fixpoint define_prop {A} (k : string) (v : A) (l : list (string * A)) : list (string * A) :=
  match l with
  | [] => [(k, v)]
  | (k', v') :: l' => if String.eqb k k' then (k', v) :: l' else (k', v') :: define_prop k v l'
  end.

Definition define_all {A} (l : list (string * A)) : list (string * A) :=
  fold_left (fun acc kv => define_prop kv.1 kv.2 acc) l [].

(** The own enumerable properties copied by [...v] in an object literal. *)
Definition spread_props (v : jsval) : list (string * jsval) :=
  match v with
  | VJson (JObj props) => map (fun kv => (kv.1, VJson kv.2)) props
  | VJson (JArr items) => imap (fun i x => (Z_to_dec (Z.of_nat i), VJson x)) items
  | VJson (JStr s) => imap (fun i c => (Z_to_dec (Z.of_nat i), VJson (JStr (String c EmptyString))))
                           (list_ascii_of_string s)
  | _ => []
  end.

(** [JSON.stringify] of a property value: [undefined] and functions are
    dropped; [Object.prototype] serialises as an empty object. *)
Definition serialise (v : jsval) : option json :=
  match v with
  | VUndef => None
  | VJson j => Some j
  | VBuiltin k => if String.eqb k "__proto__" then Some (JObj []) else None
  end.

(** An object literal [{ k1: v1, ..., ...s, ... }] as [JSON.stringify]
    prints it. *)
Definition js_object (props : list (string * jsval)) : json :=
  JObj (omap (fun kv => (fun j => (kv.1, j)) <$> serialise kv.2) (own_keys_order (define_all props))).

(** ** The outcome of one process *)

Inductive exit_status := ExitCode (code : Z) | Uncaught (error : string).

(** What one run of a script shows: the documents printed by
    [console.log(JSON.stringify(o, null, 2))], the [console.error] lines
    (of the script's own diagnostic type [D]), and how the process ended. *)
Record run (D : Type) := mk_run { stdout : list json; stderr : list D; status : exit_status }.
Arguments mk_run {D} stdout stderr status.
Arguments stdout {D} r.
Arguments stderr {D} r.
Arguments status {D} r.

(** An uncaught throw ends the run. *)
Definition crash {D} (e : string) : run D := mk_run [] [] (Uncaught e).

(** [out(o)]: [console.log(JSON.stringify(o, null, 2))], then exit 0. *)
Definition print {D} (j : json) : run D := mk_run [j] [] (ExitCode 0).

(** A computation that may throw, inside a run that may end early. *)
Definition lift {D A} (c : except string A) : except (run D) A :=
  match c with inl e => inl (crash e) | inr a => inr a end.

Definition finish {D} (c : except (run D) json) : run D :=
  match c with inl r => r | inr j => print j end.

(** [v.k] on an element of a loaded list: a read on [null] throws. *)
Definition read (v : json) (k : string) : except string jsval :=
  match v with
  | JNull => inl ("TypeError: Cannot read properties of null (reading '" +:+ k +:+ "')")
  | _ => inr (get v k)
  end.

(** The elements of a loaded list that reads cannot throw on. *)
Definition nonnull (v : json) : Prop := v <> JNull.

Lemma read_nonnull v k : nonnull v -> read v k = inr (get v k).
Proof. unfold nonnull, read. destruct v; congruence. Qed.

(** [v.toLowerCase()] on a value read from the data: [what] names [v] in
    the message of the [TypeError] a non-string gives. *)
Definition lower_of (what : string) (v : jsval) : except string string :=
  match v with
  | VJson (JStr s) => inr (toLowerCase s)
  | VUndef => inl "TypeError: Cannot read properties of undefined (reading 'toLowerCase')"
  | VJson JNull => inl "TypeError: Cannot read properties of null (reading 'toLowerCase')"
  | _ => inl ("TypeError: " +:+ what +:+ ".toLowerCase is not a function")
  end.

(** [v?.includes(x)] for a string [x], as a truth value: [Array.prototype.includes]
    (SameValueZero, so only an equal string element) on an array,
    [String.prototype.includes] (a substring) on a string, [undefined] on
    a nullish [v]; anything else has no [includes] method. *)
Definition includes_opt (what : string) (v : jsval) (x : string) : except string bool :=
  match v with
  | VUndef | VJson JNull => inr false
  | VJson (JArr l) => inr (existsb (fun e => match e with JStr s => String.eqb s x | _ => false end) l)
  | VJson (JStr s) => inr (str_includes s x)
  | _ => inl ("TypeError: " +:+ what +:+ "?.includes is not a function")
  end.

(** [ToNumber(v)] of a value read from the data ([+v], [a - b]): arrays
    and plain objects convert through their string form. *)
Definition to_number (v : jsval) : number :=
  match v with
  | VUndef | VBuiltin _ => NaN
  | VJson JNull => pos_zero
  | VJson (JBool b) => if b then of_Z 1 else pos_zero
  | VJson (JNum x) => x
  | VJson (JStr s) => StringToNumber s
  | VJson j => StringToNumber (json_to_string j)
  end.

(** ** Values with identity *)

(** A value read from the [i]-th record of a loaded array.  Arrays and
    objects are compared by identity, which the position of the record
    they were read from stands for; primitives by value.  [nan_eq]
    selects SameValueZero (a [Set]: NaN equals NaN) over [===]. *)
Definition json_prim_eq (nan_eq : bool) (a b : json) : option bool :=
  match a, b with
  | JNull, JNull => Some true
  | JBool x, JBool y => Some (Bool.eqb x y)
  | JNum x, JNum y => Some ((nan_eq && isNaN x && isNaN y) || num_eqb x y)
  | JStr x, JStr y => Some (String.eqb x y)
  | (JArr _ | JObj _), (JArr _ | JObj _) => None
  | _, _ => Some false
  end.

Definition id_eq (nan_eq : bool) (a b : nat * jsval) : bool :=
  match a.2, b.2 with
  | VUndef, VUndef => true
  | VJson x, VJson y => match json_prim_eq nan_eq x y with Some r => r | None => Nat.eqb a.1 b.1 end
  | VBuiltin x, VBuiltin y => String.eqb x y
  | _, _ => false
  end.

(** [new Set(values)] in insertion order, as the array [[...set]]. *)
Definition set_add (acc : list (nat * jsval)) (x : nat * jsval) : list (nat * jsval) :=
  if existsb (id_eq true x) acc then acc else acc ++ [x].

Definition new_set (l : list (nat * jsval)) : list (nat * jsval) := fold_left set_add l [].

(** ** Facts on equality with identity *)

(** A value other than NaN: [===] and SameValueZero agree on it. *)
Definition nan_free (v : jsval) : bool :=
  match v with VJson (JNum x) => negb (isNaN x) | _ => true end.

Lemma id_eq_sym b x y : id_eq b x y = id_eq b y x.
Proof.
  destruct x as [i [|[]|]], y as [j [|[]|]]; unfold id_eq; simpl; try done;
    try (match goal with |- Bool.eqb ?p ?q = Bool.eqb ?q ?p => by destruct p, q end);
    auto using String.eqb_sym, Nat.eqb_sym.
  rewrite num_eqb_sym. f_equal. by destruct b, (isNaN n), (isNaN n0).
Qed.

Lemma id_eq_trans b x y z : id_eq b x y = true -> id_eq b y z = true -> id_eq b x z = true.
Proof.
  destruct x as [i [|[]|]], y as [j [|[]|]], z as [k [|[]|]]; unfold id_eq; simpl; try done.
  all: try (intros ->%String.eqb_eq ->%String.eqb_eq; apply String.eqb_refl).
  all: try (intros ->%Nat.eqb_eq ->%Nat.eqb_eq; apply Nat.eqb_refl).
  - intros ->%Bool.eqb_prop ->%Bool.eqb_prop. apply Bool.eqb_reflx.
  - rename n into x, n0 into y, n1 into z. intros Hxy Hyz.
    apply orb_true_iff in Hxy, Hyz. apply orb_true_iff.
    destruct Hxy as [Hxy|Hxy], Hyz as [Hyz|Hyz];
      repeat match goal with H : _ && _ = true |- _ => apply andb_true_iff in H as [? ?] end.
    all: try (left; by repeat (apply andb_true_iff; split)).
    all: try (right; by apply (num_eqb_trans x y z)).
    all: destruct y; simpl in *; try discriminate.
    all: try (by destruct z). by destruct x.
Qed.

Lemma id_eq_refl x : id_eq true x x = true.
Proof.
  destruct x as [i [|[]|]]; unfold id_eq; simpl; try done;
    auto using Bool.eqb_reflx, String.eqb_refl, Nat.eqb_refl.
  destruct (isNaN n) eqn:E; [done|]. by rewrite num_eqb_refl.
Qed.

Lemma id_eq_nan_free x y : nan_free y.2 = true -> id_eq true x y = id_eq false x y.
Proof.
  destruct x as [i [|[]|]], y as [j [|[]|]]; unfold id_eq; simpl; try done.
  intros H. apply negb_true_iff in H. rewrite H. by rewrite andb_false_r.
Qed.

(** ** [new Set(values)] *)

(** The representatives are distinct and pairwise not SameValueZero. *)
Definition set_wf (s : list (nat * jsval)) : Prop :=
  NoDup s /\ forall a b, In a s -> In b s -> id_eq true a b = true -> a = b.

Lemma set_add_wf acc x : set_wf acc -> set_wf (set_add acc x).
Proof.
  intros [Hnd Hu]. unfold set_add. destruct (existsb (id_eq true x) acc) eqn:E; [done|].
  assert (Hnone : forall a, In a acc -> id_eq true x a = false).
  { intros a Ha. destruct (id_eq true x a) eqn:Hxa; [|done].
    exfalso. assert (existsb (id_eq true x) acc = true) by (apply existsb_exists; by exists a). congruence. }
  split.
  - apply list.NoDup_app. split; [done|]. split; [|by apply NoDup_singleton].
    intros a Ha%list_elem_of_In ->%list_elem_of_singleton.
    specialize (Hnone x Ha). by rewrite id_eq_refl in Hnone.
  - intros a b Ha Hb Hab. apply in_app_or in Ha as [Ha|[<-|[]]], Hb as [Hb|[<-|[]]].
    + by apply Hu.
    + rewrite id_eq_sym, Hnone in Hab by done. discriminate.
    + rewrite Hnone in Hab by done. discriminate.
    + done.
Qed.

Lemma set_add_incl acc x a : In a acc -> In a (set_add acc x).
Proof. intros H. unfold set_add. destruct (existsb _ _); [done|]. apply in_or_app. by left. Qed.

Lemma set_add_covers acc x : exists s, In s (set_add acc x) /\ id_eq true s x = true.
Proof.
  unfold set_add. destruct (existsb (id_eq true x) acc) eqn:E.
  - apply existsb_exists in E as [s [Hs Hxs]]. exists s. split; [done|]. by rewrite id_eq_sym.
  - exists x. split; [apply in_or_app; by right; left|apply id_eq_refl].
Qed.

Lemma set_fold_wf l acc : set_wf acc -> set_wf (fold_left set_add l acc).
Proof. revert acc. induction l as [|x l IH]; intros acc H; simpl; [done|]. by apply IH, set_add_wf. Qed.

Lemma set_fold_incl l acc a : In a acc -> In a (fold_left set_add l acc).
Proof. revert acc. induction l as [|x l IH]; intros acc H; simpl; [done|]. by apply IH, set_add_incl. Qed.

Lemma set_fold_sub l acc a : In a (fold_left set_add l acc) -> In a acc \/ In a l.
Proof.
  revert acc. induction l as [|x l IH]; intros acc H; simpl in *; [by left|].
  apply IH in H as [H|H]; [|by right; right]. unfold set_add in H.
  destruct (existsb _ _); [by left|]. apply in_app_or in H as [H|[<-|[]]]; [by left|by right; left].
Qed.

Lemma new_set_wf l : set_wf (new_set l).
Proof. apply set_fold_wf. split; [constructor|done]. Qed.

Lemma new_set_covers l x : In x l -> exists s, In s (new_set l) /\ id_eq true s x = true.
Proof.
  unfold new_set. generalize (@nil (nat * jsval)) as acc.
  induction l as [|y l IH]; intros acc Hx; [done|]. simpl.
  destruct Hx as [<-|Hx]; [|by apply IH].
  destruct (set_add_covers acc y) as (s & Hs & Hsy). exists s. split; [by apply set_fold_incl|done].
Qed.

Lemma new_set_sub l a : In a (new_set l) -> In a l.
Proof. intros H. apply set_fold_sub in H as [[]|H]. done. Qed.

(** [v.k] on any value: [undefined] and [null] throw, primitives have no
    own properties of the data. *)
Definition read_v (v : jsval) (k : string) : except string jsval :=
  match v with
  | VUndef => inl ("TypeError: Cannot read properties of undefined (reading '" +:+ k +:+ "')")
  | VJson j => read j k
  | VBuiltin _ => inr VUndef
  end.
