(* ===== verification/JsSort.v ===== *)
(** * [Array.prototype.sort] with a comparator, as V8 runs it

    tokenlist.mjs sorts the distinct chain ids with
    [.sort((a, b) => a - b)].  V8 (Node) sorts with TimSort: values
    [undefined] are moved to the end without calling the comparator, the
    comparator's result [v] is read as "before" when [v < 0] (a NaN
    result counts as 0), an initial run is taken (a strictly descending
    run is reversed), and for arrays shorter than 64 elements (the
    minimum run length) the rest is inserted by binary insertion sort.
    [v8_sort] is that procedure for a comparator given as the boolean
    [lt a b] ("[cmp(a, b) < 0]").  Longer arrays are merged by runs in
    V8; their result agrees with this one whenever the comparator is
    consistent, which is the case [v8_sort_sorted] covers.

    The theorems: the result is a permutation of the input for any
    comparator ([v8_sort_perm]); for a comparator that is a strict weak
    order on the elements it is sorted ([v8_sort_sorted]); the binary
    search returns the partition point of the sorted prefix, the position
    a linear scan would find ([bsearch_partition]). *)

From S2P Require Import Prelude.
From Stdlib Require Import Sorted.

Section Sort.
Context {A : Type} (lt : A -> A -> bool).

(** CountAndMakeRun: the elements continuing a non-descending run after
    [prev], and those continuing a strictly descending one. *)
Fixpoint asc_run (prev : A) (l : list A) : list A * list A :=
  match l with
  | x :: l' => if lt x prev then ([], l) else let '(r, rest) := asc_run x l' in (x :: r, rest)
  | [] => ([], [])
  end.

Fixpoint desc_run (prev : A) (l : list A) : list A * list A :=
  match l with
  | x :: l' => if lt x prev then let '(r, rest) := desc_run x l' in (x :: r, rest) else ([], l)
  | [] => ([], [])
  end.

(** The initial run, in ascending order, and the elements after it. *)
Definition make_run (l : list A) : list A * list A :=
  match l with
  | a0 :: a1 :: l' =>
      if lt a1 a0 then let '(r, rest) := desc_run a1 l' in (rev (a0 :: a1 :: r), rest)
      else let '(r, rest) := asc_run a1 l' in (a0 :: a1 :: r, rest)
  | _ => (l, [])
  end.

(** The binary search of BinaryInsertionSort over [s] between [left] and
    [right]: [mid = left + ((right - left) >> 1)]. *)
Fixpoint bsearch (fuel : nat) (p : A) (s : list A) (left right : nat) : nat :=
  match fuel with
  | O => left
  | S f =>
      if (left <? right)%nat then
        let mid := (left + (right - left) / 2)%nat in
        if lt p (nth mid s p) then bsearch f p s left mid else bsearch f p s (S mid) right
      else left
  end.

Definition insert_at (k : nat) (p : A) (s : list A) : list A := take k s ++ p :: drop k s.

(** One step of BinaryInsertionSort: the pivot goes after every element
    it does not compare below. *)
Definition binary_insert (s : list A) (p : A) : list A :=
  insert_at (bsearch (length s) p s 0 (length s)) p s.

Definition v8_sort (l : list A) : list A :=
  match l with
  | [] | [_] => l
  | _ => let '(run, rest) := make_run l in fold_left binary_insert rest run
  end.
End Sort.

(** [arr.sort(cmp)]: the values [undefined] go last, in their order. *)
Definition js_sort {A} (is_undefined : A -> bool) (lt : A -> A -> bool) (l : list A) : list A :=
  v8_sort lt (List.filter (fun x => negb (is_undefined x)) l) ++ List.filter is_undefined l.

(** ** Permutation *)

Section Perm.
Context {A : Type} (lt : A -> A -> bool).

Lemma asc_run_perm prev l : let '(r, rest) := asc_run lt prev l in Permutation (r ++ rest) l.
Proof.
  revert prev. induction l as [|x l IH]; intros prev; simpl; [done|].
  destruct (lt x prev); [done|]. specialize (IH x). destruct (asc_run lt x l). simpl. by constructor.
Qed.

Lemma desc_run_perm prev l : let '(r, rest) := desc_run lt prev l in Permutation (r ++ rest) l.
Proof.
  revert prev. induction l as [|x l IH]; intros prev; simpl; [done|].
  destruct (lt x prev); [|done]. specialize (IH x). destruct (desc_run lt x l). simpl. by constructor.
Qed.

Lemma make_run_perm l : let '(r, rest) := make_run lt l in Permutation (r ++ rest) l.
Proof.
  destruct l as [|a0 [|a1 l]]; simpl; rewrite ?app_nil_r; [done|done|].
  destruct (lt a1 a0).
  - pose proof (desc_run_perm a1 l) as H. destruct (desc_run lt a1 l) as [r rest].
    rewrite <- H. rewrite (Permutation_app_tail rest (Permutation_sym (Permutation_rev (a0 :: a1 :: r)))).
    reflexivity.
  - pose proof (asc_run_perm a1 l) as H. destruct (asc_run lt a1 l) as [r rest]. simpl. by do 2 constructor.
Qed.

Lemma insert_at_perm k (p : A) s : Permutation (insert_at k p s) (p :: s).
Proof.
  unfold insert_at. rewrite <- Permutation_middle. constructor. by rewrite take_drop.
Qed.

Lemma fold_binary_insert_perm rest run :
  Permutation (fold_left (binary_insert lt) rest run) (run ++ rest).
Proof.
  revert run. induction rest as [|x rest IH]; intros run; simpl; [by rewrite app_nil_r|].
  rewrite IH. unfold binary_insert. rewrite insert_at_perm.
  by rewrite <- Permutation_middle.
Qed.

Lemma v8_sort_perm l : Permutation (v8_sort lt l) l.
Proof.
  destruct l as [|a0 [|a1 l]]; [done|done|]. unfold v8_sort.
  pose proof (make_run_perm (a0 :: a1 :: l)) as H.
  destruct (make_run lt (a0 :: a1 :: l)) as [r rest]. by rewrite fold_binary_insert_perm.
Qed.

Lemma js_sort_perm (u : A -> bool) l : Permutation (js_sort u lt l) l.
Proof.
  unfold js_sort. rewrite v8_sort_perm.
  induction l as [|x l IH]; simpl; [done|]. destruct (u x); simpl.
  - by rewrite <- Permutation_middle, IH.
  - by rewrite IH.
Qed.
End Perm.

(** ** Sortedness for a consistent comparator *)

(** [a] may come before [b]: [b] does not compare below [a]. *)
Definition not_below {A} (lt : A -> A -> bool) (a b : A) : Prop := lt b a = false.

Lemma StronglySorted_app_inv {A} (R : A -> A -> Prop) l1 l2 :
  StronglySorted R (l1 ++ l2) ->
  StronglySorted R l1 /\ StronglySorted R l2 /\ (forall x y, In x l1 -> In y l2 -> R x y).
Proof.
  induction l1 as [|x l1 IH]; simpl; intros H.
  - split; [constructor|]. by split.
  - inversion H as [|? ? Hs Hx]; subst. destruct (IH Hs) as (H1 & H2 & H12).
    apply Forall_app in Hx as [Hx1 Hx2]. split; [by constructor|]. split; [done|].
    intros a b [<-|Ha] Hb; [|by apply H12].
    rewrite Forall_forall in Hx2. by apply Hx2.
Qed.

Section Sorted.
Context {A : Type} (lt : A -> A -> bool) (P : A -> Prop).

(** The comparator is a strict weak order on the values [P] admits:
    irreflexive, transitive, and with transitive incomparability
    ("negative transitivity"). *)
Hypothesis lt_irrefl : forall a, P a -> lt a a = false.
Hypothesis lt_trans : forall a b c, P a -> P b -> P c -> lt a b = true -> lt b c = true -> lt a c = true.
Hypothesis lt_negtrans :
  forall a b c, P a -> P b -> P c -> lt a b = false -> lt b c = false -> lt a c = false.

Local Abbreviation sorted := (StronglySorted (not_below lt)).

Lemma lt_asym a b : P a -> P b -> lt a b = true -> lt b a = false.
Proof.
  intros Ha Hb Hab. destruct (lt b a) eqn:Hba; [|done].
  pose proof (lt_trans a b a Ha Hb Ha Hab Hba) as H. by rewrite lt_irrefl in H.
Qed.

Lemma sorted_app l1 l2 :
  sorted l1 -> sorted l2 -> Forall (fun x => Forall (not_below lt x) l2) l1 -> sorted (l1 ++ l2).
Proof.
  induction l1 as [|x l1 IH]; intros H1 H2 H12; simpl; [done|].
  inversion H1 as [|? ? Hs Hx]; subst. inversion H12 as [|? ? Hx2 H12']; subst.
  constructor; [by apply IH|]. apply Forall_app. by split.
Qed.

(** Below-the-pivot is upward closed along a sorted list. *)
Lemma sorted_partition p s :
  P p -> Forall P s -> sorted s ->
  exists s1 s2, s = s1 ++ s2 /\ Forall (fun x => lt p x = false) s1 /\ Forall (fun x => lt p x = true) s2.
Proof.
  intros Hp. induction s as [|x s IH]; intros HP Hs.
  { by exists [], []. }
  inversion HP as [|? ? Hx HP']; subst. inversion Hs as [|? ? Hs' Hxs]; subst.
  destruct (lt p x) eqn:Hpx.
  - exists [], (x :: s). split; [done|]. split; [done|]. constructor; [done|].
    apply Forall_forall. intros y Hy.
    destruct (lt p y) eqn:Hpy; [done|]. exfalso.
    rewrite Forall_forall in Hxs, HP'. specialize (Hxs y Hy). unfold not_below in Hxs.
    by rewrite (lt_negtrans p y x Hp (HP' y Hy) Hx Hpy Hxs) in Hpx.
  - destruct (IH HP' Hs') as (s1 & s2 & -> & H1 & H2).
    exists (x :: s1), s2. split; [done|]. split; [by constructor|done].
Qed.

Lemma mid_bounds (left right : nat) :
  (left < right)%nat -> (left <= left + (right - left) / 2 < right)%nat.
Proof.
  intros H. split; [lia|].
  assert ((right - left) / 2 < right - left)%nat by (apply Nat.div_lt; lia). lia.
Qed.

(** The binary search finds the partition point: the number of elements
    the pivot does not compare below, where a linear scan stops. *)
Lemma bsearch_partition fuel p s1 s2 left right :
  Forall (fun x => lt p x = false) s1 -> Forall (fun x => lt p x = true) s2 ->
  (left <= length s1 <= right)%nat -> (right <= length (s1 ++ s2))%nat ->
  (right - left <= fuel)%nat ->
  bsearch lt fuel p (s1 ++ s2) left right = length s1.
Proof.
  revert left right. induction fuel as [|fuel IH]; intros left right H1 H2 Hb Hr Hf; cbn [bsearch].
  - lia.
  - destruct (left <? right)%nat eqn:Hlr; [|apply Nat.ltb_ge in Hlr; lia].
    apply Nat.ltb_lt in Hlr. pose proof (mid_bounds left right Hlr) as Hm.
    set (mid := (left + (right - left) / 2)%nat) in *. cbv zeta.
    destruct (decide (mid < length s1)%nat) as [Hin|Hout].
    + rewrite app_nth1 by done.
      rewrite (proj1 (Forall_nth _ s1) H1 mid p Hin). apply IH; try done; lia.
    + rewrite app_nth2 by lia. pose proof Hr as Hr2. rewrite length_app in Hr2.
      rewrite (proj1 (Forall_nth _ s2) H2 (mid - length s1) p) by lia. apply IH; try done; lia.
Qed.

Lemma binary_insert_sorted s p :
  P p -> Forall P s -> sorted s -> sorted (binary_insert lt s p) /\ Forall P (binary_insert lt s p).
Proof.
  intros Hp HP Hs. destruct (sorted_partition p s Hp HP Hs) as (s1 & s2 & -> & H1 & H2).
  unfold binary_insert. rewrite (bsearch_partition _ p s1 s2) by (done || (rewrite ?length_app; lia)).
  unfold insert_at. rewrite take_app_length, drop_app_length.
  apply Forall_app in HP as [HP1 HP2]. split; [|by apply Forall_app; split; [|constructor]].
  apply (sorted_app s1 (p :: s2)).
  - by apply StronglySorted_app_inv in Hs as (? & _ & _).
  - constructor; [by apply StronglySorted_app_inv in Hs as (_ & ? & _)|].
    apply Forall_forall. intros y Hy. rewrite Forall_forall in H2, HP2.
    unfold not_below. apply lt_asym; [done | by apply HP2 | by apply H2].
  - apply Forall_forall. intros x Hx. rewrite Forall_forall in H1.
    constructor; [apply H1, Hx|].
    apply StronglySorted_app_inv in Hs as (_ & _ & Hx2). apply Forall_forall. intros y Hy. by apply Hx2.
Qed.
Lemma asc_run_sorted prev l :
  Forall P (prev :: l) ->
  let '(r, rest) := asc_run lt prev l in sorted (prev :: r) /\ Forall P (prev :: r).
Proof.
  revert prev. induction l as [|x l IH]; intros prev HP; simpl.
  { split; [by repeat constructor|by inversion HP; repeat constructor]. }
  inversion HP as [|? ? Hprev HP']; subst. inversion HP' as [|? ? Hx HPl]; subst.
  destruct (lt x prev) eqn:Hxp; [split; [by repeat constructor|by repeat constructor]|].
  specialize (IH x HP'). destruct (asc_run lt x l) as [r rest]. destruct IH as [Hs HPr].
  split; [|by constructor]. constructor; [done|]. constructor; [done|].
  inversion Hs as [|? ? _ Hxr]; subst. inversion HPr as [|? ? _ HPr']; subst.
  rewrite Forall_forall in Hxr, HPr' |- *. intros y Hy.
  by apply (lt_negtrans y x prev); [apply HPr'| | |apply Hxr|].
Qed.

Lemma desc_run_sorted prev l :
  Forall P (prev :: l) ->
  let '(r, rest) := desc_run lt prev l in
  sorted (rev (prev :: r)) /\ Forall (fun y => lt y prev = true) r /\ Forall P (prev :: r).
Proof.
  revert prev. induction l as [|x l IH]; intros prev HP; simpl.
  { split; [by repeat constructor|split; [done|by inversion HP; repeat constructor]]. }
  inversion HP as [|? ? Hprev HP']; subst. inversion HP' as [|? ? Hx HPl]; subst.
  destruct (lt x prev) eqn:Hxp; [|split; [by repeat constructor|split; [done|by repeat constructor]]].
  specialize (IH x HP'). destruct (desc_run lt x l) as [r rest]. destruct IH as (Hs & Hlt & HPr).
  inversion HPr as [|? ? _ HPr']; subst.
  assert (Hall : Forall (fun y => lt y prev = true) (x :: r)).
  { constructor; [done|]. rewrite Forall_forall in Hlt, HPr' |- *. intros y Hy.
    by apply (lt_trans y x prev); [apply HPr'| | |apply Hlt|]. }
  split; [|split; [done|by constructor]].
  change (rev (prev :: x :: r)) with (rev (x :: r) ++ [prev]).
  apply sorted_app; [done|by repeat constructor|].
  apply Forall_forall. intros y Hy. apply in_rev in Hy. rewrite Forall_forall in Hall.
  assert (HPy : P y) by (rewrite Forall_forall in HPr; by apply HPr).
  constructor; [|done]. unfold not_below. by apply lt_asym; [| |apply Hall].
Qed.

Lemma make_run_sorted l :
  Forall P l -> let '(run, rest) := make_run lt l in sorted run /\ Forall P run.
Proof.
  intros HP. destruct l as [|a0 [|a1 l]]; simpl; [split; [constructor|done]|split; [by repeat constructor|done]|].
  destruct (lt a1 a0) eqn:Ha.
  - pose proof (desc_run_sorted a0 (a1 :: l) HP) as H. simpl in H. rewrite Ha in H.
    destruct (desc_run lt a1 l) as [r rest]. destruct H as (Hs & _ & HPr).
    split; [done|]. pose proof (Forall_rev HPr) as H. by simpl in H.
  - pose proof (asc_run_sorted a0 (a1 :: l) HP) as H. simpl in H. rewrite Ha in H.
    by destruct (asc_run lt a1 l) as [r rest].
Qed.

Lemma fold_binary_insert_sorted rest run :
  sorted run -> Forall P run -> Forall P rest -> sorted (fold_left (binary_insert lt) rest run).
Proof.
  revert run. induction rest as [|x rest IH]; intros run Hs HP HPr; simpl; [done|].
  inversion HPr as [|? ? Hx HPr']; subst.
  destruct (binary_insert_sorted run x Hx HP Hs) as [Hs' HP']. by apply IH.
Qed.

(** The sort orders every list of values on which the comparator is
    consistent. *)
Lemma v8_sort_sorted l : Forall P l -> sorted (v8_sort lt l).
Proof.
  intros HP. destruct l as [|a0 [|a1 l]]; [constructor|by repeat constructor|]. unfold v8_sort.
  pose proof (make_run_sorted _ HP) as Hs. pose proof (make_run_perm lt (a0 :: a1 :: l)) as Hp.
  destruct (make_run lt (a0 :: a1 :: l)) as [run rest]. destruct Hs as [Hs HPr].
  apply fold_binary_insert_sorted; [done|done|].
  rewrite Forall_forall in HP |- *. intros y Hy. apply HP.
  apply (Permutation_in _ Hp). apply in_or_app. by right.
Qed.
End Sorted.
