(* ===== verification/Date.v ===== *)
(** * [new Date(t).toISOString()]

    balance.mjs prints timestamps with [new Date(n * 1000).toISOString()].
    [new Date(t)] on a number keeps TimeClip(t) (ECMA-262 21.4.1.31):
    NaN beyond 8.64e15 ms from the epoch, otherwise [t] truncated to an
    integer.  [toISOString] throws a RangeError on NaN and otherwise
    writes the proleptic Gregorian UTC date as [YYYY-MM-DDTHH:mm:ss.sssZ],
    with a signed six-digit year outside 0..9999 (21.4.4.36, 21.4.1.32).

    The calendar is computed with days counted from 1970-01-01:
    [civil_from_days] splits a day number into 400-year eras of 146097
    days and a day of the era, [days_from_civil] is its inverse.  The
    theorem [iso_fields_roundtrip] shows that the printed fields denote
    the time value they were computed from; [civil_era_check] verifies
    the day-of-era conversion on all 146097 days of an era by
    evaluation. *)

From S2P Require Import Prelude JsNumber.

Local Open Scope Z_scope.

Definition ms_per_day : Z := 86400000.

(** TimeClip on a number: [None] for NaN. *)
Definition time_clip (t : number) : option Z :=
  match finite_parts t with
  | Some (s, m, e) =>
      let a := if 0 <=? e then m * 2 ^ e else m / 2 ^ (- e) in
      let frac := if 0 <=? e then false else negb (m mod 2 ^ (- e) =? 0) in
      if (8640000000000000 <? a) || ((a =? 8640000000000000) && frac) then None
      else Some (if s then - a else a)
  | None => None
  end.

(** ** The calendar of an era *)

(** A day of a 400-year era (0 is March 1st of year 0 of the era) as the
    year of the era, the month and the day; years start in March. *)
Definition doe_to_civil (doe : Z) : Z * Z * Z :=
  let yoe := (doe - doe / 1460 + doe / 36524 - doe / 146096) / 365 in
  let doy := doe - (365 * yoe + yoe / 4 - yoe / 100) in
  let mp := (5 * doy + 2) / 153 in
  let d := doy - (153 * mp + 2) / 5 + 1 in
  let m := if mp <? 10 then mp + 3 else mp - 9 in
  (yoe, m, d).

Definition civil_to_doe (yoe m d : Z) : Z :=
  let doy := (153 * (if 2 <? m then m - 3 else m + 9) + 2) / 5 + d - 1 in
  yoe * 365 + yoe / 4 - yoe / 100 + doy.

(** Day number (days since 1970-01-01) to year, month, day. *)
Definition civil_from_days (z : Z) : Z * Z * Z :=
  let z' := z + 719468 in
  let '(yoe, m, d) := doe_to_civil (z' mod 146097) in
  ((if m <=? 2 then 1 else 0) + yoe + 400 * (z' / 146097), m, d).

Definition days_from_civil (y m d : Z) : Z :=
  let y' := y - (if m <=? 2 then 1 else 0) in
  146097 * (y' / 400) + civil_to_doe (y' mod 400) m d - 719468.

(** ** [toISOString] *)

(** [n] in decimal, left-padded with zeros to [k] digits. *)
Definition pad (k : nat) (n : Z) : string :=
  let s := Z_to_dec n in zeros (k - String.length s) +:+ s.

Definition iso_year (y : Z) : string :=
  if (0 <=? y) && (y <=? 9999) then pad 4 y
  else (if y <? 0 then "-" else "+") +:+ pad 6 (Z.abs y).

(** The fields of a time value: year, month, day, hours, minutes,
    seconds, milliseconds. *)
Definition iso_fields (t : Z) : Z * Z * Z * Z * Z * Z * Z :=
  let ms := t mod ms_per_day in
  let '(y, mo, d) := civil_from_days (t / ms_per_day) in
  (y, mo, d, ms / 3600000, ms / 60000 mod 60, ms / 1000 mod 60, ms mod 1000).

Definition toISOString (tv : option Z) : except string string :=
  match tv with
  | None => inl "RangeError: Invalid time value"
  | Some t =>
      let '(y, mo, d, h, mi, s, ms) := iso_fields t in
      inr (iso_year y +:+ "-" +:+ pad 2 mo +:+ "-" +:+ pad 2 d +:+ "T" +:+ pad 2 h +:+ ":" +:+
           pad 2 mi +:+ ":" +:+ pad 2 s +:+ "." +:+ pad 3 ms +:+ "Z")
  end.

(** [new Date(x).toISOString()] for a number [x]. *)
Definition date_iso (x : number) : except string string := toISOString (time_clip x).

(** The time value the fields denote. *)
Definition fields_time (f : Z * Z * Z * Z * Z * Z * Z) : Z :=
  let '(y, mo, d, h, mi, s, ms) := f in
  days_from_civil y mo d * ms_per_day + h * 3600000 + mi * 60000 + s * 1000 + ms.

(** ** The era check *)

Definition era_day_ok (doe : Z) : bool :=
  let '(yoe, m, d) := doe_to_civil doe in
  (0 <=? yoe) && (yoe <? 400) && (1 <=? m) && (m <=? 12) && (1 <=? d) && (d <=? 31) &&
  (civil_to_doe yoe m d =? doe).

(** Every day of an era converts to a year of the era, a month and a day
    that convert back to it. *)
Lemma civil_era_check : all_in_range era_day_ok 146097 0 = true.
Proof. vm_compute. reflexivity. Qed.

Lemma era_day z : 0 <= z < 146097 -> era_day_ok z = true.
Proof.
  intros Hz. apply (all_in_range_spec era_day_ok 146097 0 civil_era_check).
  assert (E : Z.of_nat 146097 = 146097) by (vm_compute; reflexivity). lia.
Qed.

Lemma civil_from_days_inv z :
  let '(y, m, d) := civil_from_days z in days_from_civil y m d = z /\ 1 <= m <= 12 /\ 1 <= d <= 31.
Proof.
  unfold civil_from_days.
  pose proof (Z.mod_pos_bound (z + 719468) 146097 ltac:(lia)) as Hr.
  pose proof (era_day _ Hr) as Hok. unfold era_day_ok in Hok.
  destruct (doe_to_civil ((z + 719468) mod 146097)) as [[yoe m] d].
  repeat rewrite andb_true_iff in Hok. rewrite !Z.leb_le, !Z.ltb_lt, Z.eqb_eq in Hok.
  destruct Hok as [[[[[[Hy0 Hy1] Hm0] Hm1] Hd0] Hd1] Hdoe].
  split; [|lia]. unfold days_from_civil.
  replace ((if m <=? 2 then 1 else 0) + yoe + 400 * ((z + 719468) / 146097) - (if m <=? 2 then 1 else 0))
    with (yoe + ((z + 719468) / 146097) * 400) by lia.
  rewrite Z.div_add, Z.mod_add, Z.div_small, Z.mod_small by lia. rewrite Hdoe.
  pose proof (Z.div_mod (z + 719468) 146097 ltac:(lia)). lia.
Qed.

Lemma ms_split ms :
  0 <= ms < ms_per_day ->
  ms / 3600000 * 3600000 + ms / 60000 mod 60 * 60000 + ms / 1000 mod 60 * 1000 + ms mod 1000 = ms.
Proof.
  intros H. unfold ms_per_day in H.
  pose proof (Z.div_mod ms 1000 ltac:(lia)).
  pose proof (Z.div_mod (ms / 1000) 60 ltac:(lia)).
  pose proof (Z.div_mod (ms / 60000) 60 ltac:(lia)).
  rewrite (Z.div_div ms 1000 60) in * by lia.
  rewrite (Z.div_div ms 60000 60) in * by lia.
  replace (1000 * 60) with 60000 in * by reflexivity.
  replace (60000 * 60) with 3600000 in * by reflexivity. lia.
Qed.

(** The fields [toISOString] prints denote the time value: the calendar
    date counts back to the same day and the clock to the same
    millisecond. *)
Theorem iso_fields_roundtrip t : fields_time (iso_fields t) = t.
Proof.
  unfold iso_fields. pose proof (civil_from_days_inv (t / ms_per_day)) as Hc.
  destruct (civil_from_days (t / ms_per_day)) as [[y mo] d]. destruct Hc as [Hc _].
  simpl. rewrite Hc.
  pose proof (Z.mod_pos_bound t ms_per_day ltac:(unfold ms_per_day; lia)) as Hb.
  pose proof (ms_split _ Hb). pose proof (Z.div_mod t ms_per_day ltac:(unfold ms_per_day; lia)). lia.
Qed.
