(* ===== verification/Abi.v ===== *)
(** * abi.mjs: the ABI resolver

    [src/skills/superfluid/scripts/abi.mjs].  A contract name or alias is
    resolved against [ABI_MAP] and [ALIASES] ([resolveContract]); the ES
    module of its SDK family is loaded with [loadModule] (file Fetch.v);
    the export named by the map entry is printed whole, or filtered by
    fragment name.  [abi_main] is the [switch] on the command line, with
    the network outcome of the one fetch and the cache directory as
    inputs. *)

From S2P Require Import Prelude JsNumber JsValue Fetch.

Local Open Scope string_scope.

(** ** Static tables *)

Definition CDN_BASE : string := "https://cdn.jsdelivr.net/npm/@sfpro/sdk/dist/abi".

(** An entry of [ABI_MAP]: the SDK module and the export name. *)
Record abi_entry := mk_entry { entry_module : string; entry_export : string }.

Definition ABI_MAP : list (string * abi_entry) :=
  [("CFAv1Forwarder", mk_entry "main" "cfaForwarderAbi");
   ("GDAv1Forwarder", mk_entry "main" "gdaForwarderAbi");
   ("SuperfluidPool", mk_entry "main" "gdaPoolAbi");
   ("SuperToken", mk_entry "main" "superTokenAbi");
   ("Superfluid", mk_entry "core" "hostAbi");
   ("ConstantFlowAgreementV1", mk_entry "core" "cfaAbi");
   ("GeneralDistributionAgreementV1", mk_entry "core" "gdaAbi");
   ("InstantDistributionAgreementV1", mk_entry "core" "idaAbi");
   ("SuperTokenFactory", mk_entry "core" "superTokenFactoryAbi");
   ("BatchLiquidator", mk_entry "core" "batchLiquidatorAbi");
   ("TOGA", mk_entry "core" "togaAbi");
   ("Governance", mk_entry "core" "governanceAbi");
   ("AutoWrapManager", mk_entry "automation" "autoWrapManagerAbi");
   ("AutoWrapStrategy", mk_entry "automation" "autoWrapStrategyAbi");
   ("FlowScheduler", mk_entry "automation" "flowSchedulerAbi");
   ("VestingSchedulerV3", mk_entry "automation" "vestingSchedulerV3Abi")].

Definition ALIASES : list (string * string) :=
  [("cfaforwarder", "CFAv1Forwarder"); ("gdaforwarder", "GDAv1Forwarder");
   ("pool", "SuperfluidPool"); ("gdapool", "SuperfluidPool");
   ("supertoken", "SuperToken"); ("token", "SuperToken");
   ("host", "Superfluid"); ("cfa", "ConstantFlowAgreementV1");
   ("gda", "GeneralDistributionAgreementV1"); ("ida", "InstantDistributionAgreementV1");
   ("supertokenfactory", "SuperTokenFactory"); ("factory", "SuperTokenFactory");
   ("batchliquidator", "BatchLiquidator"); ("liquidator", "BatchLiquidator");
   ("toga", "TOGA"); ("governance", "Governance");
   ("autowrapmanager", "AutoWrapManager"); ("autowrap", "AutoWrapManager");
   ("autowrapstrategy", "AutoWrapStrategy"); ("flowscheduler", "FlowScheduler");
   ("vestingschedulerv3", "VestingSchedulerV3"); ("vestingscheduler", "VestingSchedulerV3");
   ("vesting", "VestingSchedulerV3")].

(** ** Resolution and paths *)

(** [resolveContract(query)]: the first key of [ABI_MAP] equal to the
    query up to case, else [ALIASES[query.toLowerCase()] ?? null], a read
    that also finds the members of [Object.prototype]. *)
Definition resolveContract (query : string) : jsval :=
  let byAlias := js_coalesce (obj_get (fun c => VJson (JStr c)) ALIASES (toLowerCase query))
                             (VJson JNull) in
  match List.find (fun k => String.eqb (toLowerCase k) (toLowerCase query)) (map fst ABI_MAP) with
  | Some k => if truthy (VJson (JStr k)) then VJson (JStr k) else byAlias
  | None => byAlias
  end.

Definition cdnUrl (module : string) : string :=
  if String.eqb module "main" then CDN_BASE +:+ "/generated.js"
  else CDN_BASE +:+ "/" +:+ module +:+ "/generated.js".

(** [cacheFile(module)], as a name inside the cache directory. *)
Definition cacheFile (module : string) : string := "abi-" +:+ module +:+ ".mjs".

Definition sdkImportPath (module : string) : string :=
  if String.eqb module "main" then "@sfpro/sdk/abi" else "@sfpro/sdk/abi/" +:+ module.

(** [ABI_MAP[name]] for the value [resolveContract] returned: a string
    key reads the table (with [Object.prototype] behind it); a built-in
    converts to a key that is neither ("function constructor() ..." or
    "[object Object]"). *)
Inductive entry_read := EntryOwn (e : abi_entry) | EntryInherited (member : string) | EntryUndef.

Definition abi_map_get (name : jsval) : entry_read :=
  match name with
  | VJson (JStr s) =>
      match assoc s ABI_MAP with
      | Some e => EntryOwn e
      | None => if decide (s ∈ object_prototype_members) then EntryInherited s else EntryUndef
      end
  | _ => EntryUndef
  end.

(** ** The fragment filter *)

(** [item.name?.toLowerCase() === fnName.toLowerCase()]: a read of [name]
    on [null] throws, and so does a call of [toLowerCase] on a name that is
    neither nullish nor a string. *)
Definition fragment_matches (fnName : string) (item : json) : except string bool :=
  match item with
  | JNull => inl "TypeError: Cannot read properties of null (reading 'name')"
  | _ =>
      match get item "name" with
      | VUndef | VJson JNull => inr false
      | VJson (JStr s) => inr (String.eqb (toLowerCase s) (toLowerCase fnName))
      | _ => inl "TypeError: item.name?.toLowerCase is not a function"
      end
  end.

(** [x === y] between two array elements, as [indexOf] compares them:
    primitives by value ([NaN] unequal to itself), objects and arrays by
    identity, so two distinct elements are never identical. *)
Definition same_prim (x y : json) : bool :=
  match x, y with
  | JNull, JNull => true
  | JBool a, JBool b => Bool.eqb a b
  | JNum a, JNum b => num_eqb a b
  | JStr a, JStr b => String.eqb a b
  | _, _ => false
  end.

(** [xs.filter((v, i, a) => a.indexOf(v) === i)]: an element is kept when
    no earlier element is identical to it and it is identical to itself
    ([indexOf(NaN)] is [-1]). *)
Fixpoint dedupe_rev (seen : list json) (xs : list json) : list json :=
  match xs with
  | [] => []
  | x :: xs' =>
      let self := match x with JArr _ | JObj _ => true | _ => same_prim x x end in
      if self && forallb (fun y => negb (same_prim y x)) seen
      then x :: dedupe_rev (seen ++ [x]) xs'
      else dedupe_rev (seen ++ [x]) xs'
  end.

(** The hint count: [abi.filter(i => i.name).map(i => i.name)] then the
    de-duplication, for the items of an array ABI. *)
Definition named_count (items : list json) : nat :=
  let names := omap (fun i => match get i "name" with
                              | VJson j => if json_truthy j then Some j else None
                              | _ => None
                              end) items in
  length (dedupe_rev [] names).

(** ** Diagnostics and the command dispatch *)

Inductive abi_diag :=
  | AbiHelp                                        (* the usage text, on [help] *)
  | AbiNotInSdk (name kind : string)               (* Error: <match> is not available in @sfpro/sdk (<kind>). *)
  | AbiRichYaml (name : string)                    (* Refer to the Rich ABI YAML: references/contracts/<match>.rich-abi.yaml *)
  | AbiUnknown (query : string)                    (* Error: Unknown contract "<command>". *)
  | AbiRunList                                     (* Run "node abi.mjs list" to see available contracts. *)
  | AbiExportMissing (exp module : string)      (* Error: Export "<export>" not found in SDK module "<module>". *)
  | AbiNoEntry (fn contract : string)              (* Error: No ABI entry named "<fnName>" in <name>. *)
  | AbiHint (count : nat)                          (* Hint: Names are case-insensitive. The ABI has <n> named entries. *)
  | AbiLoad (d : load_diag).                       (* the lines of loadModule's fallback *)

Definition exit_with (out : list json) (err : list abi_diag) (code : Z) : run abi_diag :=
  mk_run out err (ExitCode code).

(** [case "list"] *)
Definition list_entries : json :=
  JArr (map (fun '(name, e) =>
               js_object [("contract", VJson (JStr name));
                          ("sdkImport", VJson (JStr (sdkImportPath (entry_module e))));
                          ("sdkExport", VJson (JStr (entry_export e)))]) ABI_MAP).

(** The well-known contracts that are not in the SDK, and how the message
    describes them. *)
Definition notInSdk : list string := ["CFASuperAppBase"; "SuperTokenV1Library"].

Definition unknown_contract (command : string) : run abi_diag :=
  match List.find (fun n => String.eqb (toLowerCase n) (toLowerCase command)) notInSdk with
  | Some m =>
      exit_with [] [AbiNotInSdk m (if String.eqb m "CFASuperAppBase" then "abstract base contract"
                                   else "Solidity library");
                    AbiRichYaml m] 1
  | None => exit_with [] [AbiUnknown command; AbiRunList] 1
  end.

(** The lines after [const abi = mod[entry.export]]: the [!abi] check and
    the output, whole or filtered by [fnName]; [exp_out] is the value of
    [entry.export] as the output object holds it. *)
Definition show_abi (name : string) (e : abi_entry) (exp_out : jsval) (ns : list (string * json))
  (fnName : option string) : run abi_diag :=
  match assoc (entry_export e) ns with
  | None => exit_with [] [AbiExportMissing (entry_export e) (entry_module e)] 1
  | Some abi =>
      if negb (json_truthy abi) then exit_with [] [AbiExportMissing (entry_export e) (entry_module e)] 1
      else match fnName with
           | Some fn =>
               if String.eqb fn "" then
                 exit_with [js_object [("contract", VJson (JStr name));
                                       ("sdkImport", VJson (JStr (sdkImportPath (entry_module e))));
                                       ("sdkExport", exp_out);
                                       ("abi", VJson abi)]] [] 0
               else match abi with
                    | JArr items =>
                        match filterM (fragment_matches fn) items with
                        | inl err => mk_run [] [] (Uncaught err)
                        | inr [x] => exit_with [x] [] 0
                        | inr [] => exit_with [] [AbiNoEntry fn name; AbiHint (named_count items)] 1
                        | inr frags => exit_with [JArr frags] [] 0
                        end
                    | _ => mk_run [] [] (Uncaught "TypeError: abi.filter is not a function")
                    end
           | None =>
               exit_with [js_object [("contract", VJson (JStr name));
                                     ("sdkImport", VJson (JStr (sdkImportPath (entry_module e))));
                                     ("sdkExport", exp_out);
                                     ("abi", VJson abi)]] [] 0
           end
  end.

(** The message of the uncaught rejection of [await loadModule(...)]. *)
Definition rejection_message (e : js_error) : string :=
  match e with
  | ImportNotFound f => "Error [ERR_MODULE_NOT_FOUND]: Cannot find module '" +:+ f +:+ "'"
  | ImportEval m => m
  | _ => "Error"
  end.

(** The module namespace of an SDK family: its exports by name. *)
Abbreviation namespace := (list (string * json)).

Section Main.
Context `{ModuleLoader namespace}.

(** [default:] once [name] is truthy: [ABI_MAP[name]], [await
    loadModule(entry.module)] and [show_abi].  An entry inherited from
    [Object.prototype] is a function: its [module] and [export] read as
    [undefined], which the template literals print as "undefined". *)
Definition abi_default (name : jsval) (args : list string) (net : fetch_outcome) (fs : fs_state)
  : run abi_diag * fs_state :=
  let go (label : string) (e : abi_entry) (exp_out : jsval) :=
    let module := entry_module e in
    let '(c, fs') := loadModule module (cdnUrl module) (cacheFile module) (M := namespace) net fs in
    match c with
    | Return (Fulfilled ns) => (show_abi label e exp_out ns (head args), fs')
    | Return (Rejected err) => (mk_run [] [] (Uncaught (rejection_message err)), fs')
    | Exited lines => (mk_run [] (map AbiLoad lines) (ExitCode 1), fs')
    | Throw err => (mk_run [] [] (Uncaught (rejection_message err)), fs')
    end in
  match name, abi_map_get name with
  | VJson (JStr s), EntryOwn e => go s e (VJson (JStr (entry_export e)))
  | VJson (JStr s), EntryInherited _ => go s (mk_entry "undefined" "undefined") VUndef
  | _, _ => (mk_run [] [] (Uncaught "TypeError: Cannot read properties of undefined (reading 'module')"), fs)
  end.

(** The script: [const [command, ...args] = process.argv.slice(2)] and the
    [switch (command)]. *)
Definition abi_main (argv : list string) (net : fetch_outcome) (fs : fs_state) : run abi_diag * fs_state :=
  match argv with
  | [] => (exit_with [] [AbiHelp] 0, fs)
  | command :: args =>
      if String.eqb command "list" then (exit_with [list_entries] [] 0, fs)
      else if decide (command ∈ ["help"; "--help"; "-h"]) then (exit_with [] [AbiHelp] 0, fs)
      else let name := resolveContract command in
           if negb (truthy name) then (unknown_contract command, fs)
           else abi_default name args net fs
  end.
End Main.

(** ** Properties of contract resolution *)

Lemma abi_keys_nonempty : Forall (fun k => k <> "") (map fst ABI_MAP).
Proof.
  apply Forall_forall. intros k Hk Hnil.
  assert (H : forallb (fun k => negb (String.eqb k "")) (map fst ABI_MAP) = true) by run_eval.
  rewrite forallb_forall in H. specialize (H k Hk). rewrite Hnil in H. discriminate.
Qed.

Lemma alias_targets_canonical : Forall (fun ac => In ac.2 (map fst ABI_MAP)) ALIASES.
Proof.
  apply Forall_forall. intros ac Hin. apply existsb_eqb_In.
  revert ac Hin. apply forallb_forall. run_eval.
Qed.

(** The members of [Object.prototype] that a lower-cased query can name. *)
Lemma lowercase_prototype_members m :
  m ∈ object_prototype_members -> toLowerCase m = m -> m = "constructor" \/ m = "__proto__".
Proof.
  intros Hm Hl. unfold object_prototype_members in Hm.
  repeat (apply elem_of_cons in Hm as [->|Hm]; [first [by left | by right | discriminate] |]).
  by apply elem_of_nil in Hm.
Qed.

(** Resolution reads the query only through its lower-case form. *)
Lemma resolveContract_lower q : resolveContract q = resolveContract (toLowerCase q).
Proof. unfold resolveContract. by rewrite toLowerCase_idem. Qed.

(** Every canonical name resolves, lower-cased, to itself. *)
Lemma canonical_lower_resolves k e :
  In (k, e) ABI_MAP -> resolveContract (toLowerCase k) = VJson (JStr k).
Proof. intros Hin. repeat (destruct Hin as [Hin|Hin]; [injection Hin as <- <-; run_eval|]); done. Qed.

(** C3: Spec 8.3, resolution ignores letter case: two queries equal up to
    case resolve to the same value. *)
Theorem resolveContract_case_insensitive q1 q2 :
  toLowerCase q1 = toLowerCase q2 -> resolveContract q1 = resolveContract q2.
Proof. intros H. by rewrite (resolveContract_lower q1), (resolveContract_lower q2), H. Qed.

(** C14: A query equal to a canonical name of [ABI_MAP] up to case
    resolves to that name: the keys are distinct up to case, so the first
    match is the only one. *)
Theorem resolveContract_canonical k e q :
  In (k, e) ABI_MAP -> eq_ci q k = true -> resolveContract q = VJson (JStr k).
Proof.
  intros Hin Hq. apply eq_ci_true in Hq.
  rewrite resolveContract_lower, Hq. by apply (canonical_lower_resolves k e).
Qed.

(** C4: Spec 8.3, aliases.  Every alias of [ALIASES], written in any
    letter case, resolves to its canonical name, and that name is a key of
    [ABI_MAP] that resolves to itself. *)
Theorem resolveContract_alias a c q :
  In (a, c) ALIASES -> toLowerCase q = a ->
  resolveContract q = VJson (JStr c) /\ resolveContract c = VJson (JStr c).
Proof.
  intros Hin Hq. rewrite resolveContract_lower, Hq.
  repeat (destruct Hin as [Hin|Hin]; [injection Hin as <- <-; split; run_eval|]); done.
Qed.

(** C24: What [resolveContract] can return: a key of [ABI_MAP], [null],
    or (for the queries [constructor] and [__proto__] in any case) a member
    of [Object.prototype] reached through [ALIASES]. *)
Theorem resolveContract_cases q :
  (exists k, In k (map fst ABI_MAP) /\ resolveContract q = VJson (JStr k))
  \/ resolveContract q = VJson JNull
  \/ (resolveContract q = VBuiltin (toLowerCase q) /\
      (toLowerCase q = "constructor" \/ toLowerCase q = "__proto__")).
Proof.
  unfold resolveContract.
  destruct (List.find _ (map fst ABI_MAP)) as [k|] eqn:Hf.
  - apply find_some in Hf as [Hk _].
    pose proof abi_keys_nonempty as Hne. rewrite Forall_forall in Hne.
    specialize (Hne k Hk). left. exists k. split; [done|].
    destruct k; [done|reflexivity].
  - unfold obj_get. destruct (assoc (toLowerCase q) ALIASES) as [c|] eqn:Ha.
    + left. exists c. split; [|reflexivity].
      assert (Hin : In (toLowerCase q, c) ALIASES).
      { revert Ha. generalize ALIASES. intros l. induction l as [|[a c'] l IH]; simpl; [done|].
        destruct (String.eqb_spec (toLowerCase q) a) as [->|]; [intros [= ->]; by left|].
        intros H. right. by apply IH. }
      pose proof alias_targets_canonical as Hal. rewrite Forall_forall in Hal. exact (Hal _ Hin).
    + case_decide as Hm; [|by right; left].
      right; right. split; [reflexivity|]. apply lowercase_prototype_members; [done|].
      apply toLowerCase_idem.
Qed.

(** ** Properties of the command dispatch *)

Section MainFacts.
Context `{ModuleLoader namespace}.

(** C17: [node abi.mjs constructor] (or [__proto__], in any case) crashes.
    [ALIASES[query.toLowerCase()]] reads a member of [Object.prototype],
    which is truthy, so the unknown-contract branch is skipped;
    [ABI_MAP[name]] is then [undefined] and [entry.module] throws a
    TypeError before any fetch: no output, no diagnostic, no change to the
    cache. *)
Theorem abi_main_prototype_query_crashes q args net fs :
  toLowerCase q = "constructor" \/ toLowerCase q = "__proto__" ->
  abi_main (q :: args) net fs =
    (mk_run [] [] (Uncaught "TypeError: Cannot read properties of undefined (reading 'module')"), fs).
Proof.
  intros Hq.
  assert (Hr : resolveContract q = VBuiltin (toLowerCase q)).
  { rewrite resolveContract_lower. destruct Hq as [-> | ->]; run_eval. }
  assert (Hne : forall s, toLowerCase s = s -> toLowerCase q <> s -> q <> s).
  { intros s Hs Hqs ->. by apply Hqs. }
  unfold abi_main.
  destruct (String.eqb_spec q "list") as [Hl|_].
  { exfalso. revert Hl. apply Hne; [reflexivity|]. destruct Hq as [-> | ->]; discriminate. }
  case_decide as Hh.
  { exfalso. repeat (apply elem_of_cons in Hh as [Hh|Hh];
      [revert Hh; apply Hne; [reflexivity|]; destruct Hq as [-> | ->]; discriminate|]).
    by apply elem_of_nil in Hh. }
  rewrite Hr. reflexivity.
Qed.

(** An ABI item the fragment filter can read without throwing: not
    [null], with a [name] that is absent, [null] or a string. *)
Definition fragment_wf (item : json) : bool :=
  match item with
  | JNull => false
  | _ => match get item "name" with VUndef | VJson JNull | VJson (JStr _) => true | _ => false end
  end.

(** The fragments whose name equals [fn] up to case. *)
Definition fragment_named (fn : string) (item : json) : bool :=
  match get item "name" with VJson (JStr s) => eq_ci s fn | _ => false end.

Lemma fragment_filter_wf fn items :
  Forall (fun i => fragment_wf i = true) items ->
  filterM (fragment_matches fn) items = inr (List.filter (fragment_named fn) items).
Proof.
  intros Hwf. apply filterM_pure. intros i Hi.
  rewrite Forall_forall in Hwf. specialize (Hwf i Hi).
  unfold fragment_wf in Hwf. unfold fragment_matches, fragment_named.
  destruct i; try discriminate;
    destruct (get _ "name") as [|[]|]; try discriminate; reflexivity.
Qed.

(** C5: Spec 8.4, fragment cardinality.  On an array ABI whose items the
    filter reads without throwing, a non-empty fragment name prints the
    only matching entry alone when exactly one matches, and the array of
    the matches when several do (overloads), with exit code 0. *)
Theorem show_abi_fragment_cardinality name e exp_out ns fn items :
  assoc (entry_export e) ns = Some (JArr items) -> fn <> "" ->
  Forall (fun i => fragment_wf i = true) items ->
  (forall f, List.filter (fragment_named fn) items = [f] ->
     show_abi name e exp_out ns (Some fn) = exit_with [f] [] 0) /\
  (forall f1 f2 fs, List.filter (fragment_named fn) items = f1 :: f2 :: fs ->
     show_abi name e exp_out ns (Some fn) = exit_with [JArr (f1 :: f2 :: fs)] [] 0).
Proof.
  intros Hns Hfn Hwf. unfold show_abi. rewrite Hns. simpl.
  destruct (String.eqb_spec fn "") as [->|_]; [done|].
  rewrite (fragment_filter_wf fn items Hwf).
  split; [intros f -> | intros f1 f2 fs ->]; reflexivity.
Qed.

(** C15: Spec 8.4, unknown fragment.  When no entry of a readable array
    ABI matches, the script prints the not-found line and the hint with
    the number of distinct entry names, and exits with code 1. *)
Theorem show_abi_no_fragment name e exp_out ns fn items :
  assoc (entry_export e) ns = Some (JArr items) -> fn <> "" ->
  Forall (fun i => fragment_wf i = true) items ->
  List.filter (fragment_named fn) items = [] ->
  show_abi name e exp_out ns (Some fn) = exit_with [] [AbiNoEntry fn name; AbiHint (named_count items)] 1.
Proof.
  intros Hns Hfn Hwf Hnone. unfold show_abi. rewrite Hns. simpl.
  destruct (String.eqb_spec fn "") as [->|_]; [done|].
  by rewrite (fragment_filter_wf fn items Hwf), Hnone.
Qed.

Lemma cacheFile_not_json module f :
  f = "networks.json" \/ f = "tokenlist.json" -> f <> cacheFile module.
Proof. intros [-> | ->]; unfold cacheFile; discriminate. Qed.

(** The cache files of the ABI modules are apart from those of the
    JSON sources: no invocation of abi.mjs changes [networks.json] or
    [tokenlist.json] in the shared cache directory. *)
Theorem abi_main_keeps_json_caches argv net fs f :
  f = "networks.json" \/ f = "tokenlist.json" ->
  fs_files (snd (abi_main argv net fs)) !! f = fs_files fs !! f.
Proof.
  intros Hf. unfold abi_main.
  destruct argv as [|command args]; [done|].
  destruct (String.eqb command "list"); [done|].
  case_decide; [done|].
  destruct (negb (truthy (resolveContract command))); [done|].
  unfold abi_default.
  destruct (resolveContract command) as [|[]|]; try done.
  destruct (abi_map_get _) as [e|m|]; try done;
    match goal with
    | |- context [loadModule ?mo ?u ?c ?n ?s] =>
        pose proof (loadModule_frame mo u c n s f (cacheFile_not_json _ f Hf)) as Hfr;
        destruct (loadModule mo u c n s) as [[[ns|err]|err|lines] fs'];
        exact Hfr
    end.
Qed.
(** C16: End to end: a query equal to a canonical contract name up to
    case, once the module of its family loaded, shows that contract's
    export ([show_abi] with the canonical name and the map entry); the
    cache directory is the one [loadModule] left. *)
Theorem abi_main_lookup q k e args net fs ns :
  In (k, e) ABI_MAP -> eq_ci q k = true ->
  fst (loadModule (entry_module e) (cdnUrl (entry_module e)) (cacheFile (entry_module e)) net fs)
    = Return (Fulfilled ns) ->
  abi_main (q :: args) net fs =
    (show_abi k e (VJson (JStr (entry_export e))) ns (head args),
     snd (loadModule (entry_module e) (cdnUrl (entry_module e)) (cacheFile (entry_module e)) net fs)).
Proof.
  intros Hin Hq Hload.
  apply eq_ci_true in Hq.
  assert (Hr : resolveContract q = VJson (JStr k))
    by (rewrite resolveContract_lower, Hq; by apply (canonical_lower_resolves k e)).
  assert (Hget : abi_map_get (VJson (JStr k)) = EntryOwn e).
  { repeat (destruct Hin as [Hin|Hin]; [injection Hin as <- <-; run_eval|]); done. }
  assert (Hnl : q <> "list" /\ q ∉ ["help"; "--help"; "-h"]).
  { split; [intros ->|intros Hh; repeat (apply elem_of_cons in Hh as [->|Hh]; [|]);
      [..|by apply elem_of_nil in Hh]];
    revert Hq; repeat (destruct Hin as [Hin|Hin]; [injection Hin as <- <-; vm_compute; discriminate|]);
    done. }
  destruct Hnl as [Hl Hh].
  unfold abi_main. destruct (String.eqb_spec q "list"); [done|].
  rewrite decide_False by done. rewrite Hr.
  assert (Htk : truthy (VJson (JStr k)) = true).
  { pose proof abi_keys_nonempty as Hne. rewrite Forall_forall in Hne.
    assert (Hk : k <> "") by (apply Hne; apply (in_map fst) in Hin; exact Hin).
    destruct k; [done|reflexivity]. }
  rewrite Htk. cbn [negb]. unfold abi_default. rewrite Hget.
  destruct (loadModule _ _ _ net fs) as [c fs'] eqn:E. simpl in Hload. by subst c.
Qed.
End MainFacts.

(** ** Concrete runs *)

(** A SuperToken ABI with a constructor, one [transfer] and two overloads
    of [approve], and a loader that evaluates one module text to it. *)
Module AbiExamples.
Definition ctor := JObj [("type", JStr "constructor")].
Definition transfer := JObj [("type", JStr "function"); ("name", JStr "transfer")].
Definition approve1 := JObj [("type", JStr "function"); ("name", JStr "approve");
                             ("stateMutability", JStr "nonpayable")].
Definition approve2 := JObj [("type", JStr "function"); ("name", JStr "approve");
                             ("stateMutability", JStr "payable")].
Definition main_ns : namespace := [("superTokenAbi", JArr [ctor; transfer; approve1; approve2])].
Definition main_code := "export const superTokenAbi = [...]".

#[export] Instance sdk_loader : ModuleLoader namespace :=
  {| eval_module := fun code => if String.eqb code main_code then inr main_ns
                                else inl "SyntaxError: Unexpected token" |}.

Definition supertoken_entry := mk_entry "main" "superTokenAbi".
Definition offline := FetchRejected "getaddrinfo ENOTFOUND cdn.jsdelivr.net".
Definition online := FetchOk (mk_response 200 main_code).
Definition empty_rw := mk_fs ∅ true.
End AbiExamples.

Import AbiExamples.

Lemma resolveContract_case_insensitive_witness : resolveContract "CFA" = resolveContract "cfa".
Proof. apply resolveContract_case_insensitive. reflexivity. Defined.

Lemma resolveContract_canonical_witness :
  resolveContract "cfav1FORWARDER" = VJson (JStr "CFAv1Forwarder").
Proof. apply (resolveContract_canonical _ (mk_entry "main" "cfaForwarderAbi")); [simpl; tauto | reflexivity]. Defined.

Lemma resolveContract_alias_witness :
  resolveContract "CFA" = VJson (JStr "ConstantFlowAgreementV1") /\
  resolveContract "ConstantFlowAgreementV1" = VJson (JStr "ConstantFlowAgreementV1").
Proof. apply (resolveContract_alias "cfa"); [simpl; tauto | reflexivity]. Defined.

Lemma abi_main_prototype_query_crashes_witness :
  abi_main ["Constructor"; "transfer"] online empty_rw =
    (mk_run [] [] (Uncaught "TypeError: Cannot read properties of undefined (reading 'module')"), empty_rw).
Proof. apply abi_main_prototype_query_crashes. left. reflexivity. Defined.

Lemma show_abi_fragment_cardinality_witness :
  show_abi "SuperToken" supertoken_entry (VJson (JStr "superTokenAbi")) main_ns (Some "Transfer")
    = exit_with [transfer] [] 0 /\
  show_abi "SuperToken" supertoken_entry (VJson (JStr "superTokenAbi")) main_ns (Some "approve")
    = exit_with [JArr [approve1; approve2]] [] 0.
Proof.
  split.
  - apply (proj1 (show_abi_fragment_cardinality "SuperToken" supertoken_entry
                    (VJson (JStr "superTokenAbi")) main_ns "Transfer"
                    [ctor; transfer; approve1; approve2]
                    eq_refl ltac:(discriminate) ltac:(repeat constructor))).
    reflexivity.
  - apply (proj2 (show_abi_fragment_cardinality "SuperToken" supertoken_entry
                    (VJson (JStr "superTokenAbi")) main_ns "approve"
                    [ctor; transfer; approve1; approve2]
                    eq_refl ltac:(discriminate) ltac:(repeat constructor))).
    reflexivity.
Defined.

Lemma show_abi_no_fragment_witness :
  show_abi "SuperToken" supertoken_entry (VJson (JStr "superTokenAbi")) main_ns (Some "burn")
    = exit_with [] [AbiNoEntry "burn" "SuperToken"; AbiHint 2] 1.
Proof.
  rewrite (show_abi_no_fragment _ _ _ _ _ [ctor; transfer; approve1; approve2]);
    [reflexivity | reflexivity | discriminate | repeat constructor | reflexivity].
Defined.

Lemma abi_main_keeps_json_caches_witness :
  fs_files (snd (abi_main ["supertoken"] online (mk_fs {[ "networks.json" := "[]" ]} true)))
    !! "networks.json" = Some "[]".
Proof. rewrite abi_main_keeps_json_caches by (left; reflexivity). reflexivity. Defined.

Lemma abi_main_lookup_witness :
  abi_main ["supertoken"; "transfer"] online empty_rw =
    (exit_with [transfer] [] 0, mk_fs {[ "abi-main.mjs" := main_code ]} true).
Proof.
  rewrite (abi_main_lookup "supertoken" "SuperToken" supertoken_entry _ _ _ main_ns);
    [reflexivity | simpl; tauto | reflexivity | reflexivity].
Defined.
