(* ===== verification/Metadata.v ===== *)
(** * metadata.mjs: the network metadata resolver

    [src/skills/superfluid/scripts/metadata.mjs].  The network list is
    loaded once, at the top level, by [loadNetworks] (the [loadJson]
    routine of Fetch.v with the identity projection); every command,
    [help] included, runs after that load.  [resolveNetwork] matches a
    chain id when [Number(idOrName)] is not NaN, and otherwise the stored
    [name] or [shortName] against the lower-cased query; [requireNetwork]
    turns a miss into two diagnostic lines and exit code 1.  The six
    commands build their output objects with [js_object] (JsValue.v).

    A statement list that ends the process early is an [except (run
    meta_diag) A]: [inl r] is the end of the run, [inr a] the value the
    script continues with. *)

From S2P Require Import Prelude JsNumber JsValue Fetch.

Local Open Scope string_scope.

Definition CDN_URL : string := "https://cdn.jsdelivr.net/npm/@superfluid-finance/metadata/networks.json".

(** [CACHE_FILE], as a name inside the cache directory. *)
Definition CACHE_FILE : string := "networks.json".

(** One [console.error] line of metadata.mjs. *)
Inductive meta_diag :=
  | MetaLoad (d : load_diag)                      (* the lines of loadNetworks' fallback *)
  | MetaUsage (usage : string)                    (* Usage: metadata.mjs <usage> *)
  | MetaNotFound (query : string)                 (* Error: Network not found for "<idOrName>". *)
  | MetaAvailable (entries : string)              (* Available: <name (chainId), ...> *)
  | MetaKeyNotFound (key keys : string)           (* Error: Key "<key>" not found. Available: <keys>, nativeTokenWrapper *)
  | MetaHelp.                                     (* the usage text of the default case *)

(** [networks.find], [filter], [map]: array methods; on any other value
    the call throws. *)
Definition as_array (v : json) (meth : string) : except string (list json) :=
  match v with
  | JArr l => inr l
  | JNull => inl ("TypeError: Cannot read properties of null (reading '" +:+ meth +:+ "')")
  | _ => inl ("TypeError: networks." +:+ meth +:+ " is not a function")
  end.

Local Open Scope js_scope.

(** [resolveNetwork(idOrName)] *)
Definition resolveNetwork (networks : json) (idOrName : string) : except string (option json) :=
  let asNum := StringToNumber idOrName in
  if negb (isNaN asNum) then
    let* l := as_array networks "find" in
    findM (fun n => let* c := read n "chainId" in inr (strict_eq_num c asNum)) l
  else
    let lower := toLowerCase idOrName in
    let* l := as_array networks "find" in
    findM (fun n => let* nm := read n "name" in
                    if strict_eq_str nm lower then inr true
                    else let* sn := read n "shortName" in inr (strict_eq_str sn lower)) l.

(** The "Available" line: [networks.map(n => `${n.name} (${n.chainId})`).join(", ")]. *)
Definition available (networks : json) : except string string :=
  let* l := as_array networks "map" in
  let* entries := mapM (fun n => let* nm := read n "name" in
                                 let* c := read n "chainId" in
                                 inr (to_js_string nm +:+ " (" +:+ to_js_string c +:+ ")")) l in
  inr (join ", " entries).

(** [requireNetwork(idOrName)]: the first diagnostic line is printed
    before the second one is computed. *)
Definition requireNetwork (networks : json) (idOrName : string) : except (run meta_diag) json :=
  let not_found :=
    match available networks with
    | inl e => inl (mk_run [] [MetaNotFound idOrName] (Uncaught e))
    | inr av => inl (mk_run [] [MetaNotFound idOrName; MetaAvailable av] (ExitCode 1))
    end in
  match resolveNetwork networks idOrName with
  | inl e => inl (crash e)
  | inr (Some n) => if json_truthy n then inr n else not_found
  | inr None => not_found
  end.

(** [summary(n)] *)
Definition summary (n : json) : except string json :=
  let* name := read n "name" in
  let* chainId := read n "chainId" in
  let* hrn := read n "humanReadableName" in
  let* isTestnet := read n "isTestnet" in
  let* nts := read n "nativeTokenSymbol" in
  inr (js_object [("name", name); ("chainId", chainId); ("humanReadableName", hrn);
                  ("isTestnet", isTestnet); ("nativeTokenSymbol", nts)]).

(** [Object.keys(v)]: own enumerable keys; [undefined] and [null] throw. *)
Definition object_keys (v : jsval) : except string (list string) :=
  match v with
  | VUndef | VJson JNull => inl "TypeError: Cannot convert undefined or null to object"
  | _ => inr (map fst (spread_props v))
  end.

Definition SUBGRAPH_BASE : string := "https://subgraph-endpoints.superfluid.dev/".

(** ** The commands *)

(** [case "networks"] *)
Definition cmd_networks (networks : json) (args : list string) : run meta_diag :=
  let flag := head args in
  let selected : except string json :=
    if decide (flag = Some "--mainnets") then
      let* l := as_array networks "filter" in
      let* r := filterM (fun n => let* t := read n "isTestnet" in inr (negb (truthy t))) l in
      inr (JArr r)
    else if decide (flag = Some "--testnets") then
      let* l := as_array networks "filter" in
      let* r := filterM (fun n => let* t := read n "isTestnet" in inr (truthy t)) l in
      inr (JArr r)
    else inr networks in
  finish (lift (let* lst := selected in
                let* l := as_array lst "map" in
                let* s := mapM summary l in
                inr (JArr s))).

(** [if (!args[0])]: the argument is missing or empty. *)
Definition arg_missing (a : option string) : bool :=
  match a with None => true | Some s => String.eqb s "" end.

Definition usage (u : string) : run meta_diag := mk_run [] [MetaUsage u] (ExitCode 1).

(** [case "network"] *)
Definition cmd_network (networks : json) (args : list string) : run meta_diag :=
  match head args with
  | Some q => if arg_missing (Some q) then usage "network <chain-id-or-name>"
              else finish (requireNetwork networks q)
  | None => usage "network <chain-id-or-name>"
  end.

(** [case "contracts"] *)
Definition cmd_contracts (networks : json) (args : list string) : run meta_diag :=
  match head args with
  | Some q =>
      if arg_missing (Some q) then usage "contracts <chain-id-or-name>"
      else finish (let* n := requireNetwork networks q in
                   inr (js_object ([("network", get n "name"); ("chainId", get n "chainId");
                                    ("nativeTokenWrapper", get n "nativeTokenWrapper")]
                                   ++ spread_props (get n "contractsV1"))))
  | None => usage "contracts <chain-id-or-name>"
  end.

(** [case "contract"]: [n.contractsV1?.[key] || (key === "nativeTokenWrapper"
    ? n.nativeTokenWrapper : undefined)]. *)
Definition contract_addr (n : json) (key : string) : jsval :=
  js_or (get_opt (get n "contractsV1") key)
        (if String.eqb key "nativeTokenWrapper" then get n "nativeTokenWrapper" else VUndef).

Definition cmd_contract (networks : json) (args : list string) : run meta_diag :=
  match args with
  | q :: key :: _ =>
      if arg_missing (Some q) || arg_missing (Some key) then usage "contract <chain-id-or-name> <key>"
      else finish (let* n := requireNetwork networks q in
                   let addr := contract_addr n key in
                   if negb (truthy addr) then
                     match object_keys (get n "contractsV1") with
                     | inl e => inl (crash e)
                     | inr ks => inl (mk_run [] [MetaKeyNotFound key (join ", " ks)] (ExitCode 1))
                     end
                   else inr (js_object [("network", get n "name"); ("chainId", get n "chainId");
                                        (key, addr)]))
  | _ => usage "contract <chain-id-or-name> <key>"
  end.

(** [case "subgraph"] *)
Definition cmd_subgraph (networks : json) (args : list string) : run meta_diag :=
  match head args with
  | Some q =>
      if arg_missing (Some q) then usage "subgraph <chain-id-or-name>"
      else finish (let* n := requireNetwork networks q in
                   let name := to_js_string (get n "name") in
                   inr (js_object [("network", get n "name"); ("chainId", get n "chainId");
                                   ("protocol", VJson (JStr (SUBGRAPH_BASE +:+ name +:+ "/protocol-v1")));
                                   ("subgraphV1", js_or (get n "subgraphV1") (VJson JNull))]))
  | None => usage "subgraph <chain-id-or-name>"
  end.

(** [case "automation"] *)
Definition cmd_automation (networks : json) (args : list string) : run meta_diag :=
  match head args with
  | Some q =>
      if arg_missing (Some q) then usage "automation <chain-id-or-name>"
      else finish (let* n := requireNetwork networks q in
                   let name := to_js_string (get n "name") in
                   let c := get n "contractsV1" in
                   inr (js_object
                          [("network", get n "name"); ("chainId", get n "chainId");
                           ("vestingScheduler", js_or (get_opt c "vestingScheduler") (VJson JNull));
                           ("flowScheduler", js_or (get_opt c "flowScheduler") (VJson JNull));
                           ("autowrap", js_or (get n "autowrap") (VJson JNull));
                           ("subgraphs", VJson (js_object
                              [("vestingScheduler", VJson (JStr (SUBGRAPH_BASE +:+ name +:+ "/vesting-scheduler")));
                               ("flowScheduler", VJson (JStr (SUBGRAPH_BASE +:+ name +:+ "/flow-scheduler")));
                               ("autoWrap", VJson (JStr (SUBGRAPH_BASE +:+ name +:+ "/auto-wrap")))]))]))
  | None => usage "automation <chain-id-or-name>"
  end.

(** The [switch (command)] once [networks] is loaded; the default case
    prints the help and exits with 1 when a command was given (even an
    unknown one) and 0 otherwise. *)
Definition metadata_dispatch (networks : json) (argv : list string) : run meta_diag :=
  match argv with
  | [] => mk_run [] [MetaHelp] (ExitCode 0)
  | command :: args =>
      if String.eqb command "networks" then cmd_networks networks args
      else if String.eqb command "network" then cmd_network networks args
      else if String.eqb command "contracts" then cmd_contracts networks args
      else if String.eqb command "contract" then cmd_contract networks args
      else if String.eqb command "subgraph" then cmd_subgraph networks args
      else if String.eqb command "automation" then cmd_automation networks args
      else mk_run [] [MetaHelp] (ExitCode (if String.eqb command "" then 0 else 1))
  end.

Section Main.
Context `{JsonCodec json}.

(** [loadNetworks()]: [loadJson] with [return data]. *)
Definition loadNetworks (net : fetch_outcome) (fs : fs_state) : load_result json * fs_state :=
  loadJson "metadata" CDN_URL CACHE_FILE (@inr string json) net fs.

(** The script: [const networks = await loadNetworks();] at the top
    level, then the dispatch. *)
Definition metadata_main (argv : list string) (net : fetch_outcome) (fs : fs_state)
  : run meta_diag * fs_state :=
  let '(r, fs') := loadNetworks net fs in
  match r with
  | LoadExit lines => (mk_run [] (map MetaLoad lines) (ExitCode 1), fs')
  | Loaded networks => (metadata_dispatch networks argv, fs')
  end.
End Main.

(** ** Properties of network resolution *)

(** The chain-id predicate and the name predicate of [resolveNetwork]. *)
Definition id_match (x : number) (n : json) : bool := strict_eq_num (get n "chainId") x.

Definition name_match (lower : string) (n : json) : bool :=
  strict_eq_str (get n "name") lower || strict_eq_str (get n "shortName") lower.

Lemma resolveNetwork_by_id nets q :
  Forall nonnull nets -> isNaN (StringToNumber q) = false ->
  resolveNetwork (JArr nets) q = inr (List.find (id_match (StringToNumber q)) nets).
Proof.
  intros Hnn Hn. unfold resolveNetwork. rewrite Hn. simpl.
  apply findM_pure. intros n Hin. rewrite Forall_forall in Hnn.
  by rewrite read_nonnull by (apply Hnn; done).
Qed.

Lemma resolveNetwork_by_name nets q :
  Forall nonnull nets -> isNaN (StringToNumber q) = true ->
  resolveNetwork (JArr nets) q = inr (List.find (name_match (toLowerCase q)) nets).
Proof.
  intros Hnn Hn. unfold resolveNetwork. rewrite Hn. simpl.
  apply findM_pure. intros n Hin. rewrite Forall_forall in Hnn.
  rewrite !read_nonnull by (apply Hnn; done). simpl.
  unfold name_match. by destruct (strict_eq_str (get n "name") (toLowerCase q)).
Qed.

(** C8: Spec 8.7, resolution by id and by name.  A network that is the
    first of the list with its chain id and the first with its name (or
    short name) is what both a query parsing to that id and a query equal
    to that name up to case resolve to. *)
Theorem resolveNetwork_id_and_name pre n post qid qname :
  Forall nonnull (pre ++ n :: post) ->
  isNaN (StringToNumber qid) = false -> id_match (StringToNumber qid) n = true ->
  Forall (fun m => id_match (StringToNumber qid) m = false) pre ->
  isNaN (StringToNumber qname) = true -> name_match (toLowerCase qname) n = true ->
  Forall (fun m => name_match (toLowerCase qname) m = false) pre ->
  resolveNetwork (JArr (pre ++ n :: post)) qid = inr (Some n) /\
  resolveNetwork (JArr (pre ++ n :: post)) qname = inr (Some n).
Proof.
  intros Hnn Hid Hn Hpre Hname Hn' Hpre'. split.
  - rewrite resolveNetwork_by_id by done. f_equal. by apply find_first.
  - rewrite resolveNetwork_by_name by done. f_equal. by apply find_first.
Qed.

(** C29: The id path reads only the number: two queries with the same
    non-NaN [Number(...)] resolve alike, so ["0xa"], ["1e1"], [" 10 "] and
    ["10.0"] all select chain 10, and a query such as ["1.5"] never falls
    back to the name lookup. *)
Theorem resolveNetwork_numeric_value networks q1 q2 :
  StringToNumber q1 = StringToNumber q2 -> isNaN (StringToNumber q1) = false ->
  resolveNetwork networks q1 = resolveNetwork networks q2.
Proof. intros Heq Hn. unfold resolveNetwork. rewrite <- Heq, Hn. reflexivity. Qed.

(** C30: A match by name compares the stored [name] or [shortName] with
    the lower-cased query, so the matched string is in lower case: a
    network stored with an upper-case letter in both names is found by no
    name query at all. *)
Theorem resolveNetwork_name_lowercase nets q n :
  Forall nonnull nets -> isNaN (StringToNumber q) = true ->
  resolveNetwork (JArr nets) q = inr (Some n) ->
  exists s, (get n "name" = VJson (JStr s) \/ get n "shortName" = VJson (JStr s)) /\
            toLowerCase s = s.
Proof.
  intros Hnn Hn Hr. rewrite resolveNetwork_by_name in Hr by done.
  injection Hr as Hr. apply find_some in Hr as [_ Hm]. unfold name_match in Hm.
  apply orb_true_iff in Hm as [Hm|Hm];
    [destruct (get n "name") as [|[]|] eqn:E | destruct (get n "shortName") as [|[]|] eqn:E];
    try discriminate; simpl in Hm; apply String.eqb_eq in Hm; subst;
    exists (toLowerCase q); (split; [by (left + right)| apply toLowerCase_idem]).
Qed.

(** The "Available" entries of a list without [null]. *)
Definition available_entry (n : json) : string :=
  to_js_string (get n "name") +:+ " (" +:+ to_js_string (get n "chainId") +:+ ")".

Lemma available_nonnull nets :
  Forall nonnull nets -> available (JArr nets) = inr (join ", " (map available_entry nets)).
Proof.
  intros Hnn. unfold available. simpl.
  rewrite (mapM_pure _ available_entry); [reflexivity|].
  intros n Hin. rewrite Forall_forall in Hnn.
  rewrite !read_nonnull by (apply Hnn; done). reflexivity.
Qed.

(** C31: A query that matches no network ends the run with the two
    diagnostic lines, the query and every network as [name (chainId)],
    and exit code 1. *)
Theorem requireNetwork_not_found nets q :
  Forall nonnull nets -> resolveNetwork (JArr nets) q = inr None ->
  requireNetwork (JArr nets) q =
    inl (mk_run [] [MetaNotFound q; MetaAvailable (join ", " (map available_entry nets))] (ExitCode 1)).
Proof. intros Hnn Hr. unfold requireNetwork. by rewrite Hr, available_nonnull. Qed.

(** ** Properties of the commands *)

(** C32: [contract <network> <key>] with an address found: the output is
    the network name, the chain id and the address under the key, exit 0. *)
Theorem cmd_contract_found networks q key rest n :
  q <> "" -> key <> "" -> requireNetwork networks q = inr n ->
  truthy (contract_addr n key) = true ->
  cmd_contract networks (q :: key :: rest) =
    print (js_object [("network", get n "name"); ("chainId", get n "chainId"); (key, contract_addr n key)]).
Proof.
  intros Hq Hk Hn Ha. unfold cmd_contract, arg_missing.
  rewrite (proj2 (String.eqb_neq q "") Hq), (proj2 (String.eqb_neq key "") Hk).
  cbn -[contract_addr requireNetwork js_object]. by rewrite Hn; cbn -[contract_addr js_object]; rewrite Ha.
Qed.

(** C33: [contract <network> <key>] with no address under the key (and,
    for [nativeTokenWrapper], none in the network either): the key and the
    keys of [contractsV1] are printed on stderr, exit 1. *)
Theorem cmd_contract_missing networks q key rest n props :
  q <> "" -> key <> "" -> requireNetwork networks q = inr n ->
  truthy (contract_addr n key) = false -> get n "contractsV1" = VJson (JObj props) ->
  cmd_contract networks (q :: key :: rest) =
    mk_run [] [MetaKeyNotFound key (join ", " (map fst props))] (ExitCode 1).
Proof.
  intros Hq Hk Hn Ha Hc. unfold cmd_contract, arg_missing.
  rewrite (proj2 (String.eqb_neq q "") Hq), (proj2 (String.eqb_neq key "") Hk).
  cbn -[contract_addr requireNetwork]. rewrite Hn; cbn -[contract_addr]. rewrite Ha. simpl.
  rewrite Hc. simpl. by rewrite map_map.
Qed.

(** C34: A key that names a member of [Object.prototype] (other than
    [__proto__]) and is no contract of the network reads the inherited
    function, which is truthy: the command reports success with exit code
    0 and an output object that lacks the key, since [JSON.stringify]
    drops functions. *)
Theorem cmd_contract_prototype_key networks q key rest n props :
  q <> "" -> requireNetwork networks q = inr n ->
  get n "contractsV1" = VJson (JObj props) -> assoc key props = None ->
  key ∈ object_prototype_members -> key <> "__proto__" ->
  cmd_contract networks (q :: key :: rest) =
    print (js_object [("network", get n "name"); ("chainId", get n "chainId")]).
Proof.
  intros Hq Hn Hc Hnone Hm Hp.
  assert (Ha : contract_addr n key = VBuiltin key).
  { unfold contract_addr. rewrite Hc. simpl. unfold obj_get. rewrite Hnone.
    rewrite decide_True by done. reflexivity. }
  assert (Hk : key <> "") by (intros ->; repeat (apply elem_of_cons in Hm as [Hm|Hm]; [discriminate|]);
                               by apply elem_of_nil in Hm).
  unfold cmd_contract, arg_missing.
  rewrite (proj2 (String.eqb_neq q "") Hq), (proj2 (String.eqb_neq key "") Hk).
  cbn -[contract_addr requireNetwork js_object]. rewrite Hn; cbn -[contract_addr js_object].
  rewrite Ha. simpl. f_equal.
  repeat (apply elem_of_cons in Hm as [->|Hm]; [try done; vm_compute; reflexivity|]).
  by apply elem_of_nil in Hm.
Qed.

(** [summary(n)] on an element that is not [null]. *)
Definition summary_of (n : json) : json :=
  js_object [("name", get n "name"); ("chainId", get n "chainId");
             ("humanReadableName", get n "humanReadableName"); ("isTestnet", get n "isTestnet");
             ("nativeTokenSymbol", get n "nativeTokenSymbol")].

Lemma summary_nonnull n : nonnull n -> summary n = inr (summary_of n).
Proof. intros Hn. unfold summary. rewrite !read_nonnull by done. reflexivity. Qed.

Lemma summaries_nonnull l :
  Forall nonnull l -> mapM summary l = inr (map summary_of l).
Proof.
  intros Hl. apply mapM_pure. intros n Hin. rewrite Forall_forall in Hl.
  by apply summary_nonnull, Hl.
Qed.

Lemma testnet_filter_pure (f : bool -> bool) nets :
  Forall nonnull nets ->
  filterM (fun n => let* t := read n "isTestnet" in inr (f (truthy t))) nets
  = inr (List.filter (fun n => f (truthy (get n "isTestnet"))) nets).
Proof.
  intros Hnn. apply filterM_pure. intros n Hin. rewrite Forall_forall in Hnn.
  by rewrite read_nonnull by (apply Hnn; done).
Qed.

(** C35: [networks --mainnets] and [networks --testnets] split the list:
    both print an array of summaries, and the two arrays together have as
    many entries as the list. *)
Theorem cmd_networks_partition nets rest1 rest2 :
  Forall nonnull nets ->
  exists ms ts,
    cmd_networks (JArr nets) ("--mainnets" :: rest1) = print (JArr ms) /\
    cmd_networks (JArr nets) ("--testnets" :: rest2) = print (JArr ts) /\
    length ms + length ts = length nets.
Proof.
  intros Hnn.
  exists (map summary_of (List.filter (fun n => negb (truthy (get n "isTestnet"))) nets)),
         (map summary_of (List.filter (fun n => truthy (get n "isTestnet")) nets)).
  unfold cmd_networks. simpl.
  rewrite (testnet_filter_pure negb), (testnet_filter_pure id) by done. simpl.
  rewrite !summaries_nonnull
    by (apply Forall_forall; intros n [Hin _]%filter_In; by eapply Forall_forall in Hnn).
  split; [reflexivity|]. split; [reflexivity|].
  rewrite !length_map. rewrite Nat.add_comm.
  apply (filter_partition_length (fun n => truthy (get n "isTestnet"))).
Qed.

Section MainFacts.
Context `{JsonCodec json}.

(** C36: Every command, the help included, runs after [loadNetworks]: with
    the network down and no usable cache, even [node metadata.mjs] or
    [help] prints the fetch diagnostics and exits with 1 instead of
    printing the usage with exit 0. *)
Theorem metadata_main_needs_data argv net fs e :
  fetch_json net = inl e -> cache_usable CACHE_FILE (@inr string json) fs = false ->
  metadata_main argv net fs =
    (mk_run [] [MetaLoad (DiagNoCache "metadata"); MetaLoad (DiagCdnUrl CDN_URL);
                MetaLoad (DiagFetchError e)] (ExitCode 1), fs).
Proof.
  intros Hn Hc. unfold metadata_main, loadNetworks, loadJson. rewrite Hn.
  by rewrite load_fallback_exit.
Qed.

(** metadata.mjs changes no cache file but [networks.json]. *)
Theorem metadata_main_frame argv net fs f :
  f <> CACHE_FILE -> fs_files (snd (metadata_main argv net fs)) !! f = fs_files fs !! f.
Proof.
  intros Hf. pose proof (loadJson_frame "metadata" CDN_URL CACHE_FILE (@inr string json) net fs f Hf) as Hfr.
  unfold metadata_main, loadNetworks. destruct (loadJson _ _ _ _ net fs) as [[] fs'].
  all: exact Hfr.
Qed.
(** With the CDN reachable, the commands run on the freshly fetched
    list, and the list is written to [networks.json] on the way. *)
Theorem metadata_main_online argv net fs d :
  fetch_json net = inr d ->
  metadata_main argv net fs =
    (metadata_dispatch d argv, write_best_effort fs CACHE_FILE (json_stringify d)).
Proof. intros Hn. unfold metadata_main, loadNetworks, loadJson. by rewrite Hn. Qed.
End MainFacts.

(** ** Concrete runs *)

Module MetadataExamples.
Definition op : json :=
  JObj [("name", JStr "optimism-mainnet"); ("isTestnet", JBool false);
        ("chainId", JNum (of_Z 10)); ("shortName", JStr "opt");
        ("humanReadableName", JStr "Optimism"); ("nativeTokenSymbol", JStr "ETH");
        ("nativeTokenWrapper", JStr "0x4ac8f8e06b4a12c3d7a6c4b9d0f0e1b2a3c4d5e6");
        ("contractsV1", JObj [("host", JStr "0x567c4b141ed61923967ca25ef4906c8781069a10");
                              ("cfaV1", JStr "0x204c6f131bb7f258b2ea1593f5309911d8e458ed")])].

Definition sep : json :=
  JObj [("name", JStr "eth-sepolia"); ("isTestnet", JBool true);
        ("chainId", JNum (of_Z 11155111)); ("shortName", JStr "sepolia");
        ("humanReadableName", JStr "Sepolia"); ("nativeTokenSymbol", JStr "ETH");
        ("contractsV1", JObj [("host", JStr "0x109412e3c84f0539b43d39db691b08c90f58dc7c")])].

Definition nets : list json := [op; sep].

Lemma nets_nonnull : Forall nonnull nets.
Proof. repeat constructor; discriminate. Qed.

(** A codec that knows one document, the list above. *)
#[export] Instance doc_codec : JsonCodec json :=
  {| json_parse := fun s => if String.eqb s "NETWORKS" then inr (JArr nets)
                            else inl "SyntaxError: Unexpected token";
     json_stringify := fun _ => "NETWORKS" |}.

Definition offline := FetchRejected "getaddrinfo ENOTFOUND cdn.jsdelivr.net".
Definition empty_rw := mk_fs ∅ true.
Definition abi_cached := mk_fs {[ "abi-core.mjs" := "export default 1" ]} true.
End MetadataExamples.

Import MetadataExamples.

Lemma resolveNetwork_id_and_name_witness :
  resolveNetwork (JArr nets) "10" = inr (Some op) /\
  resolveNetwork (JArr nets) "OPT" = inr (Some op).
Proof.
  apply (resolveNetwork_id_and_name [] op [sep]);
    first [exact nets_nonnull | constructor | run_eval].
Defined.

Lemma resolveNetwork_numeric_value_witness :
  resolveNetwork (JArr nets) "0xa" = resolveNetwork (JArr nets) "10".
Proof. apply resolveNetwork_numeric_value; run_eval. Defined.

Lemma resolveNetwork_name_lowercase_witness :
  exists s, (get sep "name" = VJson (JStr s) \/ get sep "shortName" = VJson (JStr s)) /\
            toLowerCase s = s.
Proof. apply (resolveNetwork_name_lowercase nets "Eth-Sepolia"); [exact nets_nonnull | run_eval..]. Defined.

Lemma requireNetwork_not_found_witness :
  requireNetwork (JArr nets) "137" =
    inl (mk_run [] [MetaNotFound "137"; MetaAvailable (join ", " (map available_entry nets))] (ExitCode 1)).
Proof. apply requireNetwork_not_found; [exact nets_nonnull | run_eval]. Defined.

Lemma cmd_contract_found_witness :
  cmd_contract (JArr nets) ["opt"; "host"] =
    print (js_object [("network", get op "name"); ("chainId", get op "chainId");
                      ("host", contract_addr op "host")]).
Proof. apply cmd_contract_found; [discriminate | discriminate | run_eval..]. Defined.

Lemma cmd_contract_missing_witness :
  cmd_contract (JArr nets) ["11155111"; "gda"] =
    mk_run [] [MetaKeyNotFound "gda" (join ", " (map fst
      [("host", JStr "0x109412e3c84f0539b43d39db691b08c90f58dc7c")]))] (ExitCode 1).
Proof. apply (cmd_contract_missing _ _ _ _ sep); [discriminate | discriminate | run_eval..]. Defined.

Lemma cmd_contract_prototype_key_witness :
  cmd_contract (JArr nets) ["opt"; "constructor"] =
    print (js_object [("network", get op "name"); ("chainId", get op "chainId")]).
Proof.
  apply (cmd_contract_prototype_key _ _ _ _ op
           [("host", JStr "0x567c4b141ed61923967ca25ef4906c8781069a10");
            ("cfaV1", JStr "0x204c6f131bb7f258b2ea1593f5309911d8e458ed")]);
    [discriminate | run_eval | run_eval | run_eval | by left | discriminate].
Defined.

Lemma cmd_networks_partition_witness :
  exists ms ts,
    cmd_networks (JArr nets) ["--mainnets"] = print (JArr ms) /\
    cmd_networks (JArr nets) ["--testnets"] = print (JArr ts) /\
    length ms + length ts = length nets.
Proof. apply cmd_networks_partition, nets_nonnull. Defined.

Lemma metadata_main_needs_data_witness :
  metadata_main ["help"] offline empty_rw =
    (mk_run [] [MetaLoad (DiagNoCache "metadata"); MetaLoad (DiagCdnUrl CDN_URL);
                MetaLoad (DiagFetchError (ErrNetwork "getaddrinfo ENOTFOUND cdn.jsdelivr.net"))]
            (ExitCode 1), empty_rw).
Proof. apply metadata_main_needs_data; run_eval. Defined.

Lemma metadata_main_online_witness :
  metadata_main ["network"; "opt"] (FetchOk (mk_response 200 "NETWORKS")) empty_rw =
    (metadata_dispatch (JArr nets) ["network"; "opt"],
     write_best_effort empty_rw CACHE_FILE (json_stringify (JArr nets))).
Proof. apply metadata_main_online. run_eval. Defined.

Lemma metadata_main_frame_witness :
  fs_files (snd (metadata_main ["network"; "10"] (FetchOk (mk_response 200 "NETWORKS")) abi_cached))
    !! "abi-core.mjs" = fs_files abi_cached !! "abi-core.mjs".
Proof. apply metadata_main_frame. discriminate. Defined.
