(* ===== verification/Tokenlist.v ===== *)
(** * tokenlist.mjs: the token list resolver

    [src/skills/superfluid/scripts/tokenlist.mjs].  The token list is
    loaded once, at the top level, by [loadTokens] (the [loadJson] routine
    of Fetch.v with the projection [data.tokens]); then one of five
    commands filters it: [by-address], [by-chain], [by-symbol],
    [super-token] (a Super Token and its underlying token, with the
    placeholder of spec 8.8) and [stats].  The module [TokenlistMjs] holds
    the script; the theorems follow it.

    [tokens] is whatever [data.tokens] was: an array of records in the
    data, but any value (even [undefined]) to the script, whose array
    methods then throw.  Records are read with [read] (a [null] record
    throws), string fields are lowered with [lower_of] (a non-string
    throws), tags are tested with [includes_opt]. *)

From S2P Require Import Prelude JsNumber JsValue JsSort Fetch.

Local Open Scope string_scope.

Module TokenlistMjs.

Definition CDN_URL : string :=
  "https://cdn.jsdelivr.net/npm/@superfluid-finance/tokenlist/dist/superfluid.extended.tokenlist.json".

(** [CACHE_FILE], as a name inside the cache directory. *)
Definition CACHE_FILE : string := "tokenlist.json".

(** One [console.error] line of tokenlist.mjs. *)
Inductive tl_diag :=
  | TlLoad (d : load_diag)                        (* the lines of loadTokens' fallback *)
  | TlUsage (usage : string)                      (* Usage: tokenlist.mjs <usage> *)
  | TlNoAddress (arg : string)                    (* No token found with address <arg> *)
  | TlChainNaN                                    (* Error: chain-id must be a number *)
  | TlNoChainTokens (chain : string) (filter : option string)
                                                  (* No tokens found on chain <c>[ with filter <f>] *)
  | TlNoSymbol (arg : string)                     (* No token found with symbol "<arg>" *)
  | TlNoSuperToken (chain arg : string)           (* No Super Token found on chain <c> matching "<arg>" *)
  | TlHelp.                                       (* the usage text of the default case *)

Local Open Scope js_scope.

(** [data.tokens]: a read on [null] data throws. *)
Definition tokens_of (data : json) : except string jsval := read data "tokens".

(** [tokens.<meth>] called as an array method. *)
Definition tokens_array (tokens : jsval) (meth : string) : except string (list json) :=
  match tokens with
  | VJson (JArr l) => inr l
  | VUndef => inl ("TypeError: Cannot read properties of undefined (reading '" +:+ meth +:+ "')")
  | VJson JNull => inl ("TypeError: Cannot read properties of null (reading '" +:+ meth +:+ "')")
  | _ => inl ("TypeError: tokens." +:+ meth +:+ " is not a function")
  end.

(** [isSuperToken(t)], [isUnderlying(t)]: [t.tags?.includes(...)]. *)
Definition isSuperToken (t : json) : except string bool :=
  let* tags := read t "tags" in includes_opt "t.tags" tags "supertoken".

Definition isUnderlying (t : json) : except string bool :=
  let* tags := read t "tags" in includes_opt "t.tags" tags "underlying".

(** [t.address.toLowerCase()], [t.symbol.toLowerCase()] *)
Definition address_lower (t : json) : except string string :=
  let* a := read t "address" in lower_of "t.address" a.

Definition symbol_lower (t : json) : except string string :=
  let* s := read t "symbol" in lower_of "t.symbol" s.

(** [t.chainId === chainId] *)
Definition on_chain (chainId : number) (t : json) : except string bool :=
  let* c := read t "chainId" in inr (strict_eq_num c chainId).

(** [tokenSummary(t)]: the six fields, then [superTokenInfo] appended when
    [t.extensions?.superTokenInfo] is truthy. *)
Definition tokenSummary (t : json) : except string json :=
  let* chainId := read t "chainId" in
  let* address := read t "address" in
  let* name := read t "name" in
  let* symbol := read t "symbol" in
  let* decimals := read t "decimals" in
  let* tags := read t "tags" in
  let r := [("chainId", chainId); ("address", address); ("name", name); ("symbol", symbol);
            ("decimals", decimals); ("tags", js_or tags (VJson (JArr [])))] in
  let* ext := read t "extensions" in
  let sti := get_opt ext "superTokenInfo" in
  inr (js_object (if truthy sti then r ++ [("superTokenInfo", sti)] else r)).

(** [if (!args[i])] *)
Definition arg_missing (a : option string) : bool :=
  match a with None => true | Some s => String.eqb s "" end.

Definition usage (u : string) : run tl_diag := mk_run [] [TlUsage u] (ExitCode 1).

Definition fail (d : tl_diag) {A} : except (run tl_diag) A := inl (mk_run [] [d] (ExitCode 1)).

(** [out(matches.map(tokenSummary))] after the emptiness check. *)
Definition out_matches (matches : list json) (none : tl_diag) : except (run tl_diag) json :=
  match matches with
  | [] => fail none
  | _ => let* s := lift (mapM tokenSummary matches) in inr (JArr s)
  end.

(** [case "by-address"] *)
Definition cmd_by_address (tokens : jsval) (args : list string) : run tl_diag :=
  match head args with
  | Some a =>
      if arg_missing (Some a) then usage "by-address <address>"
      else let addr := toLowerCase a in
           finish (let* l := lift (tokens_array tokens "filter") in
                   let* matches := lift (filterM (fun t => let* x := address_lower t in
                                                           inr (String.eqb x addr)) l) in
                   out_matches matches (TlNoAddress a))
  | None => usage "by-address <address>"
  end.

(** [case "by-chain"] *)
Definition cmd_by_chain (tokens : jsval) (args : list string) : run tl_diag :=
  match head args with
  | Some a =>
      if arg_missing (Some a) then usage "by-chain <chain-id> [--super|--underlying]"
      else
        let chainId := StringToNumber a in
        if isNaN chainId then mk_run [] [TlChainNaN] (ExitCode 1)
        else
          let flag := nth_error args 1 in
          finish (let* l := lift (tokens_array tokens "filter") in
                  let* m0 := lift (filterM (on_chain chainId) l) in
                  let* matches :=
                    lift (if decide (flag = Some "--super") then filterM isSuperToken m0
                          else if decide (flag = Some "--underlying") then filterM isUnderlying m0
                          else inr m0) in
                  out_matches matches
                    (TlNoChainTokens (num_to_string chainId)
                                     (if arg_missing flag then None else flag)))
  | None => usage "by-chain <chain-id> [--super|--underlying]"
  end.

(** [case "by-symbol"]: [args.indexOf("--chain-id")] searches the whole
    argument list, the symbol included. *)
Definition cmd_by_symbol (tokens : jsval) (args : list string) : run tl_diag :=
  match head args with
  | Some a =>
      if arg_missing (Some a) then usage "by-symbol <symbol> [--chain-id <id>]"
      else
        let sym := toLowerCase a in
        finish (let* l := lift (tokens_array tokens "filter") in
                let* m0 := lift (filterM (fun t => let* x := symbol_lower t in
                                                   inr (String.eqb x sym)) l) in
                let* matches :=
                  match index_of "--chain-id" args with
                  | Some ci =>
                      let v := nth_error args (S ci) in
                      if arg_missing v then inr m0
                      else lift (filterM (on_chain (StringToNumber (default "" v))) m0)
                  | None => inr m0
                  end in
                out_matches matches (TlNoSymbol a))
  | None => usage "by-symbol <symbol> [--chain-id <id>]"
  end.

(** [isSuperToken(t) && (t.symbol.toLowerCase() === query ||
    t.address.toLowerCase() === query)], both operators short-circuiting. *)
Definition super_match (query : string) (t : json) : except string bool :=
  let* s := isSuperToken t in
  if negb s then inr false
  else let* sym := symbol_lower t in
       if String.eqb sym query then inr true
       else let* a := address_lower t in inr (String.eqb a query).

(** [st.extensions?.superTokenInfo?.underlyingTokenAddress] *)
Definition underlying_of (st : json) : jsval :=
  get_opt (get_opt (get st "extensions") "superTokenInfo") "underlyingTokenAddress".

(** [{ address: ua, note: "Not in token list" }] *)
Definition placeholder (ua : jsval) : json :=
  js_object [("address", ua); ("note", VJson (JStr "Not in token list"))].

(** [result.underlying]: [null] unless [ua] is truthy; then the summary
    of the first token of the chain with that address, or the
    placeholder. *)
Definition underlying_result (chainTokens : list json) (ua : jsval) : except string json :=
  if negb (truthy ua) then inr JNull
  else let* u := findM (fun t => let* a := address_lower t in
                                 let* b := lower_of "ua" ua in inr (String.eqb a b)) chainTokens in
       match u with
       | Some u => if json_truthy u then tokenSummary u else inr (placeholder ua)
       | None => inr (placeholder ua)
       end.

(** [case "super-token"] *)
Definition cmd_super_token (tokens : jsval) (args : list string) : run tl_diag :=
  match args with
  | a0 :: a1 :: _ =>
      if arg_missing (Some a0) || arg_missing (Some a1) then usage "super-token <chain-id> <symbol-or-address>"
      else
        let chainId := StringToNumber a0 in
        let query := toLowerCase a1 in
        if isNaN chainId then mk_run [] [TlChainNaN] (ExitCode 1)
        else
          finish (let* l := lift (tokens_array tokens "filter") in
                  let* chainTokens := lift (filterM (on_chain chainId) l) in
                  let* st := lift (findM (super_match query) chainTokens) in
                  let not_found := TlNoSuperToken (num_to_string chainId) a1 in
                  match st with
                  | Some st =>
                      if negb (json_truthy st) then fail not_found
                      else let* sts := lift (tokenSummary st) in
                           let* und := lift (underlying_result chainTokens (underlying_of st)) in
                           inr (js_object [("superToken", VJson sts); ("underlying", VJson und)])
                  | None => fail not_found
                  end)
  | _ => usage "super-token <chain-id> <symbol-or-address>"
  end.

(** [tokens.filter(p).length] *)
Definition count (p : json -> except string bool) (l : list json) : except string nat :=
  let* r := filterM p l in inr (length r).

(** [(a, b) => a - b] read as "[a] before [b]". *)
Definition chain_lt (a b : nat * jsval) : bool := num_ltb (num_sub (to_number a.2) (to_number b.2)) pos_zero.

Definition is_undefined (a : nat * jsval) : bool := match a.2 with VUndef => true | _ => false end.

(** [chains]: the distinct chain ids, sorted by [(a, b) => a - b]. *)
Definition chains_of (ids : list jsval) : list (nat * jsval) :=
  js_sort is_undefined chain_lt (new_set (imap pair ids)).

(** One entry of [chains.map(id => ...)]. *)
Definition chain_entry (l : list json) (id : nat * jsval) : except string json :=
  let* ct := filterM (fun it => let* c := read it.2 "chainId" in inr (id_eq false (it.1, c) id))
                     (imap pair l) in
  let ct := map snd ct in
  let* s := count isSuperToken ct in
  let* u := count isUnderlying ct in
  inr (js_object [("chainId", id.2); ("total", VJson (JNum (of_nat (length ct))));
                  ("superTokens", VJson (JNum (of_nat s))); ("underlying", VJson (JNum (of_nat u)))]).

(** [case "stats"] *)
Definition cmd_stats (tokens : jsval) : run tl_diag :=
  finish (lift (let* l := tokens_array tokens "map" in
                let* ids := mapM (fun t => read t "chainId") l in
                let chains := chains_of ids in
                let* st := count isSuperToken l in
                let* ut := count isUnderlying l in
                let* entries := mapM (chain_entry l) chains in
                inr (js_object [("totalTokens", VJson (JNum (of_nat (length l))));
                                ("superTokens", VJson (JNum (of_nat st)));
                                ("underlyingTokens", VJson (JNum (of_nat ut)));
                                ("chains", VJson (JArr entries))]))).

(** The [switch (command)] once [tokens] is loaded. *)
Definition tokenlist_dispatch (tokens : jsval) (argv : list string) : run tl_diag :=
  match argv with
  | [] => mk_run [] [TlHelp] (ExitCode 0)
  | command :: args =>
      if String.eqb command "by-address" then cmd_by_address tokens args
      else if String.eqb command "by-chain" then cmd_by_chain tokens args
      else if String.eqb command "by-symbol" then cmd_by_symbol tokens args
      else if String.eqb command "super-token" then cmd_super_token tokens args
      else if String.eqb command "stats" then cmd_stats tokens
      else mk_run [] [TlHelp] (ExitCode (if String.eqb command "" then 0 else 1))
  end.

Section Main.
Context `{JsonCodec json}.

(** [loadTokens()]: [loadJson] with [return data.tokens]. *)
Definition loadTokens (net : fetch_outcome) (fs : fs_state) : load_result jsval * fs_state :=
  loadJson "token list" CDN_URL CACHE_FILE tokens_of net fs.

(** The script: [const tokens = await loadTokens();] at the top level,
    then the dispatch. *)
Definition tokenlist_main (argv : list string) (net : fetch_outcome) (fs : fs_state)
  : run tl_diag * fs_state :=
  let '(r, fs') := loadTokens net fs in
  match r with
  | LoadExit lines => (mk_run [] (map TlLoad lines) (ExitCode 1), fs')
  | Loaded tokens => (tokenlist_dispatch tokens argv, fs')
  end.
End Main.
End TokenlistMjs.

Import TokenlistMjs.

(** ** Token records as the list has them *)

(** A record of the token list: an object whose [address] and [symbol]
    are strings and whose [tags] are absent or an array.  On such records
    no read, [toLowerCase] or [includes] of the script throws. *)
Definition token_wf (t : json) : bool :=
  match t with
  | JObj _ =>
      match get t "address", get t "symbol", get t "tags" with
      | VJson (JStr _), VJson (JStr _), (VUndef | VJson JNull | VJson (JArr _)) => true
      | _, _, _ => false
      end
  | _ => false
  end.

Definition str_field (t : json) (k : string) : string :=
  match get t k with VJson (JStr s) => s | _ => "" end.

Definition addr_l (t : json) : string := toLowerCase (str_field t "address").
Definition sym_l (t : json) : string := toLowerCase (str_field t "symbol").

Definition has_tag (tag : string) (t : json) : bool :=
  match get t "tags" with
  | VJson (JArr l) => existsb (fun e => match e with JStr s => String.eqb s tag | _ => false end) l
  | _ => false
  end.

Definition chain_is (c : number) (t : json) : bool := strict_eq_num (get t "chainId") c.

(** [tokenSummary(t)] of a record. *)
Definition summary_of (t : json) : json :=
  let r := [("chainId", get t "chainId"); ("address", get t "address"); ("name", get t "name");
            ("symbol", get t "symbol"); ("decimals", get t "decimals");
            ("tags", js_or (get t "tags") (VJson (JArr [])))] in
  let sti := get_opt (get t "extensions") "superTokenInfo" in
  js_object (if truthy sti then r ++ [("superTokenInfo", sti)] else r).

Section Records.
Variable t : json.
Hypothesis Hwf : token_wf t = true.

Lemma token_wf_nonnull : nonnull t.
Proof. by destruct t. Qed.

Lemma tokenSummary_wf : tokenSummary t = inr (summary_of t).
Proof. unfold tokenSummary. rewrite !read_nonnull by apply token_wf_nonnull. reflexivity. Qed.

Lemma isSuperToken_wf : isSuperToken t = inr (has_tag "supertoken" t).
Proof.
  unfold isSuperToken, has_tag. rewrite read_nonnull by apply token_wf_nonnull. simpl.
  destruct t; try done. simpl in Hwf |- *.
  by destruct (obj_get VJson props "address") as [|[]|], (obj_get VJson props "symbol") as [|[]|],
    (obj_get VJson props "tags") as [|[]|].
Qed.

Lemma isUnderlying_wf : isUnderlying t = inr (has_tag "underlying" t).
Proof.
  unfold isUnderlying, has_tag. rewrite read_nonnull by apply token_wf_nonnull. simpl.
  destruct t; try done. simpl in Hwf |- *.
  by destruct (obj_get VJson props "address") as [|[]|], (obj_get VJson props "symbol") as [|[]|],
    (obj_get VJson props "tags") as [|[]|].
Qed.

Lemma address_lower_wf : address_lower t = inr (addr_l t).
Proof.
  unfold address_lower, addr_l, str_field. rewrite read_nonnull by apply token_wf_nonnull. simpl.
  destruct t; try done. simpl in Hwf |- *. by destruct (obj_get VJson props "address") as [|[]|].
Qed.

Lemma symbol_lower_wf : symbol_lower t = inr (sym_l t).
Proof.
  unfold symbol_lower, sym_l, str_field. rewrite read_nonnull by apply token_wf_nonnull. simpl.
  destruct t; try done. simpl in Hwf |- *.
  by destruct (obj_get VJson props "address") as [|[]|], (obj_get VJson props "symbol") as [|[]|].
Qed.

Lemma on_chain_wf c : on_chain c t = inr (chain_is c t).
Proof. unfold on_chain. by rewrite read_nonnull by apply token_wf_nonnull. Qed.

Lemma super_match_wf q :
  super_match q t = inr (has_tag "supertoken" t && (String.eqb (sym_l t) q || String.eqb (addr_l t) q)).
Proof.
  unfold super_match. rewrite isSuperToken_wf. simpl.
  destruct (has_tag "supertoken" t); [|done]. simpl. rewrite symbol_lower_wf. simpl.
  destruct (String.eqb (sym_l t) q); [done|]. by rewrite address_lower_wf.
Qed.
End Records.

#[export] Hint Resolve token_wf_nonnull : sf.

(** Facts on a list of records, for the callbacks of [filter], [find] and [map]. *)
Lemma Forall_wf_in l x : Forall (fun t => token_wf t = true) l -> In x l -> token_wf x = true.
Proof. intros H Hx. rewrite Forall_forall in H. by apply H. Qed.

Lemma Forall_wf_filter p l :
  Forall (fun t => token_wf t = true) l -> Forall (fun t => token_wf t = true) (List.filter p l).
Proof.
  intros H. apply Forall_forall. intros x [Hx _]%filter_In. by apply (Forall_wf_in l).
Qed.

Lemma summaries_wf l : Forall (fun t => token_wf t = true) l -> mapM tokenSummary l = inr (map summary_of l).
Proof. intros H. apply mapM_pure. intros x Hx. apply tokenSummary_wf. by apply (Forall_wf_in l). Qed.

Lemma out_matches_wf ms d :
  Forall (fun t => token_wf t = true) ms ->
  out_matches ms d = match ms with [] => fail d | _ => inr (JArr (map summary_of ms)) end.
Proof. intros H. destruct ms; [done|]. unfold out_matches. by rewrite summaries_wf. Qed.

(** ** Properties of the queries *)

(** C37: [by-address <a>] prints, in list order and across all chains,
    the summaries of the records whose address equals [a] up to case,
    and exits 1 with "No token found" when there is none. *)
Theorem cmd_by_address_spec l a rest :
  a <> "" -> Forall (fun t => token_wf t = true) l ->
  cmd_by_address (VJson (JArr l)) (a :: rest) =
    match List.filter (fun t => String.eqb (addr_l t) (toLowerCase a)) l with
    | [] => mk_run [] [TlNoAddress a] (ExitCode 1)
    | ms => print (JArr (map summary_of ms))
    end.
Proof.
  intros Ha Hl. unfold cmd_by_address, arg_missing. simpl.
  rewrite (proj2 (String.eqb_neq a "") Ha). simpl.
  rewrite (filterM_pure _ (fun t => String.eqb (addr_l t) (toLowerCase a)))
    by (intros t Ht; by rewrite address_lower_wf by (by apply (Forall_wf_in l))).
  simpl. rewrite out_matches_wf by by apply Forall_wf_filter.
  by destruct (List.filter _ l).
Qed.

(** The query of [super-token]: the first Super Token of the chain whose
    symbol or address equals the lowered query. *)
Definition super_query (c : number) (q : string) (l : list json) : option json :=
  List.find (fun t => has_tag "supertoken" t && (String.eqb (sym_l t) q || String.eqb (addr_l t) q))
            (List.filter (chain_is c) l).

(** [result.underlying] for an underlying address that is a string or
    absent. *)
Definition underlying_spec (ct : list json) (ua : jsval) : json :=
  match ua with
  | VJson (JStr u) =>
      if String.eqb u "" then JNull
      else match List.find (fun t => String.eqb (addr_l t) (toLowerCase u)) ct with
           | Some t => summary_of t
           | None => placeholder ua
           end
  | _ => JNull
  end.

(** An underlying address the script can lower: a string, or a value
    that is not truthy. *)
Definition ua_ok (ua : jsval) : bool :=
  match ua with VJson (JStr _) => true | _ => negb (truthy ua) end.

Lemma underlying_result_wf ct ua :
  Forall (fun t => token_wf t = true) ct -> ua_ok ua = true ->
  underlying_result ct ua = inr (underlying_spec ct ua).
Proof.
  intros Hct Hua. unfold underlying_result, underlying_spec.
  destruct ua as [|[|b|n|u|items|props]|name]; simpl in Hua |- *; try discriminate; try done.
  all: try (by rewrite Hua).
  destruct (String.eqb u "") eqn:Hu; simpl; [done|].
  rewrite (findM_pure _ (fun t => String.eqb (addr_l t) (toLowerCase u)))
    by (intros t Ht; by rewrite address_lower_wf by (by apply (Forall_wf_in ct))).
  simpl. destruct (List.find _ ct) as [t|] eqn:E; [|done].
  apply find_some in E as [Ht _]. pose proof (Forall_wf_in ct t Hct Ht) as Hwf.
  destruct t; try discriminate. by rewrite tokenSummary_wf.
Qed.

(** The whole [super-token] command on a list of records. *)
Lemma cmd_super_token_wf l a0 a1 rest :
  a0 <> "" -> a1 <> "" -> isNaN (StringToNumber a0) = false ->
  Forall (fun t => token_wf t = true) l ->
  (forall st, super_query (StringToNumber a0) (toLowerCase a1) l = Some st -> ua_ok (underlying_of st) = true) ->
  cmd_super_token (VJson (JArr l)) (a0 :: a1 :: rest) =
    match super_query (StringToNumber a0) (toLowerCase a1) l with
    | None => mk_run [] [TlNoSuperToken (num_to_string (StringToNumber a0)) a1] (ExitCode 1)
    | Some st =>
        print (js_object [("superToken", VJson (summary_of st));
                          ("underlying", VJson (underlying_spec (List.filter (chain_is (StringToNumber a0)) l)
                                                                (underlying_of st)))])
    end.
Proof.
  intros H0 H1 Hn Hl Hua. unfold cmd_super_token, arg_missing.
  rewrite (proj2 (String.eqb_neq a0 "") H0), (proj2 (String.eqb_neq a1 "") H1), Hn. simpl.
  rewrite (filterM_pure _ (chain_is (StringToNumber a0)))
    by (intros t Ht; by rewrite on_chain_wf by (by apply (Forall_wf_in l))).
  simpl. pose proof (Forall_wf_filter (chain_is (StringToNumber a0)) l Hl) as Hct.
  rewrite (findM_pure _ (fun t => has_tag "supertoken" t &&
                                  (String.eqb (sym_l t) (toLowerCase a1) || String.eqb (addr_l t) (toLowerCase a1))))
    by (intros t Ht; by rewrite super_match_wf by (by apply (Forall_wf_in _ _ Hct))).
  simpl. fold (super_query (StringToNumber a0) (toLowerCase a1) l).
  destruct (super_query _ _ l) as [st|] eqn:Hq; [|done].
  pose proof Hq as Hin. unfold super_query in Hin. apply find_some in Hin as [Hin _].
  pose proof (Forall_wf_in _ _ Hct Hin) as Hwf.
  assert (Htr : json_truthy st = true) by (destruct st; try discriminate; done).
  rewrite Htr. cbn [negb]. rewrite tokenSummary_wf by done. cbn [lift ebind].
  rewrite underlying_result_wf by (done || by apply Hua). reflexivity.
Qed.

(** C9: Spec 8.8, the underlying-token placeholder.  When the Super Token
    found names an underlying address that no record of the chain has (up
    to case), [super-token] still succeeds: [underlying] is
    [{ address, note: "Not in token list" }] with the address as the
    record gave it. *)
Theorem super_token_placeholder l a0 a1 rest st ua :
  a0 <> "" -> a1 <> "" -> isNaN (StringToNumber a0) = false ->
  Forall (fun t => token_wf t = true) l ->
  super_query (StringToNumber a0) (toLowerCase a1) l = Some st ->
  underlying_of st = VJson (JStr ua) -> ua <> "" ->
  Forall (fun t => String.eqb (addr_l t) (toLowerCase ua) = false)
         (List.filter (chain_is (StringToNumber a0)) l) ->
  cmd_super_token (VJson (JArr l)) (a0 :: a1 :: rest) =
    print (js_object [("superToken", VJson (summary_of st));
                      ("underlying", VJson (js_object [("address", VJson (JStr ua));
                                                       ("note", VJson (JStr "Not in token list"))]))]).
Proof.
  intros H0 H1 Hn Hl Hq Hu Hne Hnone.
  rewrite cmd_super_token_wf; try done.
  - rewrite Hq, Hu. unfold underlying_spec. rewrite (proj2 (String.eqb_neq ua "") Hne).
    by rewrite (proj2 (find_None_iff _ _) Hnone).
  - intros st' Hst'. rewrite Hq in Hst'. injection Hst' as <-. by rewrite Hu.
Qed.

(** C38: [super-token] takes the first Super Token of the chain whose
    symbol or address matches, in list order: a record matching by symbol
    wins over a later one matching by address, although spec 4.3 gives
    the address match precedence. *)
Theorem super_token_symbol_before_address l a0 a1 rest pre t1 mid t2 post :
  a0 <> "" -> a1 <> "" -> isNaN (StringToNumber a0) = false ->
  Forall (fun t => token_wf t = true) l ->
  List.filter (chain_is (StringToNumber a0)) l = (pre ++ t1 :: mid ++ t2 :: post)%list ->
  Forall (fun t => has_tag "supertoken" t && (String.eqb (sym_l t) (toLowerCase a1) ||
                                             String.eqb (addr_l t) (toLowerCase a1)) = false) pre ->
  has_tag "supertoken" t1 = true -> sym_l t1 = toLowerCase a1 ->
  has_tag "supertoken" t2 = true -> addr_l t2 = toLowerCase a1 ->
  ua_ok (underlying_of t1) = true ->
  exists und, cmd_super_token (VJson (JArr l)) (a0 :: a1 :: rest) =
                print (js_object [("superToken", VJson (summary_of t1)); ("underlying", VJson und)]).
Proof.
  intros H0 H1 Hn Hl Hc Hpre Ht1 Hs1 _ _ Hua.
  assert (Hq : super_query (StringToNumber a0) (toLowerCase a1) l = Some t1).
  { unfold super_query. rewrite Hc. apply find_first; [done|]. by rewrite Ht1, Hs1, String.eqb_refl. }
  eexists. rewrite cmd_super_token_wf; try done.
  - by rewrite Hq.
  - intros st Hst. rewrite Hq in Hst. by injection Hst as <-.
Qed.

(** ** [stats] *)

(** [tokens.filter(t => t.chainId === id)] over the records. *)
Definition chain_tokens (l : list json) (id : nat * jsval) : list json :=
  map snd (List.filter (fun it => id_eq false (it.1, get it.2 "chainId") id) (imap pair l)).

Definition count_tag (tag : string) (l : list json) : number :=
  of_nat (length (List.filter (has_tag tag) l)).

Definition chain_entry_of (l : list json) (id : nat * jsval) : json :=
  let ct := chain_tokens l id in
  js_object [("chainId", id.2); ("total", VJson (JNum (of_nat (length ct))));
             ("superTokens", VJson (JNum (count_tag "supertoken" ct)));
             ("underlying", VJson (JNum (count_tag "underlying" ct)))].

(** The [stats] document of a list of records. *)
Definition stats_of (l : list json) : json :=
  js_object [("totalTokens", VJson (JNum (of_nat (length l))));
             ("superTokens", VJson (JNum (count_tag "supertoken" l)));
             ("underlyingTokens", VJson (JNum (count_tag "underlying" l)));
             ("chains", VJson (JArr (map (chain_entry_of l)
                                         (chains_of (map (fun t => get t "chainId") l)))))].

Lemma imap_snd {A B} (f : nat -> A -> nat * B) (g : A -> B) (l : list A) :
  (forall i x, (f i x).2 = g x) -> map snd (imap f l) = map g l.
Proof.
  revert f. induction l as [|x l IH]; intros f Hf; simpl; [done|].
  rewrite Hf. f_equal. apply IH. intros i y. apply Hf.
Qed.

Lemma in_imap_pair {A} (l : list A) it : In it (imap pair l) -> In it.2 l.
Proof.
  intros H. assert (E : map snd (imap pair l) = l).
  { rewrite (imap_snd pair (fun x => x) l) by done. apply map_id. }
  rewrite <- E. by apply in_map.
Qed.

Lemma count_wf tag (is_tag : json -> except string bool) l :
  (forall t, token_wf t = true -> is_tag t = inr (has_tag tag t)) ->
  Forall (fun t => token_wf t = true) l -> count is_tag l = inr (length (List.filter (has_tag tag) l)).
Proof.
  intros Htag Hl. unfold count.
  by rewrite (filterM_pure _ (has_tag tag)) by (intros t Ht; apply Htag; by apply (Forall_wf_in l)).
Qed.

Lemma chain_entry_wf l id :
  Forall (fun t => token_wf t = true) l -> chain_entry l id = inr (chain_entry_of l id).
Proof.
  intros Hl. unfold chain_entry, chain_entry_of, chain_tokens, count_tag.
  rewrite (filterM_pure _ (fun it => id_eq false (it.1, get it.2 "chainId") id)).
  2: { intros it Hit. rewrite read_nonnull; [done|].
       apply token_wf_nonnull, (Forall_wf_in l); [done|]. by apply in_imap_pair. }
  assert (Hct : Forall (fun t => token_wf t = true)
                  (map snd (List.filter (fun it => id_eq false (it.1, get it.2 "chainId") id) (imap pair l)))).
  { apply Forall_forall. intros t (it & <- & [Hit _]%filter_In)%in_map_iff.
    by apply (Forall_wf_in l), in_imap_pair. }
  cbn [ebind]. rewrite (count_wf "supertoken") by (done || apply isSuperToken_wf).
  cbn [ebind]. by rewrite (count_wf "underlying") by (done || apply isUnderlying_wf).
Qed.

(** [stats] on a list of records. *)
Lemma cmd_stats_wf l : Forall (fun t => token_wf t = true) l -> cmd_stats (VJson (JArr l)) = print (stats_of l).
Proof.
  intros Hl. unfold cmd_stats, stats_of, count_tag. cbn [tokens_array ebind].
  rewrite (mapM_pure _ (fun t => get t "chainId"))
    by (intros t Ht; apply read_nonnull, token_wf_nonnull, (Forall_wf_in l); done).
  cbn [ebind]. rewrite (count_wf "supertoken") by (done || apply isSuperToken_wf).
  cbn [ebind]. rewrite (count_wf "underlying") by (done || apply isUnderlying_wf).
  cbn [ebind]. by rewrite (mapM_pure _ (chain_entry_of l)) by (intros id _; by apply chain_entry_wf).
Qed.

Lemma filter_imap_length (p : nat * jsval -> bool) (g : json -> jsval) (f : nat -> nat) l :
  length (List.filter (fun it => p (it.1, g it.2)) (imap (fun i x => (f i, x)) l)) =
  length (List.filter p (imap (fun i x => (f i, x)) (map g l))).
Proof.
  revert f. induction l as [|x l IH]; intros f; simpl; [done|].
  destruct (p (f 0, g x)); simpl; [f_equal|]; apply (IH (fun i => f (S i))).
Qed.

Lemma chain_tokens_length l id :
  length (chain_tokens l id) =
  length (List.filter (fun it => id_eq false it id) (imap pair (map (fun t => get t "chainId") l))).
Proof.
  unfold chain_tokens. rewrite length_map.
  apply (filter_imap_length (fun it => id_eq false it id) (fun t => get t "chainId") (fun i => i)).
Qed.

(** Every value of [ids] that is not NaN is [===] to exactly one entry of
    [chains], so the class sizes add up. *)
Lemma chains_partition ids :
  Forall (fun v => nan_free v = true) ids ->
  list_sum (map (fun id => length (List.filter (fun it => id_eq false it id) (imap pair ids))) (chains_of ids))
  = length ids.
Proof.
  intros Hnan. unfold chains_of.
  assert (HL : forall it, In it (imap pair ids) -> nan_free it.2 = true).
  { intros it Hit. rewrite Forall_forall in Hnan. by apply Hnan, in_imap_pair. }
  pose proof (js_sort_perm chain_lt is_undefined (new_set (imap pair ids))) as Hp.
  destruct (new_set_wf (imap pair ids)) as [Hnd Hu].
  rewrite (map_ext_in _ (fun s => length (List.filter (id_eq true s) (imap pair ids)))).
  2: { intros s _. f_equal. apply filter_ext_in. intros it Hit.
       rewrite id_eq_sym. symmetry. by apply id_eq_nan_free, HL. }
  rewrite <- (length_imap pair ids).
  apply sum_class_sizes.
  - apply id_eq_sym.
  - apply id_eq_trans.
  - by rewrite Hp.
  - intros a b Ha Hb. apply Hu; by apply (Permutation_in _ Hp).
  - apply Forall_forall. intros x Hx. destruct (new_set_covers _ _ Hx) as (s & Hs & Hsx).
    exists s. split; [|done]. by apply (Permutation_in _ (Permutation_sym Hp)).
Qed.

(** C39: [stats] on a list of records whose chain ids are not NaN (JSON
    has no NaN): the document is [stats_of], and every record is counted
    in exactly one entry of [chains], so the [total]s add up to
    [totalTokens]. *)
Theorem stats_totals l :
  Forall (fun t => token_wf t = true) l -> Forall (fun t => nan_free (get t "chainId") = true) l ->
  cmd_stats (VJson (JArr l)) = print (stats_of l) /\
  list_sum (map (fun id => length (chain_tokens l id)) (chains_of (map (fun t => get t "chainId") l)))
  = length l.
Proof.
  intros Hl Hnan. split; [by apply cmd_stats_wf|].
  rewrite (map_ext _ _ (chain_tokens_length l)).
  rewrite chains_partition, length_map; [done|]. by apply Forall_map.
Qed.

(** ** A chain id that is not a number *)

Lemma strict_eq_num_nan v : strict_eq_num v NaN = false.
Proof. destruct v as [|[]|]; try done. simpl. by rewrite num_eqb_sym, num_eqb_nan_l. Qed.

(** C40: [by-symbol <s> --chain-id <v>] with a [v] that is not a number
    matches no record ([t.chainId === NaN] is false) and reports "No
    token found with symbol", where [by-chain] and [super-token] report
    that the chain id must be a number (spec 7, MalformedInput). *)
Theorem by_symbol_bad_chain_id l a v rest :
  a <> "" -> a <> "--chain-id" -> v <> "" -> isNaN (StringToNumber v) = true ->
  Forall (fun t => token_wf t = true) l ->
  cmd_by_symbol (VJson (JArr l)) (a :: "--chain-id" :: v :: rest) = mk_run [] [TlNoSymbol a] (ExitCode 1).
Proof.
  intros Ha Hc Hv Hn Hl.
  assert (Hi : index_of "--chain-id" (a :: "--chain-id" :: v :: rest) = Some 1).
  { cbn [index_of]. rewrite (proj2 (String.eqb_neq "--chain-id" a) (not_eq_sym Hc)), String.eqb_refl.
    reflexivity. }
  unfold cmd_by_symbol, arg_missing. cbn [head].
  rewrite (proj2 (String.eqb_neq a "") Ha). cbn [tokens_array lift ebind].
  rewrite (filterM_pure _ (fun t => String.eqb (sym_l t) (toLowerCase a)))
    by (intros t Ht; by rewrite symbol_lower_wf by (by apply (Forall_wf_in l))).
  cbn [lift ebind]. rewrite Hi. cbn [nth_error].
  rewrite (proj2 (String.eqb_neq v "") Hv). cbn [default]. change (id v) with v.
  destruct (StringToNumber v); try discriminate.
  rewrite (filterM_pure _ (fun _ => false)).
  - by rewrite (proj2 (filter_nil_iff _ _)) by (by apply Forall_forall).
  - intros t [Ht _]%filter_In. rewrite on_chain_wf by (by apply (Forall_wf_in l)).
    unfold chain_is. f_equal. apply (strict_eq_num_nan (get t "chainId")).
Qed.

(** ** Concrete runs *)

Module TokenlistExamples.
Definition sti (kind : string) (ua : option string) : json :=
  JObj ([("type", JStr kind)] ++
        match ua with Some a => [("underlyingTokenAddress", JStr a)] | None => [] end).

Definition token (chain : Z) (addr name sym : string) (dec : Z) (tags : list string)
  (info : option json) : json :=
  JObj ([("chainId", JNum (of_Z chain)); ("address", JStr addr); ("name", JStr name);
         ("symbol", JStr sym); ("decimals", JNum (of_Z dec)); ("tags", JArr (map JStr tags))] ++
        match info with Some i => [("extensions", JObj [("superTokenInfo", i)])] | None => [] end).

Definition usdcx := token 10 "0x8430F084B939208E2eDEd1584889C9A66B90562f" "Super USD Coin" "USDCx" 18
  ["supertoken"] (Some (sti "Wrapper" (Some "0x0b2C639c533813f4Aa9D7837CAf62653d097Ff85"))).
Definition usdc := token 10 "0x0b2C639c533813f4Aa9D7837CAf62653d097Ff85" "USD Coin" "USDC" 6
  ["underlying"] None.
Definition daix := token 10 "0x7d342726B69C28D942ad8BfE6Ac81b972349d524" "Super DAI" "DAIx" 18
  ["supertoken"] (Some (sti "Wrapper" (Some "0xDA10009cBd5D07dd0CeCc66161FC93D7c9000da1"))).
Definition ethx := token 8453 "0x46fd5cfB4c12D87acD3a13e92BAa53240C661D93" "Super ETH" "ETHx" 18
  ["supertoken"] (Some (sti "Native Asset" None)).

Definition tokens : list json := [usdcx; usdc; daix; ethx].

(** Two Super Tokens of one chain where the first one's symbol is the
    second one's address. *)
Definition by_symbol := token 10 "0x1111111111111111111111111111111111111111" "Odd" "0xFEED" 18
  ["supertoken"] None.
Definition by_address := token 10 "0xfeed" "Other" "OTH" 18 ["supertoken"] None.
End TokenlistExamples.

Import TokenlistExamples.

Lemma tokens_wf_of l : forallb token_wf l = true -> Forall (fun t => token_wf t = true) l.
Proof. intros H. apply Forall_forall. intros t Ht. rewrite forallb_forall in H. by apply H. Qed.

Lemma cmd_by_address_spec_witness :
  cmd_by_address (VJson (JArr tokens)) ["0x8430f084b939208e2eded1584889c9a66b90562f"] =
    match List.filter (fun t => String.eqb (addr_l t) (toLowerCase "0x8430f084b939208e2eded1584889c9a66b90562f")) tokens with
    | [] => mk_run [] [TlNoAddress "0x8430f084b939208e2eded1584889c9a66b90562f"] (ExitCode 1)
    | ms => print (JArr (map summary_of ms))
    end.
Proof. apply cmd_by_address_spec; [discriminate | apply tokens_wf_of; run_eval]. Defined.

Lemma super_token_placeholder_witness :
  cmd_super_token (VJson (JArr tokens)) ["10"; "daix"] =
    print (js_object [("superToken", VJson (summary_of daix));
                      ("underlying", VJson (js_object [("address", VJson (JStr "0xDA10009cBd5D07dd0CeCc66161FC93D7c9000da1"));
                                                       ("note", VJson (JStr "Not in token list"))]))]).
Proof.
  apply super_token_placeholder;
    first [discriminate | apply tokens_wf_of; run_eval | run_eval
          | apply Forall_forall; intros t Ht; apply filter_In in Ht as [Ht _];
            repeat (destruct Ht as [<-|Ht]; [run_eval|]); destruct Ht].
Defined.

Lemma super_token_symbol_before_address_witness :
  exists und, cmd_super_token (VJson (JArr [by_symbol; by_address])) ["10"; "0xfeed"] =
                print (js_object [("superToken", VJson (summary_of by_symbol)); ("underlying", VJson und)]).
Proof.
  apply (super_token_symbol_before_address _ _ _ _ [] by_symbol [] by_address []);
    first [discriminate | apply tokens_wf_of; run_eval | run_eval | constructor].
Defined.

Lemma stats_totals_witness :
  cmd_stats (VJson (JArr tokens)) = print (stats_of tokens) /\
  list_sum (map (fun id => length (chain_tokens tokens id)) (chains_of (map (fun t => get t "chainId") tokens)))
  = length tokens.
Proof. apply stats_totals; [apply tokens_wf_of; run_eval | repeat constructor]. Defined.

Lemma by_symbol_bad_chain_id_witness :
  cmd_by_symbol (VJson (JArr tokens)) ["USDCx"; "--chain-id"; "optimism"] = mk_run [] [TlNoSymbol "USDCx"] (ExitCode 1).
Proof. apply by_symbol_bad_chain_id; first [discriminate | apply tokens_wf_of; run_eval | run_eval]. Defined.
