(* ===== verification/Balance.v ===== *)
(** * balance.mjs: the Super Token balance resolver

    [src/skills/superfluid/scripts/balance.mjs].  The script loads the
    same token list as tokenlist.mjs, from the same CDN URL into the same
    cache file [tokenlist.json] ([loadTokens], the [loadJson] routine of
    Fetch.v), then serves one command, [balance <chain-id>
    <token-symbol-or-address> <account>]: it resolves a Super Token of the
    chain ([resolveToken]: by address first, then by symbol), asks the
    Super API for the balance ([fetchBalance], a second network request
    given as an input), and prints the answer with amounts formatted by
    [formatBalance], [formatFlowRate] and [formatTimestamp].

    The module [BalanceMjs] holds the script; record reads and the Super
    Token test come from Tokenlist.v, numbers from JsNumber.v, dates from
    Date.v.  The host's [10 ** d] is the parameter [PowHost] (exact for
    integer [d] in 0..22).

    After the module: the formatters' theorems (spec 8.5 and 8.6, the
    number of fraction digits, timestamp strings that read as zero), [resolve_spec],
    the pure form of [resolveToken] on well-formed records, and
    [cmd_balance_wf], the command as a choice of token followed by the
    request, from which its error paths are read off.  Examples reuse the
    records of Tokenlist.v. *)

From S2P Require Import Prelude JsNumber JsValue JsSort Fetch Date Tokenlist.

Local Open Scope string_scope.
Import TokenlistMjs.

Module BalanceMjs.

Definition CDN_URL : string :=
  "https://cdn.jsdelivr.net/npm/@superfluid-finance/tokenlist/dist/superfluid.extended.tokenlist.json".

(** [CACHE_FILE], as a name inside the cache directory: the file of
    tokenlist.mjs. *)
Definition CACHE_FILE : string := "tokenlist.json".

Definition API_URL : string := "https://superapi.kazpi.com/super-token-balance".

(** One [console.error] line of balance.mjs. *)
Inductive bal_diag :=
  | BalLoad (d : load_diag)                       (* the lines of loadTokens' fallback *)
  | BalUsage                                      (* Usage: balance.mjs balance <chain-id> ... *)
  | BalChainNaN                                   (* Error: chain-id must be a number *)
  | BalNoSuperToken (chain arg : string)          (* Error: No Super Token found on chain <c> matching "<arg>" *)
  | BalHint (chain : string)                      (* Hint: Use "node tokenlist.mjs by-chain <c> --super" ... *)
  | BalApiHttp (status : Z) (body : string)       (* Error: Super API returned HTTP <s>[ — <body>] *)
  | BalApiUrl (url : string)                      (* URL: <url> *)
  | BalHelp.                                      (* the usage text of the default case *)

Local Open Scope js_scope.

(** [resolveToken(tokens, chainId, symbolOrAddress)]: a Super Token of the
    chain whose address matches, else one whose symbol matches, else
    [null] ([None]). *)
Definition resolveToken (tokens : jsval) (chainId : number) (symbolOrAddress : string)
  : except string (option json) :=
  let query := toLowerCase symbolOrAddress in
  let* l := tokens_array tokens "filter" in
  let* chainTokens := filterM (on_chain chainId) l in
  let super_and (field : json -> except string string) (t : json) : except string bool :=
    let* s := isSuperToken t in
    if negb s then inr false else let* x := field t in inr (String.eqb x query) in
  let by_sym :=
    let* bySym := findM (super_and symbol_lower) chainTokens in
    match bySym with
    | Some t => if json_truthy t then inr (Some t) else inr None
    | None => inr None
    end in
  let* byAddr := findM (super_and address_lower) chainTokens in
  match byAddr with
  | Some t => if json_truthy t then inr (Some t) else by_sym
  | None => by_sym
  end.

(** ** [fetchBalance] *)

Definition hex_digit (n : nat) : ascii :=
  ascii_of_nat (if (n <? 10)%nat then 48 + n else 55 + n).

(** The application/x-www-form-urlencoded byte serializer of
    [URLSearchParams]: letters, digits and [*-._] unchanged, space as [+],
    every other byte as [%XX]. *)
Fixpoint form_encode (s : string) : string :=
  match s with
  | EmptyString => EmptyString
  | String c s' =>
      let n := nat_of_ascii c in
      let keep := ((48 <=? n) && (n <=? 57)) || ((65 <=? n) && (n <=? 90)) ||
                  ((97 <=? n) && (n <=? 122)) || existsb (Nat.eqb n) [42; 45; 46; 95] in
      if keep then String c (form_encode s')
      else if (n =? 32)%nat then String "+" (form_encode s')
      else String "%" (String (hex_digit (n / 16)) (String (hex_digit (n mod 16)) (form_encode s')))
  end%nat.

(** [`${API_URL}?${new URLSearchParams({ chain: String(chain), token, account })}`] *)
Definition api_url (chain : number) (token : jsval) (account : string) : string :=
  API_URL +:+ "?chain=" +:+ form_encode (num_to_string chain) +:+ "&token=" +:+
  form_encode (to_js_string token) +:+ "&account=" +:+ form_encode account.

Section Fetch.
Context `{JsonCodec json}.

(** [await fetchBalance(chain, token, account)]: a rejected request and a
    body that is not JSON are uncaught; a non-2xx status prints the status,
    the body and the URL and exits with 1. *)
Definition fetchBalance (url : string) (net : fetch_outcome) : except (run bal_diag) json :=
  match net with
  | FetchRejected m => inl (crash m)
  | FetchOk r =>
      if negb (res_ok r) then inl (mk_run [] [BalApiHttp (res_status r) (res_body r); BalApiUrl url] (ExitCode 1))
      else match json_parse (res_body r) with
           | inl e => inl (crash e)
           | inr data => inr data
           end
  end.
End Fetch.

(** ** The formatters *)

Section Formatters.
Context `{PowHost}.

(** A parameter [decimals = 18] given [undefined]. *)
Definition default18 (v : jsval) : jsval := match v with VUndef => VJson (JNum (of_Z 18)) | _ => v end.

(** [decimals > 8 ? 8 : decimals], as the argument of [toFixed]. *)
Definition frac_digits (decimals : jsval) : number :=
  if num_ltb (of_Z 8) (to_number decimals) then of_Z 8 else to_number decimals.

(** [formatBalance(wei, decimals = 18)] *)
Definition formatBalance (wei decimals : jsval) : except string json :=
  let decimals := default18 decimals in
  if nullish wei then inr JNull
  else
    let num := num_div (to_number wei) (js_pow10 (to_number decimals)) in
    let* formatted := toFixed num (frac_digits decimals) in
    inr (js_object [("wei", wei); ("formatted", VJson (JStr formatted))]).

(** [formatFlowRate(weiPerSecond, decimals = 18)]: a rate that is not a
    string has no [startsWith]. *)
Definition formatFlowRate (weiPerSecond decimals : jsval) : except string json :=
  let decimals := default18 decimals in
  if negb (truthy weiPerSecond) || strict_eq_str weiPerSecond "0" then inr JNull
  else match weiPerSecond with
       | VJson (JStr w) =>
           let sign := if startsWith w "-" then "-" else "" in
           let abs := replace_first "-" "" w in
           let perSecond := num_div (StringToNumber abs) (js_pow10 (to_number decimals)) in
           let perMonth := num_mul perSecond (of_Z 2592000) in
           let* s := toFixed perSecond (frac_digits decimals) in
           let* m := toFixed perMonth (of_Z 4) in
           inr (js_object [("wei_per_second", weiPerSecond);
                           ("tokens_per_second", VJson (JStr (sign +:+ s)));
                           ("tokens_per_month", VJson (JStr (sign +:+ m)))])
       | _ => inl "TypeError: weiPerSecond.startsWith is not a function"
       end.

(** [formatTimestamp(ts)] *)
Definition formatTimestamp (ts : jsval) : except string json :=
  if negb (truthy ts) then inr JNull
  else let* iso := date_iso (num_mul (to_number ts) (of_Z 1000)) in
       inr (js_object [("unix", ts); ("iso", VJson (JStr iso))]).
End Formatters.

(** ** The command *)

Definition arg_missing (a : string) : bool := String.eqb a "".

(** [tokenMeta?.k] *)
Definition meta_get (tokenMeta : option json) (k : string) : jsval :=
  match tokenMeta with Some t => get t k | None => VUndef end.

(** The [superToken] object: the API's address, then the list's symbol,
    name and decimals, then the type of [superTokenInfo]. *)
Definition super_token_obj (data : json) (tokenMeta : option json) : except string json :=
  let sti := get_opt (meta_get tokenMeta "extensions") "superTokenInfo" in
  let* ty := if truthy sti then let* x := read_v sti "type" in inr [("type", x)] else inr [] in
  inr (js_object ([("address", get data "token")] ++
                  (match tokenMeta with
                   | Some t => [("symbol", get t "symbol"); ("name", get t "name"); ("decimals", get t "decimals")]
                   | None => []
                   end) ++ ty)).

Section Command.
Context `{JsonCodec json} `{PowHost}.

(** The [result] object, from [superTokenDecimals] on. *)
Definition balance_result (data : json) (tokenMeta : option json) : except string json :=
  let superTokenDecimals := js_coalesce (meta_get tokenMeta "decimals") (VJson (JNum (of_Z 18))) in
  let* ut := read data "underlyingToken" in
  let underlyingDecimals := js_coalesce (get_opt ut "decimals") (VJson JNull) in
  let* st := super_token_obj data tokenMeta in
  let* connected := formatBalance (get data "connectedBalance") superTokenDecimals in
  let* unconnected := formatBalance (get data "unconnectedBalance") superTokenDecimals in
  let* netFlow := formatFlowRate (get data "connectedNetFlow") superTokenDecimals in
  let* timestamp := formatTimestamp (get data "timestamp") in
  let* critical := formatTimestamp (get data "maybeCriticalAt") in
  let* underlying :=
    if truthy ut then
      let* addr := read_v ut "address" in
      let* bal := read_v ut "balance" in
      let* b := formatBalance bal (js_coalesce underlyingDecimals (VJson (JNum (of_Z 18)))) in
      inr (js_object ([("address", addr)] ++
                      (if nullish underlyingDecimals then [] else [("decimals", underlyingDecimals)]) ++
                      [("balance", VJson b)]))
    else inr JNull in
  inr (js_object [("chain", get data "chain"); ("account", get data "account");
                  ("superToken", VJson st);
                  ("balance", VJson (js_object [("connected", VJson connected);
                                                ("unconnected", VJson unconnected)]));
                  ("netFlow", VJson netFlow); ("timestamp", VJson timestamp);
                  ("maybeCriticalAt", VJson critical); ("underlyingToken", VJson underlying)]).

(** [case "balance"]; [api] is the outcome of the Super API request. *)
Definition cmd_balance (tokens : jsval) (args : list string) (api : fetch_outcome) : run bal_diag :=
  match args with
  | a0 :: a1 :: a2 :: _ =>
      if arg_missing a0 || arg_missing a1 || arg_missing a2 then mk_run [] [BalUsage] (ExitCode 1)
      else
        let chainId := StringToNumber a0 in
        if isNaN chainId then mk_run [] [BalChainNaN] (ExitCode 1)
        else
          let not_found := inl (mk_run [] [BalNoSuperToken (num_to_string chainId) a1;
                                           BalHint (num_to_string chainId)] (ExitCode 1)) in
          finish (let* token :=
                    if negb (startsWith a1 "0x") then
                      let* resolved := lift (resolveToken tokens chainId a1) in
                      match resolved with
                      | Some r => if json_truthy r then inr (get r "address", Some r) else not_found
                      | None => not_found
                      end
                    else let* m := lift (resolveToken tokens chainId a1) in inr (VJson (JStr a1), m) in
                  let '(tokenAddress, tokenMeta) := token in
                  let* data := fetchBalance (api_url chainId tokenAddress a2) api in
                  lift (balance_result data tokenMeta))
  | _ => mk_run [] [BalUsage] (ExitCode 1)
  end.

Definition balance_dispatch (tokens : jsval) (argv : list string) (api : fetch_outcome) : run bal_diag :=
  match argv with
  | [] => mk_run [] [BalHelp] (ExitCode 0)
  | command :: args =>
      if String.eqb command "balance" then cmd_balance tokens args api
      else mk_run [] [BalHelp] (ExitCode (if String.eqb command "" then 0 else 1))
  end.

(** [loadTokens()] of balance.mjs. *)
Definition loadTokens (net : fetch_outcome) (fs : fs_state) : load_result jsval * fs_state :=
  loadJson "token list" CDN_URL CACHE_FILE tokens_of net fs.

(** The script: the token list is loaded at the top level, then the
    command runs with the Super API outcome [api]. *)
Definition balance_main (argv : list string) (net api : fetch_outcome) (fs : fs_state)
  : run bal_diag * fs_state :=
  let '(r, fs') := loadTokens net fs in
  match r with
  | LoadExit lines => (mk_run [] (map BalLoad lines) (ExitCode 1), fs')
  | Loaded tokens => (balance_dispatch tokens argv api, fs')
  end.
End Command.
End BalanceMjs.

(** * Properties of balance.mjs *)

Import BalanceMjs.
Local Open Scope js_scope.

(** ** The formatters *)

Section FormatterFacts.
Context `{PowHost}.

(** [decimals > 8 ? 8 : decimals] for the integers 0..22, by evaluation. *)
Lemma frac_digits_check :
  all_in_range (fun d => match fraction_digits (frac_digits (VJson (JNum (of_Z d)))) with
                         | Some k => (k =? Z.min d 8)%Z | None => false end) 23 0 = true.
Proof. vm_compute. reflexivity. Qed.

Lemma frac_digits_small d :
  (0 <= d <= 22)%Z -> fraction_digits (frac_digits (VJson (JNum (of_Z d)))) = Some (Z.min d 8).
Proof.
  intros Hd. pose proof (all_in_range_spec _ 23 0 frac_digits_check d) as Hc.
  assert (Z.of_nat 23 = 23)%Z by reflexivity.
  specialize (Hc ltac:(lia)). cbv beta in Hc. destruct (fraction_digits _); [|discriminate]. f_equal. by apply Z.eqb_eq.
Qed.

Lemma replace_first_minus r : replace_first "-" "" ("-" +:+ r) = r.
Proof.
  change ("-" +:+ r) with (String "-" r). destruct r as [|c r]; [reflexivity|].
  cbn -[substring]. change ("" +:+ ?x) with x. change (substring 1 ?m (String "-" ?s)) with (substring 0 m s). apply (substring_full _ (String c r)). simpl. lia.
Qed.

(** A rate starting with a minus sign passes the guard of [formatFlowRate]. *)
Lemma flow_guard r :
  negb (truthy (VJson (JStr ("-" +:+ r)))) || strict_eq_str (VJson (JStr ("-" +:+ r))) "0" = false.
Proof. reflexivity. Qed.

(** The per-second and per-month magnitudes of a rate without a minus
    sign are numbers without a minus sign. *)
Lemma flow_magnitudes_sign_false r d :
  (0 <= d <= 22)%Z -> head (trim_ws (list_ascii_of_string r)) <> Some "-"%char ->
  sign_false (num_div (StringToNumber r) (js_pow10 (of_Z d))) = true /\
  sign_false (num_mul (num_div (StringToNumber r) (js_pow10 (of_Z d))) (of_Z 2592000)) = true.
Proof.
  intros Hd Hr. rewrite js_pow10_small by done.
  assert (Hs : sign_false (num_div (StringToNumber r) (of_Z (10 ^ d))) = true).
  { apply num_div_sign_false; [by apply StringToNumber_sign_false|apply of_Z_sign_false; lia]. }
  split; [done|]. apply num_mul_sign_false; [done|by apply of_Z_sign_false].
Qed.


(** [k] whole tokens at [d] decimals, in wei: the digits of [k], then [d]
    zeros; and what one expects printed: [k], then [min d 8] zero
    fraction digits after a point (no point when [d = 0]). *)
Definition wei_of (k d : Z) : string := Z_to_dec k +:+ zeros (Z.to_nat d).

Definition whole_fmt (k d : Z) : string :=
  Z_to_dec k +:+ (if (d =? 0)%Z then "" else "." +:+ zeros (Z.to_nat (Z.min d 8))).

Definition whole_ok (k d : Z) : bool :=
  match toFixed (num_div (StringToNumber (wei_of k d)) (of_Z (10 ^ d))) (frac_digits (VJson (JNum (of_Z d)))) with
  | inr f => String.eqb f (whole_fmt k d)
  | inl _ => false
  end.

(** Every [k < 1000] and every [d] in 0..22, by evaluation. *)
Lemma whole_tokens_check : all_in_range (fun k => all_in_range (whole_ok k) 23 0) 1000 0 = true.
Proof. vm_compute. reflexivity. Qed.

Lemma whole_ok_spec k d :
  (0 <= k < 1000)%Z -> (0 <= d <= 22)%Z ->
  toFixed (num_div (StringToNumber (wei_of k d)) (of_Z (10 ^ d))) (frac_digits (VJson (JNum (of_Z d))))
  = inr (whole_fmt k d).
Proof.
  intros Hk Hd. assert (E : (Z.of_nat 1000 = 1000 /\ Z.of_nat 23 = 23)%Z) by (split; reflexivity).
  pose proof (all_in_range_spec _ 1000 0 whole_tokens_check k ltac:(lia)) as Hc. cbv beta in Hc.
  pose proof (all_in_range_spec _ 23 0 Hc d ltac:(lia)) as Hd'. unfold whole_ok in Hd'.
  destruct (toFixed _ _); [discriminate|]. by apply String.eqb_eq in Hd' as ->.
Qed.

(** C6: Spec 8.5, fixed-point formatting of whole amounts.  [k] whole
    tokens ([k < 1000]) written in wei at any precision [d] in 0..22 (the
    digits of [k] followed by [d] zeros) keep the raw string as [wei] and
    are formatted as [k] followed by [min d 8] zero fraction digits: the
    precision is capped at 8, and "1000000000000000000" at 18 decimals
    gives "1.00000000". *)
Theorem formatBalance_whole_tokens k d :
  (0 <= k < 1000)%Z -> (0 <= d <= 22)%Z ->
  formatBalance (VJson (JStr (wei_of k d))) (VJson (JNum (of_Z d))) =
    inr (js_object [("wei", VJson (JStr (wei_of k d))); ("formatted", VJson (JStr (whole_fmt k d)))]).
Proof.
  intros Hk Hd. unfold formatBalance. cbn [default18 nullish to_number negb].
  rewrite js_pow10_small by lia. by rewrite whole_ok_spec.
Qed.

(** C18: [formatBalance] on a wei string and an integer number of
    decimals [d] in 1..22 keeps the raw string and, below 10^21 tokens,
    writes exactly [min d 8] digits after the decimal point. *)
Theorem formatBalance_fraction_digits w d :
  (1 <= d <= 22)%Z -> fixed_range (num_div (StringToNumber w) (of_Z (10 ^ d))) = true ->
  exists sign a b,
    formatBalance (VJson (JStr w)) (VJson (JNum (of_Z d))) =
      inr (js_object [("wei", VJson (JStr w)); ("formatted", VJson (JStr (sign +:+ (a +:+ "." +:+ b))))]) /\
    String.length b = Z.to_nat (Z.min d 8).
Proof.
  intros Hd Hr.
  destruct (toFixed_shape _ (frac_digits (VJson (JNum (of_Z d)))) (Z.min d 8) (frac_digits_small d ltac:(lia))
              ltac:(lia) Hr) as (sign & a & b & E & L).
  exists sign, a, b. split; [|done]. unfold formatBalance. cbn [default18 nullish to_number negb].
  rewrite js_pow10_small by lia. by rewrite E.
Qed.

(** C7: Spec 8.6, flow-rate sign preservation.  For a rate ["-" ++ r]
    whose magnitude [r] has no minus sign of its own and an integer
    number of decimals in 0..22, the per-second and per-month figures
    are both ["-"] followed by a figure without a minus sign, and the raw
    rate is returned unchanged; the rate ["0"] gives [null]. *)
Theorem formatFlowRate_sign r d :
  (0 <= d <= 22)%Z -> head (trim_ws (list_ascii_of_string r)) <> Some "-"%char ->
  formatFlowRate (VJson (JStr "0")) (VJson (JNum (of_Z d))) = inr JNull /\
  exists s m,
    formatFlowRate (VJson (JStr ("-" +:+ r))) (VJson (JNum (of_Z d))) =
      inr (js_object [("wei_per_second", VJson (JStr ("-" +:+ r)));
                      ("tokens_per_second", VJson (JStr ("-" +:+ s)));
                      ("tokens_per_month", VJson (JStr ("-" +:+ m)))]) /\
    head_char s <> Some "-"%char /\ head_char m <> Some "-"%char.
Proof.
  intros Hd Hr. split; [reflexivity|].
  destruct (flow_magnitudes_sign_false r d Hd Hr) as [Hs Hm].
  destruct (toFixed_ok (num_div (StringToNumber r) (js_pow10 (of_Z d))) _ _ (frac_digits_small d Hd))
    as [s Es]; [lia|].
  destruct (small_int 4) as (_ & _ & H4); [lia|].
  destruct (toFixed_ok (num_mul (num_div (StringToNumber r) (js_pow10 (of_Z d))) (of_Z 2592000)) _ _ H4)
    as [m Em]; [lia|].
  exists s, m. split; [|split; [exact (toFixed_sign_false _ _ _ Hs Es)|exact (toFixed_sign_false _ _ _ Hm Em)]].
  unfold formatFlowRate. cbn [default18]. rewrite flow_guard. unfold startsWith. rewrite prefix_app.
  rewrite replace_first_minus. cbn [to_number]. by rewrite Es, Em.
Qed.
End FormatterFacts.

(** C23: [formatTimestamp] tests truthiness, not the number.  For every
    non-empty string that [Number()] reads as zero (["0"], ["00"],
    ["0x0"], [" 0 "], ["-0"], ...) the result is the epoch date with the
    raw string, where spec 4.4 asks for [null] on a zero input; the same
    zero as a number gives [null]. *)
Theorem formatTimestamp_zero_string s :
  s <> "" -> is_zero (StringToNumber s) = true ->
  formatTimestamp (VJson (JStr s)) =
    inr (js_object [("unix", VJson (JStr s)); ("iso", VJson (JStr "1970-01-01T00:00:00.000Z"))]) /\
  formatTimestamp (VJson (JNum (StringToNumber s))) = inr JNull.
Proof.
  intros Hs Hz. unfold formatTimestamp.
  replace (truthy (VJson (JStr s))) with true by (destruct s; [done|reflexivity]).
  cbn [negb to_number]. destruct (StringToNumber s) as [[]|[]| |[]]; try discriminate; split; reflexivity.
Qed.

(** A non-empty timestamp string that [Number()] reads as NaN makes
    [toISOString] throw. *)
Lemma formatTimestamp_nan_string s :
  s <> "" -> isNaN (StringToNumber s) = true ->
  formatTimestamp (VJson (JStr s)) = inl "RangeError: Invalid time value".
Proof.
  intros Hs Hn. unfold formatTimestamp.
  replace (truthy (VJson (JStr s))) with true by (destruct s; [done|reflexivity]).
  cbn [negb to_number]. destruct (StringToNumber s); try discriminate. reflexivity.
Qed.

(** ** [resolveToken] on a list of records *)

(** What [resolveToken] returns: the first Super Token of the chain whose
    address matches the lowered query, else the first whose symbol does. *)
Definition resolve_spec (c : number) (q : string) (l : list json) : option json :=
  let ct := List.filter (chain_is c) l in
  match List.find (fun t => has_tag "supertoken" t && String.eqb (addr_l t) q) ct with
  | Some t => Some t
  | None => List.find (fun t => has_tag "supertoken" t && String.eqb (sym_l t) q) ct
  end.

Lemma token_wf_truthy t : token_wf t = true -> json_truthy t = true.
Proof. by destruct t. Qed.

Lemma super_and_wf t q (field : json -> except string string) (view : json -> string) :
  token_wf t = true -> field t = inr (view t) ->
  (let* s := isSuperToken t in if negb s then inr false else let* x := field t in inr (String.eqb x q)) =
    inr (has_tag "supertoken" t && String.eqb (view t) q).
Proof.
  intros Hwf Hf. rewrite isSuperToken_wf by done. cbn [ebind].
  destruct (has_tag "supertoken" t); [|done]. by rewrite Hf.
Qed.

Lemma find_wf (f : json -> bool) l t :
  Forall (fun t => token_wf t = true) l -> List.find f l = Some t -> json_truthy t = true.
Proof. intros Hl E. apply find_some in E as [E _]. by apply token_wf_truthy, (Forall_wf_in l). Qed.

Lemma resolveToken_wf l c a :
  Forall (fun t => token_wf t = true) l ->
  resolveToken (VJson (JArr l)) c a = inr (resolve_spec c (toLowerCase a) l).
Proof.
  intros Hl. unfold resolveToken, resolve_spec. cbn [tokens_array ebind].
  rewrite (filterM_pure _ (chain_is c))
    by (intros t Ht; by rewrite on_chain_wf by (by apply (Forall_wf_in l))).
  cbn [ebind]. pose proof (Forall_wf_filter (chain_is c) l Hl) as Hct.
  cbv zeta.
  rewrite (findM_pure _ (fun t => has_tag "supertoken" t && String.eqb (addr_l t) (toLowerCase a)))
    by (intros t Ht; apply super_and_wf; [by apply (Forall_wf_in _ _ Hct)|apply address_lower_wf; by apply (Forall_wf_in _ _ Hct)]).
  rewrite (findM_pure _ (fun t => has_tag "supertoken" t && String.eqb (sym_l t) (toLowerCase a)))
    by (intros t Ht; apply super_and_wf; [by apply (Forall_wf_in _ _ Hct)|apply symbol_lower_wf; by apply (Forall_wf_in _ _ Hct)]).
  cbn [ebind].
  destruct (List.find (fun t => _ && String.eqb (addr_l t) _) _) as [t|] eqn:Ea;
    [by rewrite (find_wf _ _ _ Hct Ea)|].
  destruct (List.find (fun t => _ && String.eqb (sym_l t) _) _) as [t|] eqn:Es;
    [by rewrite (find_wf _ _ _ Hct Es)|done].
Qed.

(** ** The [balance] command on a list of records *)

Section CommandFacts.
Context `{JsonCodec json} `{PowHost}.

(** The token address the Super API is asked about and the record used
    as [tokenMeta], or [None] when a symbol does not resolve: an address
    argument ([0x...]) is sent as typed, with whatever record the query
    resolves to as metadata. *)
Definition token_choice (c : number) (a1 : string) (l : list json) : option (jsval * option json) :=
  let r := resolve_spec c (toLowerCase a1) l in
  if startsWith a1 "0x" then Some (VJson (JStr a1), r)
  else match r with Some t => Some (get t "address", Some t) | None => None end.

Definition not_found_run (c : number) (a1 : string) : run bal_diag :=
  mk_run [] [BalNoSuperToken (num_to_string c) a1; BalHint (num_to_string c)] (ExitCode 1).

Lemma cmd_balance_wf l a0 a1 a2 rest api :
  a0 <> "" -> a1 <> "" -> a2 <> "" -> isNaN (StringToNumber a0) = false ->
  Forall (fun t => token_wf t = true) l ->
  cmd_balance (VJson (JArr l)) (a0 :: a1 :: a2 :: rest) api =
    match token_choice (StringToNumber a0) a1 l with
    | None => not_found_run (StringToNumber a0) a1
    | Some (addr, meta) =>
        finish (let* data := fetchBalance (api_url (StringToNumber a0) addr a2) api in
                lift (balance_result data meta))
    end.
Proof.
  intros Ha0 Ha1 Ha2 Hn Hl. unfold cmd_balance, arg_missing, token_choice.
  rewrite (proj2 (String.eqb_neq a0 "") Ha0), (proj2 (String.eqb_neq a1 "") Ha1),
    (proj2 (String.eqb_neq a2 "") Ha2), Hn. cbn [orb].
  rewrite resolveToken_wf by done. cbn [lift ebind].
  destruct (startsWith a1 "0x"); [done|]. cbn [negb].
  destruct (resolve_spec _ _ l) as [t|] eqn:E; [|done].
  assert (Ht : json_truthy t = true).
  { unfold resolve_spec in E. pose proof (Forall_wf_filter (chain_is (StringToNumber a0)) l Hl) as Hct.
    destruct (List.find _ _) as [t'|] eqn:Ea; [injection E as <-|]; by eapply find_wf. }
  by rewrite Ht.
Qed.

(** C19: A Super Token of the chain whose address matches the query wins
    over every record matching by symbol: [resolveToken] returns the
    first Super Token of the chain whose lowered address equals the
    lowered query, whatever precedes it (unlike tokenlist.mjs
    super-token, which takes the first match of either kind). *)
Theorem resolveToken_address_first l c a pre t post :
  Forall (fun u => token_wf u = true) l ->
  List.filter (chain_is c) l = (pre ++ t :: post)%list ->
  Forall (fun u => has_tag "supertoken" u && String.eqb (addr_l u) (toLowerCase a) = false) pre ->
  has_tag "supertoken" t = true -> addr_l t = toLowerCase a ->
  resolveToken (VJson (JArr l)) c a = inr (Some t).
Proof.
  intros Hl Hc Hpre Ht Ha. rewrite resolveToken_wf by done. unfold resolve_spec. rewrite Hc.
  rewrite find_first; [done|done|]. by rewrite Ht, Ha, String.eqb_refl.
Qed.

(** C20: A symbol that names no Super Token of the chain, by address or
    by symbol, prints the not-found line and the hint and exits 1, with
    nothing on stdout and whatever the Super API would have answered:
    the request is never made. *)
Theorem cmd_balance_not_found l a0 a1 a2 rest :
  a0 <> "" -> a1 <> "" -> a2 <> "" -> isNaN (StringToNumber a0) = false ->
  Forall (fun t => token_wf t = true) l -> startsWith a1 "0x" = false ->
  Forall (fun t => has_tag "supertoken" t &&
                   (String.eqb (addr_l t) (toLowerCase a1) || String.eqb (sym_l t) (toLowerCase a1)) = false)
         (List.filter (chain_is (StringToNumber a0)) l) ->
  forall api, cmd_balance (VJson (JArr l)) (a0 :: a1 :: a2 :: rest) api =
    mk_run [] [BalNoSuperToken (num_to_string (StringToNumber a0)) a1;
               BalHint (num_to_string (StringToNumber a0))] (ExitCode 1).
Proof.
  intros Ha0 Ha1 Ha2 Hn Hl Hx Hnone api. rewrite cmd_balance_wf by done.
  unfold token_choice, resolve_spec. rewrite Hx.
  rewrite !(proj2 (find_None_iff _ _)); [done| |];
    eapply Forall_impl; try apply Hnone; intros t; simpl;
    destruct (has_tag _ t), (String.eqb (addr_l t) _), (String.eqb (sym_l t) _); done.
Qed.

(** C21: UpstreamHttpError.  Once the token is chosen, a non-2xx answer
    of the Super API prints the status with the body, then the request
    URL, and exits 1 with nothing on stdout. *)
Theorem cmd_balance_api_error l a0 a1 a2 rest addr meta r :
  a0 <> "" -> a1 <> "" -> a2 <> "" -> isNaN (StringToNumber a0) = false ->
  Forall (fun t => token_wf t = true) l ->
  token_choice (StringToNumber a0) a1 l = Some (addr, meta) -> res_ok r = false ->
  cmd_balance (VJson (JArr l)) (a0 :: a1 :: a2 :: rest) (FetchOk r) =
    mk_run [] [BalApiHttp (res_status r) (res_body r); BalApiUrl (api_url (StringToNumber a0) addr a2)]
           (ExitCode 1).
Proof.
  intros Ha0 Ha1 Ha2 Hn Hl Hc Hr. rewrite cmd_balance_wf, Hc by done.
  unfold fetchBalance. by rewrite Hr.
Qed.

(** C22: An argument starting with [0x] is sent to the Super API as
    typed, but [tokenMeta] is still whatever [resolveToken] finds: when
    no Super Token of the chain has that address and one has it as its
    symbol, the symbol, name and decimals printed, and the decimals the
    balances are scaled by, are those of a token with another address. *)
Theorem cmd_balance_hex_symbol_meta l a0 a1 a2 rest t api :
  a0 <> "" -> a1 <> "" -> a2 <> "" -> isNaN (StringToNumber a0) = false ->
  Forall (fun u => token_wf u = true) l -> startsWith a1 "0x" = true ->
  Forall (fun u => has_tag "supertoken" u && String.eqb (addr_l u) (toLowerCase a1) = false)
         (List.filter (chain_is (StringToNumber a0)) l) ->
  List.find (fun u => has_tag "supertoken" u && String.eqb (sym_l u) (toLowerCase a1))
            (List.filter (chain_is (StringToNumber a0)) l) = Some t ->
  cmd_balance (VJson (JArr l)) (a0 :: a1 :: a2 :: rest) api =
    finish (let* data := fetchBalance (api_url (StringToNumber a0) (VJson (JStr a1)) a2) api in
            lift (balance_result data (Some t))).
Proof.
  intros Ha0 Ha1 Ha2 Hn Hl Hx Hnone Ht. rewrite cmd_balance_wf by done.
  unfold token_choice, resolve_spec. rewrite Hx, (proj2 (find_None_iff _ _) Hnone). by rewrite Ht.
Qed.
End CommandFacts.

(** ** Examples *)

Module BalanceExamples.
Import TokenlistExamples.

(** A host for [10 ** d]; the examples only use exponents in 0..22,
    where [js_pow10] does not consult it. *)
#[export] Instance example_pow : PowHost := {| host_pow10 := fun _ => NaN |}.

(** The Super API's answer for USDCx on Optimism, as a parsed body. *)
Definition api_data : json :=
  JObj [("chain", JNum (of_Z 10)); ("account", JStr "0xabc");
        ("token", JStr "0x8430F084B939208E2eDEd1584889C9A66B90562f");
        ("connectedBalance", JStr "2500000000000000000"); ("unconnectedBalance", JStr "0");
        ("connectedNetFlow", JStr "-385802469135802"); ("timestamp", JNum (of_Z 1700000000));
        ("maybeCriticalAt", JNull); ("underlyingToken", JNull)].

#[export] Instance api_codec : JsonCodec json :=
  {| json_parse := fun s => if String.eqb s "BODY" then inr api_data else inl "SyntaxError: Unexpected token";
     json_stringify := fun _ => "BODY" |}.
End BalanceExamples.

Import TokenlistExamples BalanceExamples.

Lemma formatBalance_whole_tokens_witness :
  formatBalance (VJson (JStr (wei_of 1 18))) (VJson (JNum (of_Z 18))) =
    inr (js_object [("wei", VJson (JStr (wei_of 1 18))); ("formatted", VJson (JStr (whole_fmt 1 18)))]).
Proof. apply formatBalance_whole_tokens; lia. Defined.

Lemma formatTimestamp_zero_string_witness :
  formatTimestamp (VJson (JStr "0x0")) =
    inr (js_object [("unix", VJson (JStr "0x0")); ("iso", VJson (JStr "1970-01-01T00:00:00.000Z"))]) /\
  formatTimestamp (VJson (JNum (StringToNumber "0x0"))) = inr JNull.
Proof. apply formatTimestamp_zero_string; [discriminate | run_eval]. Defined.

Lemma formatBalance_fraction_digits_witness :
  exists sign a b,
    formatBalance (VJson (JStr "1500000")) (VJson (JNum (of_Z 6))) =
      inr (js_object [("wei", VJson (JStr "1500000")); ("formatted", VJson (JStr (sign +:+ (a +:+ "." +:+ b))))]) /\
    String.length b = Z.to_nat (Z.min 6 8).
Proof. apply formatBalance_fraction_digits; [lia | run_eval]. Defined.

Lemma formatFlowRate_sign_witness :
  formatFlowRate (VJson (JStr "0")) (VJson (JNum (of_Z 18))) = inr JNull /\
  exists s m,
    formatFlowRate (VJson (JStr ("-" +:+ "500000000000000"))) (VJson (JNum (of_Z 18))) =
      inr (js_object [("wei_per_second", VJson (JStr ("-" +:+ "500000000000000")));
                      ("tokens_per_second", VJson (JStr ("-" +:+ s)));
                      ("tokens_per_month", VJson (JStr ("-" +:+ m)))]) /\
    head_char s <> Some "-"%char /\ head_char m <> Some "-"%char.
Proof. apply formatFlowRate_sign; [lia | discriminate]. Defined.

Lemma resolveToken_address_first_witness :
  resolveToken (VJson (JArr [by_symbol; by_address])) (of_Z 10) "0xFEED" = inr (Some by_address).
Proof.
  apply (resolveToken_address_first _ _ _ [by_symbol] by_address []);
    first [apply tokens_wf_of; run_eval | run_eval | constructor; [run_eval|constructor]].
Defined.

Lemma cmd_balance_not_found_witness :
  cmd_balance (VJson (JArr tokens)) ["10"; "WETHx"; "0xabc"] (FetchOk (mk_response 200 "BODY")) =
    mk_run [] [BalNoSuperToken (num_to_string (StringToNumber "10")) "WETHx";
               BalHint (num_to_string (StringToNumber "10"))] (ExitCode 1).
Proof.
  apply cmd_balance_not_found;
    first [discriminate | apply tokens_wf_of; run_eval | run_eval | vm_compute; repeat constructor].
Defined.

Lemma cmd_balance_api_error_witness :
  cmd_balance (VJson (JArr tokens)) ["10"; "USDCx"; "0xabc"] (FetchOk (mk_response 429 "rate limited")) =
    mk_run [] [BalApiHttp 429 "rate limited";
               BalApiUrl (api_url (StringToNumber "10") (get usdcx "address") "0xabc")] (ExitCode 1).
Proof.
  apply (cmd_balance_api_error _ _ _ _ _ _ (Some usdcx));
    first [discriminate | apply tokens_wf_of; run_eval | run_eval].
Defined.

Lemma cmd_balance_hex_symbol_meta_witness :
  cmd_balance (VJson (JArr [by_symbol])) ["10"; "0xFEED"; "0xabc"] (FetchOk (mk_response 200 "BODY")) =
    finish (let* data := fetchBalance (api_url (StringToNumber "10") (VJson (JStr "0xFEED")) "0xabc")
                                      (FetchOk (mk_response 200 "BODY")) in
            lift (balance_result data (Some by_symbol))).
Proof.
  apply cmd_balance_hex_symbol_meta;
    first [discriminate | apply tokens_wf_of; run_eval | run_eval | vm_compute; repeat constructor].
Defined.
